(** * The vehicle-detection dashboard of [app.js]: poll cycle, table
      rendering, period switching, commands, timers.

    The script keeps its state in three globals ([updateInterval],
    [isConnected], [currentPeriod]), in the chart object and in the DOM.
    Here that state is one record, every function of the script is a
    function on it, and a thrown exception is a [Throw] completion that
    still carries the state reached so far (JavaScript does not roll
    back the writes made before a throw).

    The page markup is not part of the script.  Elements the script
    fetches with [getElementById] and dereferences unconditionally are
    fields of [Dom]; the elements reached by class or attribute
    selectors are kept as a list in document order.

    An [async] function is modelled run to completion: the outcomes of
    the requests it awaits are arguments, and no other event is
    interleaved between its awaits. *)

From stdpp Require Import gmap strings list pretty.
From Stdlib Require Import Ascii QArith.

Close Scope Q_scope.
Local Open Scope string_scope.

(** ** Data carried by the backend payloads *)

(** [{labels: [...], data: [...]}]: one period of analytics. *)
Record Series := {
  labels : list string;
  data : list Z
}.

(** An entry of [colorThemes]. *)
Record Theme := {
  gradient : string * string;
  background : string;
  border : string
}.

(** An element of the [objects] array of [/detected-objects].  The
    score is a JavaScript number; its value is a rational and [>=] on
    numbers is the order of the rationals. *)
Record DetectedObject := {
  id : Z;
  vehicle_type : string;
  confidence_score : Q;
  detected_at : string;
  status : string
}.

(** [/vehicle-stats].  [analytics] is [None] when the field is absent
    (or otherwise falsy). *)
Record StatsPayload := {
  is_running : bool;
  analytics : option (gmap string Series)
}.

(** [/detected-objects].  [objects] is [None] when the field is absent,
    so that [objects.length] raises a TypeError. *)
Record ObjectsPayload := {
  active_objects : Z;
  objects : option (list DetectedObject)
}.

(** [{success, message?}] answered by the command endpoints. *)
Record CommandResult := {
  success : bool;
  message : option string
}.

(** [/health]. *)
Record HealthPayload := {
  health_status : string
}.

(** What [await fetch(url)] followed by [await response.json()] can
    give: the fetch promise rejects, or a response arrives with its
    [ok] flag and a body that [json()] parses ([Some]) or rejects
    ([None]). *)
Inductive Fetch (A : Type) :=
| NetworkError
| Response (ok : bool) (json : option A).
Arguments NetworkError {A}.
Arguments Response {A} ok json.

(** ** The chart object *)

Inductive UpdateMode := UpdateActive | UpdateNone | UpdateDefault.

(** [analyticsChart]: [data.labels], and of [data.datasets[0]] the
    fields the script writes; [chart_updates] logs the calls of
    [update(mode)]. *)
Record Chart := {
  chart_labels : list string;
  dataset_data : list Z;
  dataset_backgroundColor : string;
  dataset_borderColor : string;
  chart_updates : list UpdateMode
}.

(** ** The DOM *)

(** A row appended to the table body: the holes of the row template. *)
Record Row := {
  cell_id : Z;
  cell_vehicleClass : string;
  cell_icon : string;
  cell_vehicle_type : string;
  cell_confidenceClass : string;
  cell_confidence_score : Q;
  cell_detected_at : string;
  cell_statusClass : string;
  cell_status : string
}.

(** A command button: [disabled], [classList], [innerHTML]. *)
Record Button := {
  disabled : bool;
  btn_classList : list string;
  innerHTML : string
}.

(** An element reached through [.chart-control-btn] or
    [[data-period="..."]]. *)
Record Element := {
  classList : list string;
  data_period : option string
}.

(** A toast: a [div.notification] child of the body. *)
Record Notification := {
  n_node : nat;
  n_className : string;
  n_message : string;
  n_animation : string
}.

Record Dom := {
  active_objects_text : string;        (* #active-objects *)
  last_update_text : string;           (* #last-update *)
  detection_status_text : string;      (* #detection-status, textContent *)
  detection_status_class : string;     (* #detection-status, className *)
  status_text : string;                (* #status-text *)
  objects_table_body : list Row;       (* #objects-table-body children *)
  no_objects_display : string;         (* #no-objects, style.display *)
  object_count_badge : string;         (* #object-count-badge *)
  connection_status : string;          (* #connection-status, className *)
  reset_btn : Button;                  (* #reset-btn *)
  refresh_btn : Button;                (* #refresh-btn *)
  elements : list Element;             (* selector targets, document order *)
  notifications : list Notification;   (* .notification, document order *)
  next_node : nat                      (* identity of the next created node *)
}.

(** ** Timers *)

Inductive Callback :=
| CbUpdateData          (* () => { updateData(); } and updateData itself *)
| CbHealthCheck         (* healthCheck *)
| CbRemove (n : nat)    (* () => notification.remove() *)
| CbAutoDismiss (n : nat)
| CbWelcome.

Record Timer := {
  callback : Callback;
  delay : Z;
  repeating : bool        (* setInterval rather than setTimeout *)
}.

(** ** The whole state *)

Record State := {
  updateInterval : option positive;   (* undefined, or a timer id *)
  isConnected : bool;
  currentPeriod : string;
  touchStartX : Z;
  touchEndX : Z;
  analyticsChart : Chart;
  document : Dom;
  timers : gmap positive Timer;       (* the live timers of the window *)
  next_handle : positive;             (* the id the next timer gets *)
  fetches : list string;              (* requests issued so far *)
  console : list string               (* console.error / console.log *)
}.

(** ** Field updates (an assignment to one field keeps the others) *)

Definition set_updateInterval (v : option positive) (s : State) : State :=
  {| updateInterval := v; isConnected := isConnected s;
     currentPeriod := currentPeriod s; touchStartX := touchStartX s;
     touchEndX := touchEndX s; analyticsChart := analyticsChart s;
     document := document s; timers := timers s;
     next_handle := next_handle s; fetches := fetches s;
     console := console s |}.

Definition set_isConnected (v : bool) (s : State) : State :=
  {| updateInterval := updateInterval s; isConnected := v;
     currentPeriod := currentPeriod s; touchStartX := touchStartX s;
     touchEndX := touchEndX s; analyticsChart := analyticsChart s;
     document := document s; timers := timers s;
     next_handle := next_handle s; fetches := fetches s;
     console := console s |}.

Definition set_currentPeriod (v : string) (s : State) : State :=
  {| updateInterval := updateInterval s; isConnected := isConnected s;
     currentPeriod := v; touchStartX := touchStartX s;
     touchEndX := touchEndX s; analyticsChart := analyticsChart s;
     document := document s; timers := timers s;
     next_handle := next_handle s; fetches := fetches s;
     console := console s |}.

Definition set_touchStartX (v : Z) (s : State) : State :=
  {| updateInterval := updateInterval s; isConnected := isConnected s;
     currentPeriod := currentPeriod s; touchStartX := v;
     touchEndX := touchEndX s; analyticsChart := analyticsChart s;
     document := document s; timers := timers s;
     next_handle := next_handle s; fetches := fetches s;
     console := console s |}.

Definition set_touchEndX (v : Z) (s : State) : State :=
  {| updateInterval := updateInterval s; isConnected := isConnected s;
     currentPeriod := currentPeriod s; touchStartX := touchStartX s;
     touchEndX := v; analyticsChart := analyticsChart s;
     document := document s; timers := timers s;
     next_handle := next_handle s; fetches := fetches s;
     console := console s |}.

Definition upd_chart (f : Chart → Chart) (s : State) : State :=
  {| updateInterval := updateInterval s; isConnected := isConnected s;
     currentPeriod := currentPeriod s; touchStartX := touchStartX s;
     touchEndX := touchEndX s; analyticsChart := f (analyticsChart s);
     document := document s; timers := timers s;
     next_handle := next_handle s; fetches := fetches s;
     console := console s |}.

Definition upd_document (f : Dom → Dom) (s : State) : State :=
  {| updateInterval := updateInterval s; isConnected := isConnected s;
     currentPeriod := currentPeriod s; touchStartX := touchStartX s;
     touchEndX := touchEndX s; analyticsChart := analyticsChart s;
     document := f (document s); timers := timers s;
     next_handle := next_handle s; fetches := fetches s;
     console := console s |}.

Definition set_timers (m : gmap positive Timer) (n : positive) (s : State)
  : State :=
  {| updateInterval := updateInterval s; isConnected := isConnected s;
     currentPeriod := currentPeriod s; touchStartX := touchStartX s;
     touchEndX := touchEndX s; analyticsChart := analyticsChart s;
     document := document s; timers := m;
     next_handle := n; fetches := fetches s;
     console := console s |}.

Definition log_fetch (url : string) (s : State) : State :=
  {| updateInterval := updateInterval s; isConnected := isConnected s;
     currentPeriod := currentPeriod s; touchStartX := touchStartX s;
     touchEndX := touchEndX s; analyticsChart := analyticsChart s;
     document := document s; timers := timers s;
     next_handle := next_handle s; fetches := fetches s ++ [url];
     console := console s |}.

Definition log_console (line : string) (s : State) : State :=
  {| updateInterval := updateInterval s; isConnected := isConnected s;
     currentPeriod := currentPeriod s; touchStartX := touchStartX s;
     touchEndX := touchEndX s; analyticsChart := analyticsChart s;
     document := document s; timers := timers s;
     next_handle := next_handle s; fetches := fetches s;
     console := console s ++ [line] |}.

(** The chart: [data.labels = l; data.datasets[0].data = d], the theme
    colours, and [update(mode)]. *)
Definition set_series (sd : Series) (c : Chart) : Chart :=
  {| chart_labels := labels sd; dataset_data := data sd;
     dataset_backgroundColor := dataset_backgroundColor c;
     dataset_borderColor := dataset_borderColor c;
     chart_updates := chart_updates c |}.

Definition set_theme (t : Theme) (c : Chart) : Chart :=
  {| chart_labels := chart_labels c; dataset_data := dataset_data c;
     dataset_backgroundColor := background t;
     dataset_borderColor := border t;
     chart_updates := chart_updates c |}.

Definition chart_update (m : UpdateMode) (c : Chart) : Chart :=
  {| chart_labels := chart_labels c; dataset_data := dataset_data c;
     dataset_backgroundColor := dataset_backgroundColor c;
     dataset_borderColor := dataset_borderColor c;
     chart_updates := chart_updates c ++ [m] |}.

(** The DOM: one setter per property the script assigns. *)

Definition set_active_objects_text (v : string) (d : Dom) : Dom :=
  {| active_objects_text := v; last_update_text := last_update_text d;
     detection_status_text := detection_status_text d;
     detection_status_class := detection_status_class d;
     status_text := status_text d;
     objects_table_body := objects_table_body d;
     no_objects_display := no_objects_display d;
     object_count_badge := object_count_badge d;
     connection_status := connection_status d; reset_btn := reset_btn d;
     refresh_btn := refresh_btn d; elements := elements d;
     notifications := notifications d; next_node := next_node d |}.

Definition set_last_update_text (v : string) (d : Dom) : Dom :=
  {| active_objects_text := active_objects_text d; last_update_text := v;
     detection_status_text := detection_status_text d;
     detection_status_class := detection_status_class d;
     status_text := status_text d;
     objects_table_body := objects_table_body d;
     no_objects_display := no_objects_display d;
     object_count_badge := object_count_badge d;
     connection_status := connection_status d; reset_btn := reset_btn d;
     refresh_btn := refresh_btn d; elements := elements d;
     notifications := notifications d; next_node := next_node d |}.

Definition set_detection_status_text (v : string) (d : Dom) : Dom :=
  {| active_objects_text := active_objects_text d;
     last_update_text := last_update_text d; detection_status_text := v;
     detection_status_class := detection_status_class d;
     status_text := status_text d;
     objects_table_body := objects_table_body d;
     no_objects_display := no_objects_display d;
     object_count_badge := object_count_badge d;
     connection_status := connection_status d; reset_btn := reset_btn d;
     refresh_btn := refresh_btn d; elements := elements d;
     notifications := notifications d; next_node := next_node d |}.

Definition set_detection_status_class (v : string) (d : Dom) : Dom :=
  {| active_objects_text := active_objects_text d;
     last_update_text := last_update_text d;
     detection_status_text := detection_status_text d;
     detection_status_class := v; status_text := status_text d;
     objects_table_body := objects_table_body d;
     no_objects_display := no_objects_display d;
     object_count_badge := object_count_badge d;
     connection_status := connection_status d; reset_btn := reset_btn d;
     refresh_btn := refresh_btn d; elements := elements d;
     notifications := notifications d; next_node := next_node d |}.

Definition set_status_text (v : string) (d : Dom) : Dom :=
  {| active_objects_text := active_objects_text d;
     last_update_text := last_update_text d;
     detection_status_text := detection_status_text d;
     detection_status_class := detection_status_class d; status_text := v;
     objects_table_body := objects_table_body d;
     no_objects_display := no_objects_display d;
     object_count_badge := object_count_badge d;
     connection_status := connection_status d; reset_btn := reset_btn d;
     refresh_btn := refresh_btn d; elements := elements d;
     notifications := notifications d; next_node := next_node d |}.

Definition set_objects_table_body (v : list Row) (d : Dom) : Dom :=
  {| active_objects_text := active_objects_text d;
     last_update_text := last_update_text d;
     detection_status_text := detection_status_text d;
     detection_status_class := detection_status_class d;
     status_text := status_text d; objects_table_body := v;
     no_objects_display := no_objects_display d;
     object_count_badge := object_count_badge d;
     connection_status := connection_status d; reset_btn := reset_btn d;
     refresh_btn := refresh_btn d; elements := elements d;
     notifications := notifications d; next_node := next_node d |}.

Definition set_no_objects_display (v : string) (d : Dom) : Dom :=
  {| active_objects_text := active_objects_text d;
     last_update_text := last_update_text d;
     detection_status_text := detection_status_text d;
     detection_status_class := detection_status_class d;
     status_text := status_text d;
     objects_table_body := objects_table_body d; no_objects_display := v;
     object_count_badge := object_count_badge d;
     connection_status := connection_status d; reset_btn := reset_btn d;
     refresh_btn := refresh_btn d; elements := elements d;
     notifications := notifications d; next_node := next_node d |}.

Definition set_object_count_badge (v : string) (d : Dom) : Dom :=
  {| active_objects_text := active_objects_text d;
     last_update_text := last_update_text d;
     detection_status_text := detection_status_text d;
     detection_status_class := detection_status_class d;
     status_text := status_text d;
     objects_table_body := objects_table_body d;
     no_objects_display := no_objects_display d; object_count_badge := v;
     connection_status := connection_status d; reset_btn := reset_btn d;
     refresh_btn := refresh_btn d; elements := elements d;
     notifications := notifications d; next_node := next_node d |}.

Definition set_connection_status (v : string) (d : Dom) : Dom :=
  {| active_objects_text := active_objects_text d;
     last_update_text := last_update_text d;
     detection_status_text := detection_status_text d;
     detection_status_class := detection_status_class d;
     status_text := status_text d;
     objects_table_body := objects_table_body d;
     no_objects_display := no_objects_display d;
     object_count_badge := object_count_badge d; connection_status := v;
     reset_btn := reset_btn d; refresh_btn := refresh_btn d;
     elements := elements d; notifications := notifications d;
     next_node := next_node d |}.

Definition set_reset_btn (v : Button) (d : Dom) : Dom :=
  {| active_objects_text := active_objects_text d;
     last_update_text := last_update_text d;
     detection_status_text := detection_status_text d;
     detection_status_class := detection_status_class d;
     status_text := status_text d;
     objects_table_body := objects_table_body d;
     no_objects_display := no_objects_display d;
     object_count_badge := object_count_badge d;
     connection_status := connection_status d; reset_btn := v;
     refresh_btn := refresh_btn d; elements := elements d;
     notifications := notifications d; next_node := next_node d |}.

Definition set_refresh_btn (v : Button) (d : Dom) : Dom :=
  {| active_objects_text := active_objects_text d;
     last_update_text := last_update_text d;
     detection_status_text := detection_status_text d;
     detection_status_class := detection_status_class d;
     status_text := status_text d;
     objects_table_body := objects_table_body d;
     no_objects_display := no_objects_display d;
     object_count_badge := object_count_badge d;
     connection_status := connection_status d; reset_btn := reset_btn d;
     refresh_btn := v; elements := elements d;
     notifications := notifications d; next_node := next_node d |}.

Definition set_elements (v : list Element) (d : Dom) : Dom :=
  {| active_objects_text := active_objects_text d;
     last_update_text := last_update_text d;
     detection_status_text := detection_status_text d;
     detection_status_class := detection_status_class d;
     status_text := status_text d;
     objects_table_body := objects_table_body d;
     no_objects_display := no_objects_display d;
     object_count_badge := object_count_badge d;
     connection_status := connection_status d; reset_btn := reset_btn d;
     refresh_btn := refresh_btn d; elements := v;
     notifications := notifications d; next_node := next_node d |}.

Definition set_notifications (v : list Notification) (d : Dom) : Dom :=
  {| active_objects_text := active_objects_text d;
     last_update_text := last_update_text d;
     detection_status_text := detection_status_text d;
     detection_status_class := detection_status_class d;
     status_text := status_text d;
     objects_table_body := objects_table_body d;
     no_objects_display := no_objects_display d;
     object_count_badge := object_count_badge d;
     connection_status := connection_status d; reset_btn := reset_btn d;
     refresh_btn := refresh_btn d; elements := elements d;
     notifications := v; next_node := next_node d |}.

Definition set_next_node (v : nat) (d : Dom) : Dom :=
  {| active_objects_text := active_objects_text d;
     last_update_text := last_update_text d;
     detection_status_text := detection_status_text d;
     detection_status_class := detection_status_class d;
     status_text := status_text d;
     objects_table_body := objects_table_body d;
     no_objects_display := no_objects_display d;
     object_count_badge := object_count_badge d;
     connection_status := connection_status d; reset_btn := reset_btn d;
     refresh_btn := refresh_btn d; elements := elements d;
     notifications := notifications d; next_node := v |}.

(** ** Completions: normal return or exception, both with the state *)

Inductive Completion (A : Type) :=
| Normal (v : A) (s : State)
| Throw (s : State).
Arguments Normal {A} v s.
Arguments Throw {A} s.

Definition state_of {A} (c : Completion A) : State :=
  match c with Normal _ s => s | Throw s => s end.

Definition JS (A : Type) : Type := State → Completion A.

Definition ret {A} (v : A) : JS A := λ s, Normal v s.
Definition throw {A} : JS A := λ s, Throw s.
Definition modify (f : State → State) : JS unit := λ s, Normal tt (f s).

Definition bind {A B} (m : JS A) (k : A → JS B) : JS B :=
  λ s, match m s with
       | Normal v s' => k v s'
       | Throw s' => Throw s'
       end.

(** [try { body } catch (error) { handler }] *)
Definition try_catch {A} (body handler : JS A) : JS A :=
  λ s, match body s with
       | Normal v s' => Normal v s'
       | Throw s' => handler s'
       end.

(** [try { body } finally { fin }]: [fin] runs on both exits and the
    completion of [body] is kept unless [fin] throws itself. *)
Definition try_finally {A} (body : JS A) (fin : JS unit) : JS A :=
  λ s, match body s with
       | Normal v s' =>
           match fin s' with Normal _ s'' => Normal v s'' | Throw s'' => Throw s'' end
       | Throw s' => Throw (state_of (fin s'))
       end.

(** A value whose absence makes the next dereference throw. *)
Definition deref {A} (o : option A) : JS A :=
  match o with Some v => ret v | None => throw end.

Notation "x <- m ;; k" := (bind m (λ x, k))
  (at level 100, m at next level, right associativity).
Notation "m ;; k" := (bind m (λ _, k))
  (at level 100, right associativity).

(** ** Timers of the window *)

Definition new_timer (t : Timer) (s : State) : State :=
  set_timers (<[next_handle s := t]> (timers s)) (Pos.succ (next_handle s)) s.

(** [setInterval(cb, ms)] returns the id it registered. *)
Definition setInterval (cb : Callback) (ms : Z) : JS positive :=
  λ s, Normal (next_handle s)
         (new_timer {| callback := cb; delay := ms; repeating := true |} s).

Definition setTimeout (cb : Callback) (ms : Z) (s : State) : State :=
  new_timer {| callback := cb; delay := ms; repeating := false |} s.

Definition clearInterval (h : positive) (s : State) : State :=
  set_timers (delete h (timers s)) (next_handle s) s.

(** ** Class lists *)

Definition classList_remove (c : string) (l : list string) : list string :=
  filter (λ x, x ≠ c) l.

Definition classList_add (c : string) (l : list string) : list string :=
  if decide (c ∈ l) then l else l ++ [c].

Definition classList_contains (c : string) (l : list string) : bool :=
  bool_decide (c ∈ l).

(** ** showNotification *)

Definition slideOut : string := "slideOut 0.3s ease-in-out forwards".

Definition leave (n : Notification) : Notification :=
  {| n_node := n_node n; n_className := n_className n;
     n_message := n_message n; n_animation := slideOut |}.

Definition showNotification (message type : string) (s : State) : State :=
  let existingNotifications := notifications (document s) in
  (* existing ones animate out and are removed 300ms later *)
  let s := upd_document (set_notifications (leave <$> existingNotifications)) s in
  let s := foldl (λ s n, setTimeout (CbRemove (n_node n)) 300 s) s
             existingNotifications in
  (* the new one *)
  let node := next_node (document s) in
  let notification :=
    {| n_node := node; n_className := "notification notification-" +:+ type;
       n_message := message; n_animation := "" |} in
  let s := upd_document (set_next_node (S node)) s in
  let s := upd_document
             (λ d, set_notifications (notifications d ++ [notification]) d) s in
  setTimeout (CbAutoDismiss node) 5000 s.

(** ** generateSampleData *)

Definition sample_day : Series :=
  {| labels := ["00:00"; "03:00"; "06:00"; "09:00"; "12:00"; "15:00";
                "18:00"; "21:00"];
     data := [12; 8; 25; 45; 38; 52; 68; 42]%Z |}.

Definition sample_week : Series :=
  {| labels := ["Monday"; "Tuesday"; "Wednesday"; "Thursday"; "Friday";
                "Saturday"; "Sunday"];
     data := [234; 187; 298; 345; 412; 389; 267]%Z |}.

Definition sample_month : Series :=
  {| labels := ["Week 1"; "Week 2"; "Week 3"; "Week 4"];
     data := [1250; 1434; 1123; 1567]%Z |}.

(** The object literal [data] of [generateSampleData]. *)
Definition sample_data : gmap string Series :=
  list_to_map [("day", sample_day); ("week", sample_week);
               ("month", sample_month)].

(** [return data[period] || data.day] *)
Definition generateSampleData (period : string) : Series :=
  match sample_data !! period with
  | Some d => d
  | None => sample_day
  end.

Definition colorThemes : gmap string Theme :=
  list_to_map
    [("day", {| gradient := ("#667eea", "#764ba2");
                background := "rgba(102, 126, 234, 0.1)";
                border := "#667eea" |});
     ("week", {| gradient := ("#f093fb", "#f5576c");
                 background := "rgba(240, 147, 251, 0.1)";
                 border := "#f093fb" |});
     ("month", {| gradient := ("#4facfe", "#00f2fe");
                  background := "rgba(79, 172, 254, 0.1)";
                  border := "#4facfe" |})].

(** ** changePeriod *)

(** [btn.classList.remove('active')] on every [.chart-control-btn]. *)
Definition deactivate (e : Element) : Element :=
  if classList_contains "chart-control-btn" (classList e)
  then {| classList := classList_remove "active" (classList e);
          data_period := data_period e |}
  else e.

Definition activate (e : Element) : Element :=
  {| classList := classList_add "active" (classList e);
     data_period := data_period e |}.

(** [document.querySelector(`[data-period="${period}"]`)]: the position
    of the first element carrying that attribute value, [None] for
    [null]. *)
Fixpoint querySelector (period : string) (l : list Element) : option nat :=
  match l with
  | [] => None
  | e :: r =>
      if decide (data_period e = Some period) then Some 0
      else S <$> querySelector period r
  end.

Definition toUpperCase (c : ascii) : ascii :=
  let n := nat_of_ascii c in
  if Nat.leb 97 n && Nat.leb n 122 then ascii_of_nat (n - 32) else c.

(** [period.charAt(0).toUpperCase() + period.slice(1)] (ASCII letters). *)
Definition periodText (period : string) : string :=
  match period with
  | EmptyString => EmptyString
  | String c r => String (toUpperCase c) r
  end.

(** A period is a string; the one non-string the script can produce,
    [undefined] out of [periods[-2]], is written ["undefined"], which is
    what the script's uses of it (property key, template hole,
    [indexOf]) make of it. *)
Definition changePeriod (period : string) : JS unit :=
  modify (set_currentPeriod period) ;;
  (* Update active button *)
  modify (upd_document (λ d, set_elements (deactivate <$> elements d) d)) ;;
  i <- (λ s, deref (querySelector period (elements (document s))) s) ;;
  modify (upd_document (λ d, set_elements (alter activate i (elements d)) d)) ;;
  (* Update chart theme *)
  theme <- deref (colorThemes !! period) ;;
  modify (upd_chart (set_theme theme)) ;;
  (* Update chart data *)
  let sampleData := generateSampleData period in
  modify (upd_chart (set_series sampleData)) ;;
  modify (upd_chart (chart_update UpdateActive)) ;;
  (* Show notification *)
  modify (showNotification
            ("📊 Switched to " +:+ periodText period +:+ " view") "info").

(** ** updateConnectionStatus *)

Definition updateConnectionStatus (connected : bool) (s : State) : State :=
  if connected
  then set_isConnected true
         (upd_document (set_connection_status "status-indicator connected") s)
  else set_isConnected false
         (upd_document (set_connection_status "status-indicator") s).

(** ** updateObjectsTable *)

Definition confidenceClass (score : Q) : string :=
  if Qle_bool 80%Q score then "confidence-high"
  else if Qle_bool 60%Q score then "confidence-medium"
  else "confidence-low".

Definition vehicleClass (obj : DetectedObject) : string :=
  if decide (vehicle_type obj = "car") then "vehicle-car"
  else "vehicle-motorcycle".

Definition statusClass (obj : DetectedObject) : string :=
  if decide (status obj = "Active") then "status-active"
  else "status-expired".

(** The row built for one object. *)
Definition row_of (obj : DetectedObject) : Row :=
  {| cell_id := id obj;
     cell_vehicleClass := vehicleClass obj;
     cell_icon := if decide (vehicle_type obj = "car") then "🚗" else "🏍️";
     cell_vehicle_type := vehicle_type obj;
     cell_confidenceClass := confidenceClass (confidence_score obj);
     cell_confidence_score := confidence_score obj;
     cell_detected_at := detected_at obj;
     cell_statusClass := statusClass obj;
     cell_status := status obj |}.

(** [objects] is an array here; the caller that may pass [undefined]
    ([updateData]) raises the TypeError of [objects.length] itself,
    which is the first thing the function evaluates. *)
Definition updateObjectsTable (objects : list DetectedObject) (s : State)
  : State :=
  (* Update count badge *)
  let s := upd_document
             (set_object_count_badge (pretty (length objects) +:+ " objects")) s in
  if decide (length objects = 0) then
    let s := upd_document (set_no_objects_display "block") s in
    upd_document (set_objects_table_body []) s
  else
    let s := upd_document (set_no_objects_display "none") s in
    (* Clear existing rows *)
    let s := upd_document (set_objects_table_body []) s in
    (* Add new rows *)
    foldl (λ s obj,
             upd_document
               (λ d, set_objects_table_body (objects_table_body d ++ [row_of obj]) d)
               s)
          s objects.

(** ** updateData *)

(** An [async] function called without [await]: its completion settles
    a promise nobody observes, the caller goes on normally.  In the
    browser the part after the first [await] runs once the caller has
    finished.  The one detached call with statements after it is
    [updateData()] in [initialize]; those statements register timers,
    which the rest of [updateData] neither reads nor writes, so
    running the call to its end in place gives the same state. *)
Definition detach {A} (m : JS A) : JS unit :=
  λ s, Normal tt (state_of (m s)).

Definition show_running (d : Dom) : Dom :=
  set_status_text "Running"
    (set_detection_status_class "stat-value status-running"
       (set_detection_status_text "●" d)).

Definition show_stopped (d : Dom) : Dom :=
  set_status_text "Stopped"
    (set_detection_status_class "stat-value status-stopped"
       (set_detection_status_text "⏸" d)).

(** [now] is what [new Date().toLocaleTimeString()] gives during the
    cycle. *)
Definition updateData (now : string) (stats : Fetch StatsPayload)
    (objs : Fetch ObjectsPayload) : JS unit :=
  try_catch
    (modify (log_fetch "GET /vehicle-stats") ;;
     modify (log_fetch "GET /detected-objects") ;;
     match stats, objs with
     | Response stats_ok stats_json, Response objs_ok objs_json =>
         (if negb stats_ok || negb objs_ok then throw else ret tt) ;;
         statsData <- deref stats_json ;;
         objectsData <- deref objs_json ;;
         (* Update connection status *)
         modify (updateConnectionStatus true) ;;
         (* Update display values *)
         modify (upd_document
                   (set_active_objects_text (pretty (active_objects objectsData)))) ;;
         modify (upd_document (set_last_update_text now)) ;;
         (* Update detection status *)
         modify (upd_document
                   (if is_running statsData then show_running else show_stopped)) ;;
         (* Update objects table *)
         objs <- deref (objects objectsData) ;;
         modify (updateObjectsTable objs) ;;
         (* Update analytics chart with real data if available *)
         (λ s, match analytics statsData with
               | Some a =>
                   match a !! currentPeriod s with
                   | Some analyticsData =>
                       modify (upd_chart
                                 (λ c, chart_update UpdateNone
                                         (set_series analyticsData c))) s
                   | None => ret tt s
                   end
               | None => ret tt s
               end)
     | _, _ => throw   (* Promise.all rejects *)
     end)
    (modify (log_console "Error updating data:") ;;
     modify (updateConnectionStatus false)).

(** ** resetCount and refreshData *)

Definition loading (text : string) (b : Button) : Button :=
  {| disabled := true;
     btn_classList := classList_add "loading" (btn_classList b);
     innerHTML := text |}.

Definition restore (originalText : string) (b : Button) : Button :=
  {| disabled := false;
     btn_classList := classList_remove "loading" (btn_classList b);
     innerHTML := originalText |}.

Definition upd_reset_btn (f : Button → Button) (d : Dom) : Dom :=
  set_reset_btn (f (reset_btn d)) d.

Definition upd_refresh_btn (f : Button → Button) (d : Dom) : Dom :=
  set_refresh_btn (f (refresh_btn d)) d.

(** [confirmed] is the answer of the [confirm] dialog, [reply] the
    outcome of [POST /reset-count] (whose [ok] flag is not looked at). *)
Definition resetCount (confirmed : bool) (reply : Fetch CommandResult)
  : JS unit :=
  λ s0,
    let originalText := innerHTML (reset_btn (document s0)) in
    if negb confirmed then Normal tt s0 else
    try_finally
      (try_catch
         (modify (upd_document (upd_reset_btn (loading "Resetting..."))) ;;
          modify (log_fetch "POST /reset-count") ;;
          result <- match reply with
                    | NetworkError => throw
                    | Response _ json => deref json
                    end ;;
          if success result then
            modify (showNotification "🔄 All data reset successfully!" "success") ;;
            (* Reset chart data to sample data *)
            modify (λ s, upd_chart
                           (set_series (generateSampleData (currentPeriod s))) s) ;;
            modify (upd_chart (chart_update UpdateDefault)) ;;
            (* Clear objects table *)
            modify (updateObjectsTable [])
          else
            modify (showNotification "❌ Failed to reset data" "error"))
         (modify (log_console "Error resetting data:") ;;
          modify (showNotification "❌ Failed to reset data" "error")))
      (modify (upd_document (upd_reset_btn (restore originalText))) ;;
       modify (setTimeout CbUpdateData 500))
      s0.

Definition refreshData (now : string) (stats : Fetch StatsPayload)
    (objs : Fetch ObjectsPayload) : JS unit :=
  λ s0,
    let originalText := innerHTML (refresh_btn (document s0)) in
    try_finally
      (try_catch
         (modify (upd_document (upd_refresh_btn (loading "Refreshing..."))) ;;
          updateData now stats objs ;;
          modify (showNotification "🔁 Data refreshed successfully!" "success"))
         (modify (log_console "Error refreshing data:") ;;
          modify (showNotification "❌ Failed to refresh data" "error")))
      (modify (upd_document (upd_refresh_btn (restore originalText))))
      s0.

(** ** startAutoReconnect and healthCheck *)

Definition clear_updateInterval : JS unit :=
  λ s, match updateInterval s with
       | Some h => modify (clearInterval h) s
       | None => ret tt s
       end.

Definition startAutoReconnect : JS unit :=
  clear_updateInterval ;;
  h <- setInterval CbUpdateData 3000 ;;
  modify (set_updateInterval (Some h)).

Definition healthCheck (reply : Fetch HealthPayload) : JS bool :=
  try_catch
    (modify (log_fetch "GET /health") ;;
     data <- match reply with
             | NetworkError => throw
             | Response _ json => deref json
             end ;;
     if decide (health_status data = "healthy") then
       modify (updateConnectionStatus true) ;;
       ret true
     else ret false)   (* falls out of the try block to [return false] *)
    (modify (log_console "Health check failed:") ;;
     modify (updateConnectionStatus false) ;;
     ret false).

(** ** Touch gestures *)

Definition periods : list string := ["day"; "week"; "month"].

(** [Array.prototype.indexOf]: the first position, [-1] when absent. *)
Fixpoint indexOf_from (i : Z) (x : string) (l : list string) : Z :=
  match l with
  | [] => (-1)%Z
  | y :: r => if decide (y = x) then i else indexOf_from (i + 1)%Z x r
  end.

Definition indexOf (x : string) (l : list string) : Z := indexOf_from 0 x l.

(** [l[i]]; out of range it is [undefined]. *)
Definition at_index (l : list string) (i : Z) : string :=
  if decide (i < 0)%Z then "undefined"
  else default "undefined" (l !! Z.to_nat i).

Definition handleGesture : JS unit :=
  λ s,
    let threshold := 100%Z in
    let diff := (touchStartX s - touchEndX s)%Z in
    if decide (Z.abs diff > threshold)%Z then
      if decide (diff > 0)%Z then
        (* Swipe left - next period *)
        let currentIndex := indexOf (currentPeriod s) periods in
        let nextIndex := Z.rem (currentIndex + 1) (Z.of_nat (length periods)) in
        changePeriod (at_index periods nextIndex) s
      else
        (* Swipe right - previous period *)
        let currentIndex := indexOf (currentPeriod s) periods in
        let prevIndex :=
          if decide (currentIndex = 0)%Z then (Z.of_nat (length periods) - 1)%Z
          else (currentIndex - 1)%Z in
        changePeriod (at_index periods prevIndex) s
    else Normal tt s.

(** The [touchstart] and [touchend] listeners, with the [screenX] of the
    first changed touch. *)
Definition touchstart (screenX : Z) : JS unit :=
  modify (set_touchStartX screenX).

Definition touchend (screenX : Z) : JS unit :=
  modify (set_touchEndX screenX) ;;
  handleGesture.

(** A listener that throws ends there; the page goes on from the state
    it reached. *)
Definition swipe (startX endX : Z) (s : State) : State :=
  state_of (touchend endX (state_of (touchstart startX s))).

(** ** initialize, the visibility listener and timer ticks *)

(** What the outside answers during one event. *)
Record Net := {
  now : string;
  stats_reply : Fetch StatsPayload;
  objects_reply : Fetch ObjectsPayload;
  health_reply : Fetch HealthPayload
}.

Definition poll (net : Net) : JS unit :=
  detach (updateData (now net) (stats_reply net) (objects_reply net)).

Definition initialize (net : Net) : JS unit :=
  modify (log_console "🚗 Modern Vehicle Detection Dashboard initialized") ;;
  (* Initialize with sample data *)
  changePeriod "day" ;;
  (* Start data updates *)
  poll net ;;
  startAutoReconnect ;;
  (* Setup periodic health checks *)
  _ <- setInterval CbHealthCheck 15000 ;;
  (* Show welcome notification *)
  modify (setTimeout CbWelcome 500).

(** The [visibilitychange] listener; [hidden] is [document.hidden]. *)
Definition visibilitychange (hidden : bool) (net : Net) : JS unit :=
  if hidden then clear_updateInterval
  else startAutoReconnect ;; poll net.

(** The [keydown] listener; [ctrl] is [e.ctrlKey || e.metaKey]. *)
Definition keydown (ctrl : bool) (key : string) (net : Net) : JS unit :=
  if ctrl then
    if decide (key = "r") then
      detach (refreshData (now net) (stats_reply net) (objects_reply net))
    else if decide (key = "1") then changePeriod "day"
    else if decide (key = "2") then changePeriod "week"
    else if decide (key = "3") then changePeriod "month"
    else ret tt
  else ret tt.

Definition remove_node (n : nat) (d : Dom) : Dom :=
  set_notifications (filter (λ x, n_node x ≠ n) (notifications d)) d.

Definition leave_node (n : nat) (d : Dom) : Dom :=
  set_notifications
    ((λ x, if decide (n_node x = n) then leave x else x) <$> notifications d) d.

Definition run_callback (cb : Callback) (net : Net) : JS unit :=
  match cb with
  | CbUpdateData => poll net
  | CbHealthCheck => detach (healthCheck (health_reply net))
  | CbRemove n => modify (upd_document (remove_node n))
  | CbAutoDismiss n =>
      λ s, if decide (n ∈ n_node <$> notifications (document s)) then
             modify (λ s, setTimeout (CbRemove n) 300
                            (upd_document (leave_node n) s)) s
           else ret tt s
  | CbWelcome =>
      modify (showNotification
                "🎉 Dashboard loaded successfully! Use Ctrl+1/2/3 to switch views, Ctrl+R to refresh."
                "success")
  end.

(** The timer [h] comes due.  A cancelled timer does nothing; a
    one-shot timer is spent before its callback runs. *)
Definition fire (h : positive) (net : Net) : JS unit :=
  λ s, match timers s !! h with
       | None => Normal tt s
       | Some t =>
           run_callback (callback t) net
             (if repeating t then s else clearInterval h s)
       end.

(** The globals and the chart as the script creates them, on a page. *)
Definition initial_state (page : Dom) : State :=
  {| updateInterval := None; isConnected := true; currentPeriod := "day";
     touchStartX := 0; touchEndX := 0;
     analyticsChart :=
       {| chart_labels := []; dataset_data := [];
          dataset_backgroundColor := "rgba(102, 126, 234, 0.1)";
          dataset_borderColor := "#667eea"; chart_updates := [] |};
     document := page; timers := ∅; next_handle := 1;
     fetches := []; console := [] |}.

(** ** A concrete page, for running the script *)

Definition control (period : string) (cls : list string) : Element :=
  {| classList := "chart-control-btn" :: cls; data_period := Some period |}.

Definition idle (text : string) : Button :=
  {| disabled := false; btn_classList := ["btn"]; innerHTML := text |}.

(** The dashboard before the first poll: three period buttons, the day
    one marked, an empty table. *)
Definition demo_page : Dom :=
  {| active_objects_text := "0"; last_update_text := "--:--:--";
     detection_status_text := "⏸";
     detection_status_class := "stat-value status-stopped";
     status_text := "Stopped";
     objects_table_body := []; no_objects_display := "block";
     object_count_badge := "0 objects";
     connection_status := "status-indicator connected";
     reset_btn := idle "Reset"; refresh_btn := idle "Refresh";
     elements := [control "day" ["active"]; control "week" [];
                  control "month" []];
     notifications := []; next_node := 0 |}.

Definition car (n : Z) (score : Q) : DetectedObject :=
  {| id := n; vehicle_type := "car"; confidence_score := score;
     detected_at := "12:00:00"; status := "Active" |}.

Definition stats_ok (running : bool) : Fetch StatsPayload :=
  Response true (Some {| is_running := running; analytics := None |}).

Definition objects_ok (l : list DetectedObject) : Fetch ObjectsPayload :=
  Response true
    (Some {| active_objects := Z.of_nat (length l); objects := Some l |}).

(** [POST /reset-count] answering [{success: false}]. *)
Definition reset_refused : Fetch CommandResult :=
  Response true (Some {| success := false; message := None |}).

Definition demo_net : Net :=
  {| now := "12:00:03"; stats_reply := stats_ok true;
     objects_reply := objects_ok [car 1 (91 # 1); car 2 (79 # 1)];
     health_reply := Response true (Some {| health_status := "healthy" |}) |}.

(** ** startDetection and stopDetection

    The two commands work on their own buttons, [#start-btn] and
    [#stop-btn], which nothing else in the script reads or writes: the
    button is an argument and a result beside the state. *)

Definition command_reply (reply : Fetch CommandResult) : JS CommandResult :=
  match reply with
  | NetworkError => throw
  | Response _ json => deref json
  end.

(** [`${result.message}`] when the field may be absent. *)
Definition message_text (result : CommandResult) : string :=
  default "undefined" (message result).

Definition startDetection (reply : Fetch CommandResult) (button : Button)
    (s : State) : Button * Completion unit :=
  let originalText := innerHTML button in
  (restore originalText (loading "Starting..." button),
   try_finally
     (try_catch
        (modify (log_fetch "POST /start-detection") ;;
         result <- command_reply reply ;;
         if success result then
           modify (showNotification "🚀 Detection started successfully!" "success")
         else
           modify (showNotification (message_text result) "warning"))
        (modify (log_console "Error starting detection:") ;;
         modify (showNotification "❌ Failed to start detection" "error")))
     (modify (setTimeout CbUpdateData 500))
     s).

Definition stopDetection (reply : Fetch CommandResult) (button : Button)
    (s : State) : Button * Completion unit :=
  let originalText := innerHTML button in
  (restore originalText (loading "Stopping..." button),
   try_finally
     (try_catch
        (modify (log_fetch "POST /stop-detection") ;;
         result <- command_reply reply ;;
         if success result then
           modify (showNotification "⏹️ Detection stopped successfully!" "success")
         else
           modify (showNotification "❌ Failed to stop detection" "error"))
        (modify (log_console "Error stopping detection:") ;;
         modify (showNotification "❌ Failed to stop detection" "error")))
     (modify (setTimeout CbUpdateData 500))
     s).


(** ** Events

    What can happen to a page that loaded the script.  The page is the
    dashboard state, the two command buttons ([None] when the markup has
    no such element), and whether [initialize] got as far as registering
    its two listeners. *)
Record Page := {
  dashboard : State;
  start_btn : option Button;
  stop_btn : option Button;
  listening : bool
}.

(** The listeners the script registers ([visibilitychange] and [keydown]
    inside [initialize]; [beforeunload], [mousemove], [touchstart] and
    [touchend] at top level), a timer coming due, the close button of a
    toast, and the five commands, global functions for the markup to
    call. *)
Inductive Event :=
| VisibilityChange (hidden : bool) (net : Net)
| KeyDown (ctrl : bool) (key : string) (net : Net)
| TimerDue (h : positive) (net : Net)
| TouchStart (screenX : Z)
| TouchEnd (screenX : Z)
| MouseMove
| BeforeUnload
| CloseToast (n : nat)
| CallChangePeriod (period : string)
| CallStartDetection (reply : Fetch CommandResult)
| CallStopDetection (reply : Fetch CommandResult)
| CallResetCount (confirmed : bool) (reply : Fetch CommandResult)
| CallRefreshData (net : Net).

(** A handler that works on the dashboard state alone; when it throws,
    the state it reached stays. *)
Definition on_dashboard {A} (m : JS A) (p : Page) : Page :=
  {| dashboard := state_of (m (dashboard p));
     start_btn := start_btn p; stop_btn := stop_btn p;
     listening := listening p |}.

(** The two listeners of [initialize] answer only once registered.  The
    [mousemove] listener writes the background position of the body,
    which is no part of the state.  The close button of toast [n]
    removes its node.  A command whose button is missing throws at
    [button.innerHTML], before anything is done. *)
Definition dispatch (e : Event) (p : Page) : Page :=
  match e with
  | VisibilityChange hidden net =>
      if listening p then on_dashboard (visibilitychange hidden net) p else p
  | KeyDown ctrl key net =>
      if listening p then on_dashboard (keydown ctrl key net) p else p
  | TimerDue h net => on_dashboard (fire h net) p
  | TouchStart x => on_dashboard (touchstart x) p
  | TouchEnd x => on_dashboard (touchend x) p
  | MouseMove => p
  | BeforeUnload => on_dashboard clear_updateInterval p
  | CloseToast n => on_dashboard (modify (upd_document (remove_node n))) p
  | CallChangePeriod period => on_dashboard (changePeriod period) p
  | CallStartDetection reply =>
      match start_btn p with
      | None => p
      | Some button =>
          {| dashboard :=
               state_of (startDetection reply button (dashboard p)).2;
             start_btn := Some (startDetection reply button (dashboard p)).1;
             stop_btn := stop_btn p; listening := listening p |}
      end
  | CallStopDetection reply =>
      match stop_btn p with
      | None => p
      | Some button =>
          {| dashboard :=
               state_of (stopDetection reply button (dashboard p)).2;
             start_btn := start_btn p;
             stop_btn := Some (stopDetection reply button (dashboard p)).1;
             listening := listening p |}
      end
  | CallResetCount confirmed reply =>
      on_dashboard (detach (resetCount confirmed reply)) p
  | CallRefreshData net =>
      on_dashboard
        (detach (refreshData (now net) (stats_reply net) (objects_reply net))) p
  end.

(** A sequence of events, each handled to its end. *)
Definition run (events : list Event) (p : Page) : Page :=
  foldl (λ p e, dispatch e p) p events.

(** The one event whose listener calls [startAutoReconnect]. *)
Definition becomes_visible (e : Event) : bool :=
  match e with
  | VisibilityChange false _ => true
  | _ => false
  end.

(** The page as the script finds it: nothing registered yet. *)
Definition unloaded (page : Dom) (start stop : option Button) : Page :=
  {| dashboard := initial_state page; start_btn := start; stop_btn := stop;
     listening := false |}.

Definition returned {A} (c : Completion A) : bool :=
  match c with
  | Normal _ _ => true
  | Throw _ => false
  end.

(** [DOMContentLoaded]: [initialize] runs.  Nothing after
    [changePeriod('day')] can throw, so the two listeners are registered
    exactly when [initialize] returns. *)
Definition loaded (net : Net) (p : Page) : Page :=
  {| dashboard := state_of (initialize net (dashboard p));
     start_btn := start_btn p; stop_btn := stop_btn p;
     listening := returned (initialize net (dashboard p)) |}.

(** The pages the script can reach: some events may come before
    [DOMContentLoaded], any events after it. *)
Inductive reachable (page : Dom) : Page → Prop :=
| reach_loaded net start stop early :
    reachable page (loaded net (run early (unloaded page start stop)))
| reach_dispatch e p : reachable page p → reachable page (dispatch e p).

(** ** The portfolio page: project modal

    The first half of the script serves the portfolio page.  Its parts
    touch disjoint elements, so each has a small state of its own. *)

(** An entry of [projectData]. *)
Record Project := {
  title : string;
  role : string;
  period : string;
  description : string;
  technologies : list string;
  features : list string;
  challenges : list string
}.

Definition project_lokatani : Project :=
  {| title := "STARFINDO Road Damage Detection";
     role := "Machine Learning Engineer";
     period := "Maret - Juni 2025";
     description :=
       "Developed a web application using Flask to display real-time road damage detection results, enhancing user experience and accessibility.";
     technologies :=
       ["HTML";
        "Tailwind CSS";
        "Chart.js";
        "Flask API";
        "ESP32";
        "Machine Learning";
        "Yolo"];
     features :=
       ["Real-time Detection → Identifies road damages (potholes, cracks, surface degradation) using YOLOv8.";
        "Damage Classification → Differentiates between multiple damage types with confidence scores.";
        "Location Tracking → Captures GPS coordinates of detected damages.";
        "Data Storage → Syncs detection results (image, type,location) to Firebase in real-time.";
        "Visualization Dashboard → Displays road damage reports on a web-based dashboard with mapping support."];
     challenges :=
       ["Dataset Quality & Diversity → Road damage images often varied in lighting, angle, and resolution, making model training more complex.";
        "Real-time Performance → Balancing high detection accuracy with fast inference speed on mobile devices.";
        "Model Optimization → Converting YOLOv8 to TensorFlow Lite while maintaining performance and minimizing size.";
        "Data Integration → Ensuring smooth communication between detection pipeline and Firebase for real-time updates."] |}.

Definition project_smart_door : Project :=
  {| title := "Smart Door Lock with Face Recognition";
     role := "Frontend Development";
     period := "September 2023 - Februari 2024";
     description :=
       "Smart door lock with face recognition, equipped with Python API, database management, and robust security system.";
     technologies :=
       ["Python";
        "Face Recognition API";
        "SQLite/MySQL";
        "REST API";
        "Encryption";
        "Authentication Protocols";
        "IoT Sensors"];
     features :=
       ["Robust Python API for communication between IoT devices and server";
        "Database management for user data and access log storage";
        "High-accuracy face recognition system";
        "End-to-end encryption protocol for data security";
        "Multi-layer authentication system for secure access";
        "Real-time logging and monitoring of access system";
        "Layered security policies with fail-safe mechanism";
        "API endpoints for user management and access control";
        "Integration with hardware sensors for presence detection"];
     challenges :=
       ["Optimization of face recognition algorithms for high accuracy";
        "Implementation of multi-layer security protocols without compromising performance";
        "Efficient database management for large-scale access logs";
        "Seamless hardware-software integration"] |}.

Definition project_network_simulation : Project :=
  {| title := "Network Infrastructure Simulation";
     role := "Network Designer & Administrator";
     period := "Desember 2023 - Februari 2024";
     description :=
       "Network infrastructure design and simulation with routing configuration, segmentation, and server management.";
     technologies :=
       ["Cisco Packet Tracer";
        "Router Configuration";
        "Switch Management";
        "DNS Server";
        "HTTP Server";
        "ACL";
        "Network Security"];
     features :=
       ["Enterprise network topology design with multiple subnets";
        "Routing protocol configuration (OSPF, EIGRP, RIP) for path optimization";
        "Network segmentation for traffic isolation and security";
        "Implementation of Access Control Lists (ACL) for traffic filtering";
        "Setup and configuration of DNS server for name resolution";
        "Deployment of HTTP server with load balancing configuration";
        "VLAN configuration for network segmentation";
        "Implementation of network monitoring and troubleshooting tools";
        "Disaster recovery planning and redundancy setup"];
     challenges :=
       ["Routing optimization for maximum network performance";
        "Balancing security and accessibility in ACL configuration";
        "Scalability planning for future network expansion";
        "Integration of multiple services within a single infrastructure"] |}.

Definition project_iot_hardware : Project :=
  {| title := "IoT Hardware Development";
     role := "Hardware IoT Specialist";
     period := "Maret - September 2024";
     description :=
       "IoT device development with Arduino and ESP8266, including component selection and sensor programming.";
     technologies :=
       ["Arduino";
        "ESP8266";
        "ESP32";
        "nRF24L01+";
        "Various Sensors";
        "Actuators";
        "C/C++";
        "IoT Protocols"];
     features :=
       ["Selection and evaluation of optimal components (Arduino, ESP8266, nRF24L01+)";
        "Hardware assembly with considerations for EMI and power consumption";
        "Embedded systems programming using C/C++ for optimal performance";
        "Implementation of wireless communication using nRF24L01+ protocol";
        "Integration of various sensors (temperature, humidity, motion, light)";
        "Actuator control for automated system response";
        "Power management optimization for battery-powered devices";
        "Data logging and transmission to cloud platforms";
        "Real-time monitoring dashboard for device status";
        "OTA (Over-The-Air) update capability for remote maintenance"];
     challenges :=
       ["Power consumption optimization for battery-powered applications";
        "Reliability testing under various environmental conditions";
        "Integration of multiple sensors with a single microcontroller";
        "Wireless communication stability in industrial environments"] |}.

Definition projectData : gmap string Project :=
  list_to_map
    [("lokatani", project_lokatani);
     ("smart-door", project_smart_door);
     ("network-simulation", project_network_simulation);
     ("iot-hardware", project_iot_hardware)].

(** What [showProjectModal] writes into [#modalContent]: the holes of
    its template.  [content_image] is the [alt] text of the picture,
    present for one title only. *)
Record ModalContent := {
  content_image : option string;
  content_period : string;
  content_description : string;
  content_tags : list string;
  content_features : list string;
  content_challenges : list string
}.

(** Which of the elements the modal code looks up exist in the markup. *)
Record ModalMarkup := {
  has_projectModal : bool;    (* #projectModal *)
  has_close : bool;           (* .close *)
  has_modalTitle : bool;      (* #modalTitle *)
  has_modalRole : bool;       (* #modalRole *)
  has_modalContent : bool;    (* #modalContent *)
  has_modal_content : bool    (* .modal-content *)
}.

Record Modal := {
  modal_display : string;             (* #projectModal, style.display *)
  body_overflow : string;             (* body, style.overflow *)
  modalTitle : string;                (* #modalTitle, textContent *)
  modalRole : string;                 (* #modalRole, textContent *)
  modalContent : option ModalContent; (* #modalContent, once written *)
  entrance_transform : string;        (* .modal-content, style.transform *)
  entrance_opacity : string;
  entrance_transition : string;
  entrance_pending : nat              (* pending 10ms entrance timers *)
}.

Definition content_of (project : Project) : ModalContent :=
  {| content_image :=
       if decide (title project = "STARFINDO Road Damage Detection")
       then Some (title project) else None;
     content_period := period project;
     content_description := description project;
     content_tags := technologies project;
     content_features := features project;
     content_challenges := challenges project |}.

Definition showProjectModal (markup : ModalMarkup) (project : Project)
    (m : Modal) : Modal :=
  if negb (has_projectModal markup) || negb (has_modalTitle markup)
     || negb (has_modalRole markup) || negb (has_modalContent markup)
  then m
  else
    {| modal_display := "block";
       body_overflow := "hidden";
       modalTitle := title project;
       modalRole := role project;
       modalContent := Some (content_of project);
       entrance_transform :=
         if has_modal_content markup then "translateY(-50px)"
         else entrance_transform m;
       entrance_opacity :=
         if has_modal_content markup then "0" else entrance_opacity m;
       entrance_transition := entrance_transition m;
       entrance_pending :=
         if has_modal_content markup then S (entrance_pending m)
         else entrance_pending m |}.

(** [modal.style.display = 'none'; document.body.style.overflow = 'auto'] *)
Definition closeModal (m : Modal) : Modal :=
  {| modal_display := "none";
     body_overflow := "auto";
     modalTitle := modalTitle m;
     modalRole := modalRole m;
     modalContent := modalContent m;
     entrance_transform := entrance_transform m;
     entrance_opacity := entrance_opacity m;
     entrance_transition := entrance_transition m;
     entrance_pending := entrance_pending m |}.

(** The callback of the 10ms timer of [showProjectModal]. *)
Definition entrance_done (m : Modal) : Modal :=
  {| modal_display := modal_display m;
     body_overflow := body_overflow m;
     modalTitle := modalTitle m;
     modalRole := modalRole m;
     modalContent := modalContent m;
     entrance_transform := "translateY(0)";
     entrance_opacity := "1";
     entrance_transition := "all 0.3s ease";
     entrance_pending := pred (entrance_pending m) |}.

(** What the listeners of [initProjectModals] react to. *)
Inductive ModalEvent :=
| CardClick (projectId : string)     (* a .project-card, its data-project *)
| CloseClick                          (* the X *)
| WindowClick (on_modal : bool)       (* e.target === modal *)
| ModalKey (key : string)
| EntranceDue.                        (* the 10ms timer *)

(** [initProjectModals] registers its listeners only when the modal
    and the close button both exist.  [projectId] is the key the
    attribute value makes in [projectData[projectId]] (["null"] for a
    card without the attribute); the keys every object inherits are
    not entries of the table here. *)
Definition modal_step (markup : ModalMarkup) (e : ModalEvent) (m : Modal)
  : Modal :=
  match e with
  | EntranceDue =>
      if decide (entrance_pending m = 0) then m else entrance_done m
  | _ =>
      if negb (has_projectModal markup) || negb (has_close markup) then m
      else
        match e with
        | CardClick projectId =>
            match projectData !! projectId with
            | Some project => showProjectModal markup project m
            | None => m
            end
        | CloseClick => closeModal m
        | WindowClick on_modal => if on_modal then closeModal m else m
        | ModalKey key =>
            if decide (key = "Escape")
            then if decide (modal_display m = "block") then closeModal m else m
            else m
        | EntranceDue => m
        end
  end.


(** ** The portfolio page: menu, header, scroll-to-top button *)

(** [element.classList.toggle(c)] *)
Definition classList_toggle (c : string) (l : list string) : list string :=
  if decide (c ∈ l) then classList_remove c l else classList_add c l.

(** The click listener of [initMobileMenu], on the class list of
    [.nav-links]; it is registered only when both elements exist. *)
Definition menu_click (has_mobile_menu has_nav_links : bool)
    (nav_links : list string) : list string :=
  if has_mobile_menu && has_nav_links
  then classList_toggle "show" nav_links
  else nav_links.

(** The header as [initHeaderScroll] styles it, with the [lastScrollTop]
    of its closure.  Scroll offsets are JavaScript numbers. *)
Record Header := {
  lastScrollTop : Q;
  header_transform : string;
  header_background : string;
  header_boxShadow : string
}.

(** [x || y] on numbers: [x] unless it is zero. *)
Definition or_number (x y : Q) : Q := if Qeq_bool x 0 then y else x.

(** [a > b] on numbers. *)
Definition Qgt_bool (a b : Q) : bool := negb (Qle_bool a b).

(** The scroll listener of [initHeaderScroll]; the arguments are
    [window.pageYOffset] and [document.documentElement.scrollTop]. *)
Definition header_scroll (pageYOffset docScrollTop : Q) (h : Header) : Header :=
  let scrollTop := or_number pageYOffset docScrollTop in
  {| lastScrollTop := scrollTop;
     header_transform :=
       if Qgt_bool scrollTop (lastScrollTop h) && Qgt_bool scrollTop 100
       then "translateY(-100%)"      (* Scrolling down *)
       else "translateY(0)";         (* Scrolling up *)
     header_background :=
       if Qgt_bool scrollTop 50 then "rgba(255, 255, 255, 0.98)"
       else "rgba(255, 255, 255, 0.95)";
     header_boxShadow :=
       if Qgt_bool scrollTop 50 then "0 2px 20px rgba(0, 0, 0, 0.1)"
       else "none" |}.

Definition header_initial (transform background boxShadow : string) : Header :=
  {| lastScrollTop := 0; header_transform := transform;
     header_background := background; header_boxShadow := boxShadow |}.

(** The button [initScrollToTop] creates: [style.opacity] and
    [style.visibility]. *)
Record ScrollTopBtn := {
  btn_opacity : string;
  btn_visibility : string
}.

Definition scrollTopBtn_created : ScrollTopBtn :=
  {| btn_opacity := "0"; btn_visibility := "hidden" |}.

(** Its scroll listener. *)
Definition scrollTopBtn_scroll (pageYOffset : Q) (b : ScrollTopBtn)
  : ScrollTopBtn :=
  if Qgt_bool pageYOffset 300
  then {| btn_opacity := "1"; btn_visibility := "visible" |}
  else {| btn_opacity := "0"; btn_visibility := "hidden" |}.

(** ** The portfolio page: typing animation

    A text is the sequence of its code units; [charAt] picks one. *)
Inductive TypingTimer := TypeTitle | TypeSubtitle.

Record Typing := {
  heroTitle : list ascii;          (* .hero h1, textContent *)
  heroSubtitle : list ascii;       (* .hero p, textContent *)
  titleIndex : nat;
  subtitleIndex : nat;
  typing_pending : option (TypingTimer * Z);   (* the timer set, its delay *)
  typing_elapsed : Z                           (* delays of the timers fired *)
}.

(** [s.charAt(i)]: the unit at [i], the empty string past the end. *)
Definition charAt (text : list ascii) (i : nat) : list ascii :=
  match text !! i with
  | Some c => [c]
  | None => []
  end.

(** [initTypingAnimation] when both elements exist: the texts are kept
    in [titleText] and [subtitleText], the elements are emptied and the
    first timer is set. *)
Definition typing_start : Typing :=
  {| heroTitle := []; heroSubtitle := []; titleIndex := 0;
     subtitleIndex := 0; typing_pending := Some (TypeTitle, 1000%Z);
     typing_elapsed := 0 |}.

Definition typeTitle (titleText : list ascii) (t : Typing) : Typing :=
  if decide (titleIndex t < length titleText) then
    {| heroTitle := heroTitle t ++ charAt titleText (titleIndex t);
       heroSubtitle := heroSubtitle t;
       titleIndex := S (titleIndex t);
       subtitleIndex := subtitleIndex t;
       typing_pending := Some (TypeTitle, 100%Z);
       typing_elapsed := typing_elapsed t |}
  else
    {| heroTitle := heroTitle t; heroSubtitle := heroSubtitle t;
       titleIndex := titleIndex t; subtitleIndex := subtitleIndex t;
       typing_pending := Some (TypeSubtitle, 500%Z);
       typing_elapsed := typing_elapsed t |}.

Definition typeSubtitle (subtitleText : list ascii) (t : Typing) : Typing :=
  if decide (subtitleIndex t < length subtitleText) then
    {| heroTitle := heroTitle t;
       heroSubtitle := heroSubtitle t ++ charAt subtitleText (subtitleIndex t);
       titleIndex := titleIndex t;
       subtitleIndex := S (subtitleIndex t);
       typing_pending := Some (TypeSubtitle, 50%Z);
       typing_elapsed := typing_elapsed t |}
  else t.

(** The pending timer comes due: it is spent, its delay has passed and
    its callback runs. *)
Definition typing_tick (titleText subtitleText : list ascii) (t : Typing)
  : Typing :=
  match typing_pending t with
  | None => t
  | Some (timer, delay) =>
      let spent :=
        {| heroTitle := heroTitle t; heroSubtitle := heroSubtitle t;
           titleIndex := titleIndex t; subtitleIndex := subtitleIndex t;
           typing_pending := None;
           typing_elapsed := (typing_elapsed t + delay)%Z |} in
      match timer with
      | TypeTitle => typeTitle titleText spent
      | TypeSubtitle => typeSubtitle subtitleText spent
      end
  end.


(** * Observations used in the statements *)

(** What the page shows of the last successful poll: table, empty-state
    message, count badge, chart arrays, running/stopped indicator,
    active-object count and time of update. *)
Definition rendered_data (s : State) :=
  (objects_table_body (document s), no_objects_display (document s),
   object_count_badge (document s),
   chart_labels (analyticsChart s), dataset_data (analyticsChart s),
   (detection_status_text (document s), detection_status_class (document s),
    status_text (document s)),
   active_objects_text (document s), last_update_text (document s)).

(** What no poll touches: toasts, timers, buttons, period. *)
Definition beside_poll (s : State) :=
  (notifications (document s), next_node (document s), timers s,
   next_handle s, refresh_btn (document s), reset_btn (document s),
   elements (document s), currentPeriod s, updateInterval s).

(** The globals, the chart and the logs. *)
Definition globals (s : State) :=
  (updateInterval s, isConnected s, currentPeriod s, touchStartX s,
   touchEndX s, analyticsChart s, fetches s, console s).

(** What no timer registration touches. *)
Definition beside_timers (s : State) := (globals s, document s).

(** A read request failed: the fetch rejected, or the response status
    is not a success. *)
Definition request_failed {A} (r : Fetch A) : bool :=
  match r with
  | NetworkError => true
  | Response ok _ => negb ok
  end.

(** The three writes of [updateObjectsTable] at once. *)
Definition table_of (objects : list DetectedObject) (d : Dom) : Dom :=
  set_objects_table_body (row_of <$> objects)
    (set_no_objects_display
       (if decide (length objects = 0) then "block" else "none")
       (set_object_count_badge (pretty (length objects) +:+ " objects") d)).

Definition append_row (s : State) (obj : DetectedObject) : State :=
  upd_document
    (λ d, set_objects_table_body (objects_table_body d ++ [row_of obj]) d) s.

(** The chart step of a successful poll. *)
Definition apply_analytics (statsData : StatsPayload) (s : State) : State :=
  match analytics statsData with
  | Some a =>
      match a !! currentPeriod s with
      | Some analyticsData =>
          upd_chart (λ c, chart_update UpdateNone (set_series analyticsData c)) s
      | None => s
      end
  | None => s
  end.

(** The writes of a successful poll that come before the table. *)
Definition apply_status (now : string) (statsData : StatsPayload)
    (objectsData : ObjectsPayload) (s : State) : State :=
  upd_document (if is_running statsData then show_running else show_stopped)
    (upd_document (set_last_update_text now)
       (upd_document
          (set_active_objects_text (pretty (active_objects objectsData)))
          (updateConnectionStatus true
             (log_fetch "GET /detected-objects"
                (log_fetch "GET /vehicle-stats" s))))).

(** The toast [showNotification message type] creates on [s]. *)
Definition toast (message type : string) (s : State) : Notification :=
  {| n_node := next_node (document s);
     n_className := "notification notification-" +:+ type;
     n_message := message; n_animation := "" |}.

(** Period buttons. *)
Definition is_control (e : Element) : bool :=
  classList_contains "chart-control-btn" (classList e).

Definition is_active_control (e : Element) : bool :=
  is_control e && classList_contains "active" (classList e).

Definition active_controls (d : Dom) : nat :=
  length (filter (λ e, is_active_control e = true) (elements d)).

(** The page has a period button for [period], and it is what the
    attribute selector finds. *)
Definition has_control (period : string) (d : Dom) : bool :=
  match querySelector period (elements d) with
  | Some i =>
      match elements d !! i with
      | Some e => is_control e
      | None => false
      end
  | None => false
  end.

(** Timers.  The poll timer is the repeating timer of [updateData]. *)
Definition is_poll_timer (t : Timer) : bool :=
  match callback t with CbUpdateData => repeating t | _ => false end.

Definition is_health_timer (t : Timer) : bool :=
  match callback t with CbHealthCheck => repeating t | _ => false end.

(** The part of the state the timer invariant reads. *)
Definition timer_state (s : State) :=
  (timers s, next_handle s, updateInterval s).

(** The timer table and [updateInterval] agree: ids are handed out in
    increasing order, and the live poll timer is the timer
    [updateInterval] names. *)
Record timers_ok (s : State) : Prop := {
  ok_fresh : ∀ h, is_Some (timers s !! h) → (h < next_handle s)%positive;
  ok_tracked : ∀ h t, timers s !! h = Some t → is_poll_timer t = true →
                      updateInterval s = Some h;
  ok_named_old : ∀ h, updateInterval s = Some h → (h < next_handle s)%positive;
  ok_named_poll : ∀ h t, updateInterval s = Some h → timers s !! h = Some t →
                         is_poll_timer t = true
}.

Definition poll_timer : Timer :=
  {| callback := CbUpdateData; delay := 3000; repeating := true |}.

(** Where [startAutoReconnect] ends. *)
Definition restarted (s : State) : State :=
  set_updateInterval (Some (next_handle s))
    (new_timer poll_timer (state_of (clear_updateInterval s))).

(** A computation that keeps the timer invariant, however it ends. *)
Definition preserves {A} (m : JS A) : Prop :=
  ∀ s, timers_ok s → timers_ok (state_of (m s)).

Definition poll_requests : list string :=
  ["GET /vehicle-stats"; "GET /detected-objects"].

(** The running dashboard, and the same with the page hidden. *)
Definition demo_started : State :=
  state_of (initialize demo_net (initial_state demo_page)).

Definition demo_hidden : State :=
  state_of (visibilitychange true demo_net demo_started).

(** Where [resetCount] ends when the backend answers [success: false],
    and where [refreshData] ends when its poll returns. *)
Definition reset_failed_state (s : State) : State :=
  setTimeout CbUpdateData 500
    (upd_document
       (upd_reset_btn (restore (innerHTML (reset_btn (document s)))))
       (showNotification "❌ Failed to reset data" "error"
          (log_fetch "POST /reset-count"
             (upd_document (upd_reset_btn (loading "Resetting...")) s)))).

Definition refreshed_state (now : string) (stats : Fetch StatsPayload)
    (objs : Fetch ObjectsPayload) (s : State) : State :=
  upd_document
    (upd_refresh_btn (restore (innerHTML (refresh_btn (document s)))))
    (showNotification "🔁 Data refreshed successfully!" "success"
       (state_of
          (updateData now stats objs
             (upd_document (upd_refresh_btn (loading "Refreshing...")) s)))).

(** ** Further observations *)

Definition body_unparsable {A} (r : Fetch A) : bool :=
  match r with
  | Response _ None => true
  | _ => false
  end.

(** What the try/catch of [resetCount] does after the request is sent. *)
Definition reset_outcome (reply : Fetch CommandResult) (s : State) : State :=
  match reply with
  | Response _ (Some result) =>
      if success result then
        updateObjectsTable []
          (upd_chart (chart_update UpdateDefault)
             ((λ s, upd_chart
                      (set_series (generateSampleData (currentPeriod s))) s)
                (showNotification "🔄 All data reset successfully!" "success" s)))
      else showNotification "❌ Failed to reset data" "error" s
  | _ =>
      showNotification "❌ Failed to reset data" "error"
        (log_console "Error resetting data:" s)
  end.

(** No result object comes back: the fetch rejected or the body does
    not parse. *)
Definition no_result {A} (r : Fetch A) : bool :=
  match r with
  | Response _ (Some _) => false
  | _ => true
  end.

Definition refetch_timer : Timer :=
  {| callback := CbUpdateData; delay := 500; repeating := false |}.

(** The property names every object literal inherits; the lookups
    [data[period]] and [colorThemes[period]] find those too. *)
Definition inherited_keys : list string :=
  ["constructor"; "hasOwnProperty"; "isPrototypeOf"; "propertyIsEnumerable";
   "toLocaleString"; "toString"; "valueOf"; "__proto__";
   "__defineGetter__"; "__defineSetter__"; "__lookupGetter__";
   "__lookupSetter__"].

Definition health_timer : Timer :=
  {| callback := CbHealthCheck; delay := 15000; repeating := true |}.

Definition welcome_timer : Timer :=
  {| callback := CbWelcome; delay := 500; repeating := false |}.

(** The timers [showNotification] registers. *)
Definition removal_timer (n : nat) : Timer :=
  {| callback := CbRemove n; delay := 300; repeating := false |}.

Definition dismiss_timer (n : nat) : Timer :=
  {| callback := CbAutoDismiss n; delay := 5000; repeating := false |}.

(** A toast that is not on its way out. *)
Definition is_staying (n : Notification) : bool :=
  bool_decide (n_animation n ≠ slideOut).

(** Toasts are distinct nodes, created before the next one. *)
Definition toasts_fresh (s : State) : Prop :=
  Forall (λ x, n_node x < next_node (document s)) (notifications (document s))
  ∧ NoDup (n_node <$> notifications (document s)).

(** What the invariants below read. *)
Definition core_view (s : State) :=
  (timers s, next_handle s, updateInterval s, isConnected s,
   connection_status (document s), notifications (document s),
   next_node (document s)).

(** A computation that keeps [P], however it ends. *)
Definition keeps (P : State → Prop) {A} (m : JS A) : Prop :=
  ∀ s, P s → P (state_of (m s)).

(** The global [isConnected] and the class of the indicator agree. *)
Definition mark_consistent (s : State) : Prop :=
  connection_status (document s)
  = if isConnected s then "status-indicator connected" else "status-indicator".

(** No recurring poll timer is registered. *)
Definition no_poll_timer (s : State) : Prop :=
  ∀ h t, timers s !! h = Some t → is_poll_timer t = false.

(** The id [h] was handed out and its timer is no longer registered. *)
Definition cancelled (h : positive) (s : State) : Prop :=
  timers s !! h = None ∧ (h < next_handle s)%positive.

(** The page stays in the background through [events]: none of them
    tells the listener that the page is visible. *)
Definition stays_hidden (events : list Event) : Prop :=
  Forall (λ e, becomes_visible e = false) events.

(** The page goes to the background and stays there through [events];
    then it comes back. *)
Definition hidden_through (net : Net) (events : list Event) (p : Page) : Page :=
  run events (dispatch (VisibilityChange true net) p).

Definition shown_after (net net' : Net) (events : list Event) (p : Page)
    : Page :=
  dispatch (VisibilityChange false net') (hidden_through net events p).

(** The running dashboard as a page, with both command buttons. *)
Definition demo_loaded : Page :=
  loaded demo_net
    (unloaded demo_page (Some (idle "Start")) (Some (idle "Stop"))).

(** [POST /start-detection] answering [{success: true}]. *)
Definition command_ok : Fetch CommandResult :=
  Response true (Some {| success := true; message := None |}).

(** What happens on the demo page while it is in the background: the
    health check comes due, a start command completes, the re-fetch it
    scheduled comes due, the toast is closed, the page is told once more
    that it is hidden. *)
Definition demo_background : list Event :=
  [TimerDue 3 demo_net; CallStartDetection command_ok;
   TimerDue 7 demo_net; CloseToast 1; MouseMove;
   CallResetCount true reset_refused; VisibilityChange true demo_net].

(** The timer table is consistent and the timer [t0] is live at [h0]. *)
Definition health_live (h0 : positive) (t0 : Timer) (s : State) : Prop :=
  timers_ok s ∧ timers s !! h0 = Some t0.




(** The markup has every element the modal code needs. *)
Definition markup_complete (markup : ModalMarkup) : bool :=
  has_projectModal markup && has_close markup && has_modalTitle markup
  && has_modalRole markup && has_modalContent markup.

(** The page scroll is locked exactly while the modal is shown. *)
Definition scroll_lock_matches (m : Modal) : Prop :=
  (modal_display m = "block" ∧ body_overflow m = "hidden")
  ∨ (modal_display m ≠ "block" ∧ body_overflow m ≠ "hidden").

(** The three gestures that close the modal. *)
Definition closes (e : ModalEvent) : bool :=
  match e with
  | CloseClick => true
  | WindowClick on_modal => on_modal
  | ModalKey key => bool_decide (key = "Escape")
  | _ => false
  end.

(** The typing animation after [i] units of the title, after the whole
    title and [j] units of the subtitle, and at its end. *)
Definition typing_title (titleText : list ascii) (i : nat) : Typing :=
  {| heroTitle := take i titleText; heroSubtitle := [];
     titleIndex := i; subtitleIndex := 0;
     typing_pending :=
       Some (TypeTitle, if decide (i = 0) then 1000%Z else 100%Z);
     typing_elapsed :=
       if decide (i = 0) then 0%Z else (1000 + 100 * (Z.of_nat i - 1))%Z |}.

Definition typing_subtitle (titleText subtitleText : list ascii) (j : nat)
  : Typing :=
  {| heroTitle := titleText; heroSubtitle := take j subtitleText;
     titleIndex := length titleText; subtitleIndex := j;
     typing_pending :=
       Some (TypeSubtitle, if decide (j = 0) then 500%Z else 50%Z);
     typing_elapsed :=
       (1000 + 100 * Z.of_nat (length titleText)
        + if decide (j = 0%nat) then 0 else 500 + 50 * (Z.of_nat j - 1))%Z |}.

Definition typing_finished (titleText subtitleText : list ascii) : Typing :=
  {| heroTitle := titleText; heroSubtitle := subtitleText;
     titleIndex := length titleText; subtitleIndex := length subtitleText;
     typing_pending := None;
     typing_elapsed :=
       (1000 + 100 * Z.of_nat (length titleText)
        + 500 + 50 * Z.of_nat (length subtitleText))%Z |}.

(** The animation after [k] of its timers came due. *)
Definition typing_run (titleText subtitleText : list ascii) (k : nat) : Typing :=
  Nat.iter k (typing_tick titleText subtitleText) typing_start.


(** A portfolio page with every element of the modal, and its modal
    before the first click. *)
Definition demo_markup : ModalMarkup :=
  {| has_projectModal := true; has_close := true; has_modalTitle := true;
     has_modalRole := true; has_modalContent := true;
     has_modal_content := true |}.

Definition demo_modal : Modal :=
  {| modal_display := ""; body_overflow := ""; modalTitle := "";
     modalRole := ""; modalContent := None; entrance_transform := "";
     entrance_opacity := ""; entrance_transition := "";
     entrance_pending := 0 |}.



(** * The object table *)

Ltac unfold_js :=
  cbv [try_catch try_finally bind modify ret throw deref detach state_of].

Section Table.

Lemma foldl_append_rows (l : list DetectedObject) (s : State) :
  foldl append_row s l =
  upd_document
    (λ d, set_objects_table_body (objects_table_body d ++ (row_of <$> l)) d) s.
Proof.
  revert s. induction l as [|obj l IH]; intros s.
  - destruct s as [? ? ? ? ? ? d ? ? ? ?], d.
    unfold upd_document, set_objects_table_body; cbn [foldl fmap list_fmap].
    by rewrite app_nil_r.
  - cbn [foldl]. rewrite IH. destruct s as [? ? ? ? ? ? d ? ? ? ?], d.
    unfold append_row, upd_document, set_objects_table_body.
    cbn [document objects_table_body]. by rewrite <- app_assoc.
Qed.

Lemma updateObjectsTable_closed (objects : list DetectedObject) (s : State) :
  updateObjectsTable objects s = upd_document (table_of objects) s.
Proof.
  unfold updateObjectsTable, table_of. case_decide as Hlen.
  - destruct objects; [|done]. by destruct s as [? ? ? ? ? ? d ? ? ? ?], d.
  - fold append_row. rewrite foldl_append_rows.
    by destruct s as [? ? ? ? ? ? d ? ? ? ?], d.
Qed.

Lemma confidenceClass_high (score : Q) :
  (80 <= score)%Q → confidenceClass score = "confidence-high".
Proof.
  intros H. unfold confidenceClass.
  by rewrite (proj2 (Qle_bool_iff _ _) H).
Qed.

Lemma Qle_bool_false (x y : Q) : (y < x)%Q → Qle_bool x y = false.
Proof.
  intros H. destruct (Qle_bool x y) eqn:E; [|done].
  apply Qle_bool_iff in E. by apply Qle_not_lt in E.
Qed.

Lemma confidenceClass_medium (score : Q) :
  (60 <= score)%Q → (score < 80)%Q →
  confidenceClass score = "confidence-medium".
Proof.
  intros Hlo Hhi. unfold confidenceClass.
  by rewrite (Qle_bool_false _ _ Hhi), (proj2 (Qle_bool_iff _ _) Hlo).
Qed.

Lemma confidenceClass_low (score : Q) :
  (score < 60)%Q → confidenceClass score = "confidence-low".
Proof.
  intros H. unfold confidenceClass.
  rewrite (Qle_bool_false 60 _ H), (Qle_bool_false 80 score); [done|].
  eapply Qlt_trans; [exact H|]. reflexivity.
Qed.

(** C7.  The confidence class of the row rendered for an object is
    decided by its score alone, with inclusive lower bounds: a score of
    at least 80 gives the high class, a score of at least 60 and below
    80 the medium class, any lower score the low class.  In particular
    79 and 60 are medium and 80 is high. *)
Theorem confidence_tier_boundaries (obj : DetectedObject) :
  ((80 <= confidence_score obj)%Q →
   cell_confidenceClass (row_of obj) = "confidence-high") ∧
  ((60 <= confidence_score obj)%Q ∧ (confidence_score obj < 80)%Q →
   cell_confidenceClass (row_of obj) = "confidence-medium") ∧
  ((confidence_score obj < 60)%Q →
   cell_confidenceClass (row_of obj) = "confidence-low") ∧
  confidenceClass 79 = "confidence-medium" ∧
  confidenceClass 60 = "confidence-medium" ∧
  confidenceClass 80 = "confidence-high".
Proof.
  cbn [row_of cell_confidenceClass]. repeat split.
  - apply confidenceClass_high.
  - intros [Hlo Hhi]. by apply confidenceClass_medium.
  - apply confidenceClass_low.
Qed.

(** C9.  Rendering the empty list twice gives the same state as
    rendering it once, and that state shows the empty-state message, an
    empty table body and a badge with a zero count. *)
Theorem updateObjectsTable_empty_idempotent (s : State) :
  updateObjectsTable [] (updateObjectsTable [] s) = updateObjectsTable [] s ∧
  no_objects_display (document (updateObjectsTable [] s)) = "block" ∧
  objects_table_body (document (updateObjectsTable [] s)) = [] ∧
  object_count_badge (document (updateObjectsTable [] s)) = "0 objects".
Proof. done. Qed.

End Table.

(** * The poll cycle *)

Section Poll.

Variables (now : string) (s : State).

Lemma updateData_returns stats objs :
  ∃ s', updateData now stats objs s = Normal tt s'.
Proof.
  unfold updateData, try_catch.
  match goal with
  | |- context [match ?body s with _ => _ end] => destruct (body s) as [[] ?|?]
  end; unfold_js; eauto.
Qed.

Lemma updateData_failed stats objs :
  request_failed stats || request_failed objs = true →
  updateData now stats objs s =
  Normal tt (updateConnectionStatus false
               (log_console "Error updating data:"
                  (log_fetch "GET /detected-objects"
                     (log_fetch "GET /vehicle-stats" s)))).
Proof.
  intros Hfail. unfold updateData.
  destruct stats as [|[] ?], objs as [|[] ?];
    try discriminate Hfail; reflexivity.
Qed.

Lemma updateData_succeeded statsData objectsData l :
  objects objectsData = Some l →
  updateData now (Response true (Some statsData))
    (Response true (Some objectsData)) s =
  Normal tt (apply_analytics statsData
               (updateObjectsTable l
                  (apply_status now statsData objectsData s))).
Proof.
  intros Hl. unfold updateData, apply_analytics, apply_status.
  unfold_js. cbn [negb orb]. rewrite Hl.
  destruct (analytics statsData) as [a|]; [|done].
  by match goal with |- context [a !! ?k] => destruct (a !! k) end.
Qed.

Lemma apply_analytics_beside statsData s0 :
  beside_poll (apply_analytics statsData s0) = beside_poll s0.
Proof.
  unfold apply_analytics. destruct (analytics statsData) as [a|]; [|done].
  by destruct (a !! currentPeriod s0).
Qed.

Lemma apply_analytics_document statsData s0 :
  document (apply_analytics statsData s0) = document s0.
Proof.
  unfold apply_analytics. destruct (analytics statsData) as [a|]; [|done].
  by destruct (a !! currentPeriod s0).
Qed.

Lemma updateData_beside stats objs :
  beside_poll (state_of (updateData now stats objs s)) = beside_poll s.
Proof.
  destruct stats as [|[] [sd|]], objs as [|[] [od|]]; try reflexivity.
  destruct (objects od) as [l|] eqn:Hl.
  - rewrite (updateData_succeeded _ _ _ Hl). cbn [state_of].
    rewrite apply_analytics_beside, updateObjectsTable_closed.
    unfold apply_status. by destruct (is_running sd).
  - unfold updateData. unfold_js. cbn [negb orb]. rewrite Hl.
    by destruct (is_running sd).
Qed.

Lemma apply_analytics_console statsData s0 :
  console (apply_analytics statsData s0) = console s0.
Proof.
  unfold apply_analytics. destruct (analytics statsData) as [a|]; [|done].
  by destruct (a !! currentPeriod s0).
Qed.

Lemma updateData_console stats objs :
  console (state_of (updateData now stats objs s)) = console s ∨
  console (state_of (updateData now stats objs s))
  = (console s ++ ["Error updating data:"])%list.
Proof.
  destruct stats as [|[] [sd|]], objs as [|[] [od|]];
    try (right; reflexivity).
  destruct (objects od) as [l|] eqn:Hl.
  - left. rewrite (updateData_succeeded _ _ _ Hl). cbn [state_of].
    rewrite apply_analytics_console, updateObjectsTable_closed.
    unfold apply_status. by destruct (is_running sd).
  - right. unfold updateData. unfold_js. cbn [negb orb]. rewrite Hl.
    by destruct (is_running sd).
Qed.

(** C1.  When either read request of a poll cycle fails, by a network
    error or by a non-success status, the cycle ends normally with
    [isConnected] false and the connectivity indicator off, and the
    data rendered before (table rows, empty-state message, count badge,
    chart labels and values, running/stopped indicator, active-object
    count, time of update) is what it was. *)
Theorem updateData_failure_keeps_rendered stats objs :
  request_failed stats || request_failed objs = true →
  ∃ s', updateData now stats objs s = Normal tt s' ∧
        isConnected s' = false ∧
        connection_status (document s') = "status-indicator" ∧
        rendered_data s' = rendered_data s.
Proof.
  intros Hfail. rewrite (updateData_failed _ _ Hfail).
  eexists; split; [reflexivity|]. done.
Qed.

(** C2, as the code has it.  When both requests succeed and the object
    payload carries the array [l], the table body holds exactly one row
    per object of [l], in order, so [length l] rows, and the badge reads
    the count followed by the word objects. *)
Theorem updateData_success_renders_table statsData n l :
  ∃ s', updateData now (Response true (Some statsData))
          (Response true (Some {| active_objects := n; objects := Some l |})) s
        = Normal tt s' ∧
        objects_table_body (document s') = row_of <$> l ∧
        length (objects_table_body (document s')) = length l ∧
        object_count_badge (document s') = pretty (length l) +:+ " objects".
Proof.
  rewrite (updateData_succeeded statsData
             {| active_objects := n; objects := Some l |} l eq_refl).
  eexists; split; [reflexivity|].
  rewrite apply_analytics_document, updateObjectsTable_closed.
  cbn. by rewrite length_fmap.
Qed.

End Poll.

(** C2, as stated, fails: after a successful poll that fetched one
    object the table has one row, and the badge text is not the count
    but ["1 objects"]. *)
Lemma badge_text_is_not_the_count :
  ∃ s', updateData "12:00:03" (stats_ok true) (objects_ok [car 1 91])
          (initial_state demo_page) = Normal tt s' ∧
        length (objects_table_body (document s')) = 1 ∧
        object_count_badge (document s') = "1 objects" ∧
        object_count_badge (document s') ≠ pretty 1.
Proof. eexists; split; [reflexivity|]. by vm_compute. Qed.

(** * Notifications *)

Section Toasts.

Lemma schedule_removals_beside (l : list Notification) (s : State) :
  beside_timers (foldl (λ s n, setTimeout (CbRemove (n_node n)) 300 s) s l)
  = beside_timers s.
Proof.
  revert s. induction l as [|n l IH]; intros s; [done|].
  cbn [foldl]. by rewrite IH.
Qed.

Lemma schedule_removals_document (l : list Notification) (s : State) :
  document (foldl (λ s n, setTimeout (CbRemove (n_node n)) 300 s) s l)
  = document s.
Proof. exact (f_equal snd (schedule_removals_beside l s)). Qed.

Lemma schedule_removals_globals (l : list Notification) (s : State) :
  globals (foldl (λ s n, setTimeout (CbRemove (n_node n)) 300 s) s l)
  = globals s.
Proof. exact (f_equal fst (schedule_removals_beside l s)). Qed.

Lemma showNotification_document (message type : string) (s : State) :
  document (showNotification message type s) =
  set_notifications
    ((leave <$> notifications (document s)) ++ [toast message type s])
    (set_next_node (S (next_node (document s))) (document s)).
Proof.
  unfold showNotification, toast.
  cbv [setTimeout new_timer set_timers]. cbn [document upd_document].
  rewrite schedule_removals_document.
  by destruct s as [? ? ? ? ? ? d ? ? ? ?], d.
Qed.

Lemma showNotification_globals (message type : string) (s : State) :
  globals (showNotification message type s) = globals s.
Proof.
  unfold showNotification.
  match goal with
  | |- context [foldl ?f ?s1 ?l] =>
      change (globals (foldl f s1 l) = globals s)
  end.
  by rewrite schedule_removals_globals.
Qed.

Lemma showNotification_last (message type : string) (s : State) :
  last (notifications (document (showNotification message type s)))
  = Some (toast message type s).
Proof. rewrite showNotification_document. cbn. apply last_snoc. Qed.

Lemma showNotification_rendered (message type : string) (s : State) :
  rendered_data (showNotification message type s) = rendered_data s.
Proof.
  pose proof (showNotification_globals message type s) as Hg.
  unfold rendered_data. rewrite showNotification_document.
  assert (Hc : analyticsChart (showNotification message type s)
               = analyticsChart s)
    by exact (f_equal (λ g, g.1.1.2) Hg).
  by rewrite Hc.
Qed.

End Toasts.

(** * Commands: reset and manual refresh *)

Section Commands.

Lemma resetCount_success_false ok result s :
  success result = false →
  resetCount true (Response ok (Some result)) s
  = Normal tt (reset_failed_state s).
Proof.
  intros H. unfold resetCount, reset_failed_state. unfold_js. cbn [negb].
  by rewrite H.
Qed.

(** C6.  When [POST /reset-count] answers [{success: false}], the
    failure toast is the one shown, and the table, the count badge and
    the chart arrays (all the rendered data) are what they were. *)
Theorem resetCount_backend_failure ok result s :
  success result = false →
  ∃ s', resetCount true (Response ok (Some result)) s = Normal tt s' ∧
        last (notifications (document s')) =
          Some {| n_node := next_node (document s);
                  n_className := "notification notification-error";
                  n_message := "❌ Failed to reset data";
                  n_animation := "" |} ∧
        rendered_data s' = rendered_data s.
Proof.
  intros H. rewrite (resetCount_success_false _ _ _ H).
  eexists; split; [reflexivity|]. unfold reset_failed_state. split.
  - cbn [setTimeout new_timer set_timers document upd_document
           upd_reset_btn set_reset_btn notifications].
    by rewrite showNotification_last.
  - transitivity
      (rendered_data
         (showNotification "❌ Failed to reset data" "error"
            (log_fetch "POST /reset-count"
               (upd_document (upd_reset_btn (loading "Resetting...")) s))));
      [reflexivity|].
    by rewrite showNotification_rendered.
Qed.

Lemma refreshData_closed now stats objs s :
  refreshData now stats objs s = Normal tt (refreshed_state now stats objs s).
Proof.
  unfold refreshData, refreshed_state.
  destruct (updateData_returns now
              (upd_document (upd_refresh_btn (loading "Refreshing...")) s)
              stats objs) as [s1 Hs1].
  unfold_js. by rewrite Hs1.
Qed.

(** C10.  Whatever the two poll requests give, [updateData] returns
    normally, so [refreshData] returns normally and the one toast it
    adds is the success toast; the only error it can leave on the
    console is the poll's own, never that of its catch branch. *)
Theorem refreshData_always_reports_success now stats objs s :
  (∀ s0, ∃ s1, updateData now stats objs s0 = Normal tt s1) ∧
  ∃ s', refreshData now stats objs s = Normal tt s' ∧
        notifications (document s') =
          ((leave <$> notifications (document s)) ++
           [{| n_node := next_node (document s);
               n_className := "notification notification-success";
               n_message := "🔁 Data refreshed successfully!";
               n_animation := "" |}])%list ∧
        (console s' = console s ∨
         console s' = (console s ++ ["Error updating data:"])%list).
Proof.
  split; [intros s0; apply updateData_returns|].
  rewrite refreshData_closed. eexists; split; [reflexivity|].
  unfold refreshed_state.
  set (s0 := upd_document (upd_refresh_btn (loading "Refreshing...")) s).
  set (s1 := state_of (updateData now stats objs s0)).
  pose proof (updateData_beside now s0 stats objs) as Hb. fold s1 in Hb.
  assert (Hn : notifications (document s1) = notifications (document s))
    by exact (f_equal (λ b, b.1.1.1.1.1.1.1.1) Hb).
  assert (Hk : next_node (document s1) = next_node (document s))
    by exact (f_equal (λ b, b.1.1.1.1.1.1.1.2) Hb).
  split.
  - cbn [document upd_document upd_refresh_btn set_refresh_btn notifications].
    rewrite showNotification_document. unfold toast.
    cbn [notifications set_notifications]. by rewrite Hn, Hk.
  - pose proof (showNotification_globals "🔁 Data refreshed successfully!"
                  "success" s1) as Hg.
    assert (Hc : console (showNotification "🔁 Data refreshed successfully!"
                            "success" s1) = console s1)
      by exact (f_equal snd Hg).
    cbn [console upd_document]. rewrite Hc.
    exact (updateData_console now s0 stats objs).
Qed.

End Commands.

(** * Periods: buttons, sample data, swipes *)

Section Periods.

Lemma deactivate_data_period e : data_period (deactivate e) = data_period e.
Proof. unfold deactivate. by destruct (classList_contains _ _). Qed.

Lemma querySelector_deactivate p l :
  querySelector p (deactivate <$> l) = querySelector p l.
Proof.
  induction l as [|e l IH]; [done|].
  cbn [fmap list_fmap querySelector]. rewrite deactivate_data_period.
  case_decide; [done|]. by rewrite <- IH.
Qed.

Lemma deactivate_not_active e : is_active_control (deactivate e) = false.
Proof.
  unfold is_active_control, is_control, deactivate, classList_contains.
  destruct (bool_decide ("chart-control-btn" ∈ classList e)) eqn:E.
  - cbn [classList]. apply andb_false_iff. right.
    apply bool_decide_eq_false. unfold classList_remove.
    rewrite list_elem_of_filter. by intros [? _].
  - by rewrite E.
Qed.

Lemma activate_deactivate_active e :
  is_control e = true → is_active_control (activate (deactivate e)) = true.
Proof.
  unfold is_active_control, is_control, deactivate, activate, classList_contains.
  intros H. rewrite H. cbn [classList]. apply andb_true_iff.
  apply bool_decide_eq_true in H.
  assert (Hc : "chart-control-btn" ∈ classList_remove "active" (classList e)).
  { unfold classList_remove. rewrite list_elem_of_filter. by split. }
  split; apply bool_decide_eq_true; unfold classList_add; case_decide;
    try done; set_solver.
Qed.

Lemma filter_deactivated l :
  filter (λ e, is_active_control e = true) (deactivate <$> l) = [].
Proof.
  induction l as [|e l IH]; [done|].
  cbn [fmap list_fmap]. rewrite filter_cons_False; [done|].
  by rewrite deactivate_not_active.
Qed.

Lemma filter_alter_one {A} (P : A → Prop) `{∀ x, Decision (P x)}
    (f : A → A) (l : list A) (i : nat) (x : A) :
  l !! i = Some x → filter P l = [] → P (f x) →
  length (filter P (alter f i l)) = 1.
Proof.
  revert i. induction l as [|y l IH]; intros i Hi Hnone Hf; [done|].
  destruct (decide (P y)) as [Hy|Hy].
  { by rewrite filter_cons_True in Hnone. }
  rewrite filter_cons_False in Hnone by done.
  destruct i as [|i].
  - change (alter f 0 (y :: l)) with (f y :: l).
    injection Hi as ->. rewrite filter_cons_True by done.
    cbn [length]. by rewrite Hnone.
  - change (alter f (S i) (y :: l)) with (y :: alter f i l).
    rewrite filter_cons_False by done. by apply IH.
Qed.

Lemma one_active_control l i e :
  l !! i = Some e → is_control e = true →
  length (filter (λ e, is_active_control e = true)
            (alter activate i (deactivate <$> l))) = 1.
Proof.
  intros Hi Hc. apply (filter_alter_one _ _ _ _ (deactivate e)).
  - by rewrite list_lookup_fmap, Hi.
  - apply filter_deactivated.
  - by apply activate_deactivate_active.
Qed.

Lemma changePeriod_currentPeriod p s :
  currentPeriod (state_of (changePeriod p s)) = p.
Proof.
  unfold changePeriod. unfold_js.
  cbn [document upd_document set_currentPeriod set_elements elements].
  destruct (querySelector p _) as [i|]; [|done].
  destruct (colorThemes !! p) as [theme|]; [|done].
  match goal with
  | |- currentPeriod (showNotification ?m ?t ?s0) = _ =>
      exact (f_equal (λ g, g.1.1.1.1.1.2) (showNotification_globals m t s0))
  end.
Qed.

Lemma has_control_inv p d :
  has_control p d = true →
  ∃ i e, querySelector p (elements d) = Some i ∧ elements d !! i = Some e ∧
         is_control e = true.
Proof.
  unfold has_control. destruct (querySelector p (elements d)) as [i|]; [|done].
  destruct (elements d !! i) as [e|] eqn:He; [|done]. eauto.
Qed.

(** C3.  For each of the periods day, week and month, on a page whose
    button for that period is what the attribute selector finds,
    [changePeriod] returns normally with [currentPeriod] set to the
    period, the chart's labels and values equal to the sample arrays
    written for that period (neither is empty), and exactly one period
    button carrying the active class. *)
Theorem changePeriod_valid p s :
  p = "day" ∨ p = "week" ∨ p = "month" →
  has_control p (document s) = true →
  ∃ s', changePeriod p s = Normal tt s' ∧
        currentPeriod s' = p ∧
        sample_data !! p =
          Some {| labels := chart_labels (analyticsChart s');
                  data := dataset_data (analyticsChart s') |} ∧
        chart_labels (analyticsChart s') ≠ [] ∧
        dataset_data (analyticsChart s') ≠ [] ∧
        active_controls (document s') = 1.
Proof.
  intros Hp Hc. destruct (has_control_inv _ _ Hc) as (i & e & Hq & Hi & He).
  pose proof (changePeriod_currentPeriod p s) as Hcur.
  assert (∃ theme, colorThemes !! p = Some theme) as [theme Ht].
  { destruct Hp as [-> | [-> | ->]]; eauto. }
  revert Hcur. unfold changePeriod. unfold_js.
  cbn [document upd_document set_currentPeriod set_elements elements].
  rewrite querySelector_deactivate, Hq, Ht. intros Hcur.
  eexists; split; [reflexivity|]. split; [exact Hcur|].
  match goal with
  | |- context [showNotification ?m ?t ?s0] =>
      pose proof (showNotification_globals m t s0) as Hg;
      pose proof (showNotification_document m t s0) as Hd;
      set (s' := showNotification m t s0) in *
  end.
  assert (Hchart : analyticsChart s' =
                   chart_update UpdateActive
                     (set_series (generateSampleData p)
                        (set_theme theme (analyticsChart s))))
    by exact (f_equal (λ g, g.1.1.2) Hg).
  rewrite Hchart, Hd. unfold active_controls.
  cbn [chart_labels dataset_data chart_update set_series elements
       set_notifications set_next_node document upd_document set_elements].
  split; [|split; [|split]].
  1-3: destruct Hp as [-> | [-> | ->]]; done.
  by apply (one_active_control _ _ e).
Qed.


Lemma swipe_left_next s a b :
  (a - b > 100)%Z →
  currentPeriod (swipe a b s) =
  at_index periods
    (Z.rem (indexOf (currentPeriod s) periods + 1) (Z.of_nat (length periods))).
Proof.
  intros Hd. unfold swipe, touchstart, touchend, handleGesture.
  unfold_js. cbn [touchStartX touchEndX set_touchStartX set_touchEndX
                  currentPeriod].
  rewrite decide_True by lia. rewrite decide_True by lia.
  apply changePeriod_currentPeriod.
Qed.

(** C8.  A swipe to the left past the threshold moves the period one
    step along day, week, month and back to day; two such swipes from
    day end on month. *)
Theorem swipe_left_cycles s a b a' b' :
  (a - b > 100)%Z → (a' - b' > 100)%Z →
  (currentPeriod s = "day" → currentPeriod (swipe a b s) = "week") ∧
  (currentPeriod s = "week" → currentPeriod (swipe a b s) = "month") ∧
  (currentPeriod s = "month" → currentPeriod (swipe a b s) = "day") ∧
  (currentPeriod s = "day" →
   currentPeriod (swipe a' b' (swipe a b s)) = "month").
Proof.
  intros H1 H2.
  assert (Hstep : ∀ p q,
            at_index periods (Z.rem (indexOf p periods + 1)
                                (Z.of_nat (length periods))) = q →
            currentPeriod s = p → currentPeriod (swipe a b s) = q).
  { intros p q Hq Hp. by rewrite (swipe_left_next s a b H1), Hp. }
  repeat split; try (apply Hstep; reflexivity).
  intros Hs. rewrite (swipe_left_next _ a' b' H2).
  by rewrite (Hstep "day" "week" eq_refl Hs).
Qed.

End Periods.

(** * The liveness probe *)

Section Health.

Variable s : State.

Lemma healthCheck_healthy ok :
  healthCheck (Response ok (Some {| health_status := "healthy" |})) s
  = Normal true (updateConnectionStatus true (log_fetch "GET /health" s)).
Proof. reflexivity. Qed.

Lemma healthCheck_network_error :
  healthCheck NetworkError s
  = Normal false
      (updateConnectionStatus false
         (log_console "Health check failed:" (log_fetch "GET /health" s))).
Proof. reflexivity. Qed.

Lemma healthCheck_bad_body ok :
  healthCheck (Response ok None) s
  = Normal false
      (updateConnectionStatus false
         (log_console "Health check failed:" (log_fetch "GET /health" s))).
Proof. reflexivity. Qed.

(** A body that parses and whose status is not ["healthy"] leaves the
    connectivity mark as it was. *)
Lemma healthCheck_unhealthy ok data :
  health_status data ≠ "healthy" →
  healthCheck (Response ok (Some data)) s
  = Normal false (log_fetch "GET /health" s).
Proof.
  intros H. unfold healthCheck. unfold_js. by rewrite decide_False.
Qed.

Lemma healthCheck_returns reply :
  ∃ b s', healthCheck reply s = Normal b s' ∧
          fetches s' = (fetches s ++ ["GET /health"])%list ∧
          timers s' = timers s ∧ next_handle s' = next_handle s ∧
          updateInterval s' = updateInterval s.
Proof.
  destruct reply as [|ok [data|]].
  - rewrite healthCheck_network_error. by eexists _, _.
  - destruct (decide (health_status data = "healthy")) as [E|E].
    + destruct data as [st]. cbn in E. subst st.
      rewrite healthCheck_healthy. by eexists _, _.
    + rewrite (healthCheck_unhealthy _ _ E). by eexists _, _.
  - rewrite healthCheck_bad_body. by eexists _, _.
Qed.

End Health.

(** C5, at the input where the code departs from it: the dashboard is
    marked connected and [/health] answers with a body whose status is
    ["degraded"].  The probe returns [false] and the page is still
    marked connected. *)
Theorem healthCheck_unhealthy_stays_connected :
  ∃ s', healthCheck (Response true (Some {| health_status := "degraded" |}))
          demo_started = Normal false s' ∧
        isConnected demo_started = true ∧
        isConnected s' = true ∧
        connection_status (document s') = "status-indicator connected".
Proof. eexists; split; [reflexivity|]. by vm_compute. Qed.

(** * Timers and page visibility *)

Section Timers.

Lemma timers_ok_ext s s' :
  timer_state s' = timer_state s → timers_ok s → timers_ok s'.
Proof.
  unfold timer_state. intros [= Ht Hn Hu] [H1 H2 H3 H4].
  split; rewrite ?Ht, ?Hn, ?Hu; auto.
Qed.

Lemma new_timer_ok t s :
  is_poll_timer t = false → timers_ok s → timers_ok (new_timer t s).
Proof.
  intros Ht [H1 H2 H3 H4]. split; cbn [new_timer set_timers timers next_handle updateInterval].
  - intros h [x Hx]. destruct (decide (next_handle s = h)) as [<-|Hne]; [lia|].
    rewrite lookup_insert_ne in Hx by done.
    specialize (H1 h (ex_intro _ x Hx)). lia.
  - intros h x Hx Hp. destruct (decide (next_handle s = h)) as [<-|Hne].
    + rewrite lookup_insert_eq in Hx. congruence.
    + rewrite lookup_insert_ne in Hx by done. eauto.
  - intros h Hh. specialize (H3 h Hh). lia.
  - intros h x Hh Hx. destruct (decide (next_handle s = h)) as [<-|Hne].
    + specialize (H3 _ Hh). lia.
    + rewrite lookup_insert_ne in Hx by done. eauto.
Qed.

Lemma clearInterval_ok h s : timers_ok s → timers_ok (clearInterval h s).
Proof.
  intros [H1 H2 H3 H4]. split; cbn [clearInterval set_timers timers next_handle updateInterval].
  - intros h' [x Hx]. apply lookup_delete_Some in Hx as [_ Hx]. eauto.
  - intros h' x Hx. apply lookup_delete_Some in Hx as [_ Hx]. eauto.
  - done.
  - intros h' x Hh Hx. apply lookup_delete_Some in Hx as [_ Hx]. eauto.
Qed.

Lemma setTimeout_ok cb ms s : timers_ok s → timers_ok (setTimeout cb ms s).
Proof. apply new_timer_ok. unfold is_poll_timer. cbn. by destruct cb. Qed.


Lemma schedule_removals_ok (l : list Notification) s :
  timers_ok s →
  timers_ok (foldl (λ s n, setTimeout (CbRemove (n_node n)) 300 s) s l).
Proof.
  revert s. induction l as [|n l IH]; intros s Hs; [done|].
  cbn [foldl]. by apply IH, setTimeout_ok.
Qed.

Lemma upd_document_ok f s : timers_ok s → timers_ok (upd_document f s).
Proof. by apply timers_ok_ext. Qed.

Lemma showNotification_ok message type s :
  timers_ok s → timers_ok (showNotification message type s).
Proof.
  intros Hs. unfold showNotification.
  apply setTimeout_ok. do 2 apply upd_document_ok.
  by apply schedule_removals_ok, upd_document_ok.
Qed.

Lemma changePeriod_ok p s :
  timers_ok s → timers_ok (state_of (changePeriod p s)).
Proof.
  intros Hs. unfold changePeriod. unfold_js.
  cbn [document upd_document set_currentPeriod set_elements elements].
  destruct (querySelector p _) as [i|]; [|by apply (timers_ok_ext s)].
  destruct (colorThemes !! p) as [theme|]; [|by apply (timers_ok_ext s)].
  apply showNotification_ok. by apply (timers_ok_ext s).
Qed.

Lemma updateData_timer_state now stats objs s :
  timer_state (state_of (updateData now stats objs s)) = timer_state s.
Proof.
  exact (f_equal (λ b, (b.1.1.1.1.1.1.2, b.1.1.1.1.1.2, b.2))
           (updateData_beside now s stats objs)).
Qed.

Lemma updateData_ok now stats objs s :
  timers_ok s → timers_ok (state_of (updateData now stats objs s)).
Proof. apply timers_ok_ext, updateData_timer_state. Qed.

Lemma clear_updateInterval_ok s :
  timers_ok s → timers_ok (state_of (clear_updateInterval s)).
Proof.
  intros Hs. unfold clear_updateInterval.
  destruct (updateInterval s); [|done]. by apply clearInterval_ok.
Qed.

(** After [clear_updateInterval] no poll timer is live. *)
Lemma clear_updateInterval_no_poll s h t :
  timers_ok s →
  timers (state_of (clear_updateInterval s)) !! h = Some t →
  is_poll_timer t = false.
Proof.
  intros [_ H2 _ _]. unfold clear_updateInterval.
  destruct (updateInterval s) as [h0|] eqn:Hu;
    cbn [state_of modify ret clearInterval set_timers timers]; intros Hl.
  - apply lookup_delete_Some in Hl as [Hne Hl].
    destruct (is_poll_timer t) eqn:Hp; [|done].
    specialize (H2 _ _ Hl Hp). congruence.
  - destruct (is_poll_timer t) eqn:Hp; [|done].
    specialize (H2 _ _ Hl Hp). congruence.
Qed.

Lemma clear_updateInterval_keeps s h t :
  timers_ok s → timers s !! h = Some t → is_poll_timer t = false →
  timers (state_of (clear_updateInterval s)) !! h = Some t.
Proof.
  intros [_ _ _ H4] Hl Hp. unfold clear_updateInterval.
  destruct (updateInterval s) as [h0|] eqn:Hu;
    cbn [state_of modify ret clearInterval set_timers timers]; [|done].
  rewrite lookup_delete_ne; [done|]. intros ->.
  specialize (H4 _ _ eq_refl Hl). congruence.
Qed.


Lemma startAutoReconnect_closed s :
  startAutoReconnect s = Normal tt (restarted s).
Proof.
  unfold startAutoReconnect, restarted, clear_updateInterval. unfold_js.
  by destruct (updateInterval s).
Qed.

Lemma clear_updateInterval_next s :
  next_handle (state_of (clear_updateInterval s)) = next_handle s.
Proof. unfold clear_updateInterval. by destruct (updateInterval s). Qed.

Lemma restarted_timers s :
  timers (restarted s) =
  <[next_handle s := poll_timer]> (timers (state_of (clear_updateInterval s))).
Proof.
  unfold restarted. cbn [timers set_updateInterval new_timer set_timers].
  by rewrite clear_updateInterval_next.
Qed.

Lemma restarted_ok s : timers_ok s → timers_ok (restarted s).
Proof.
  intros Hs. pose proof (clear_updateInterval_ok s Hs) as [H1 _ _ _].
  pose proof (clear_updateInterval_no_poll s) as Hno.
  rewrite clear_updateInterval_next in H1.
  split; rewrite ?restarted_timers;
    cbn [restarted next_handle updateInterval set_updateInterval new_timer
         set_timers]; rewrite ?clear_updateInterval_next.
  - intros h [x Hx]. destruct (decide (next_handle s = h)) as [<-|Hne]; [lia|].
    rewrite lookup_insert_ne in Hx by done.
    specialize (H1 h (ex_intro _ x Hx)). lia.
  - intros h x Hx Hp. destruct (decide (next_handle s = h)) as [<-|Hne]; [done|].
    rewrite lookup_insert_ne in Hx by done.
    specialize (Hno _ _ Hs Hx). congruence.
  - intros h [= <-]. lia.
  - intros h x [= <-]. rewrite lookup_insert_eq. by intros [= <-].
Qed.



Lemma preserves_ret {A} (v : A) : preserves (ret v).
Proof. by intros s Hs. Qed.

Lemma preserves_throw {A} : preserves (@throw A).
Proof. by intros s Hs. Qed.

Lemma preserves_deref {A} (o : option A) : preserves (deref o).
Proof. destruct o; [apply preserves_ret | apply preserves_throw]. Qed.

Lemma preserves_modify (f : State → State) :
  (∀ s, timers_ok s → timers_ok (f s)) → preserves (modify f).
Proof. intros Hf s Hs. by apply Hf. Qed.

Lemma preserves_setter (f : State → State) :
  (∀ s, timer_state (f s) = timer_state s) → preserves (modify f).
Proof. intros Hf. apply preserves_modify. intros s. by apply timers_ok_ext. Qed.

Lemma preserves_bind {A B} (m : JS A) (k : A → JS B) :
  preserves m → (∀ v, preserves (k v)) → preserves (bind m k).
Proof.
  intros Hm Hk s Hs. specialize (Hm s Hs). unfold bind.
  destruct (m s) as [v s'|s']; [|done]. by apply Hk.
Qed.

Lemma preserves_detach {A} (m : JS A) : preserves m → preserves (detach m).
Proof. intros Hm s Hs. by apply Hm. Qed.

Lemma preserves_try_catch {A} (body handler : JS A) :
  preserves body → preserves handler → preserves (try_catch body handler).
Proof.
  intros Hb Hh s Hs. specialize (Hb s Hs). unfold try_catch.
  destruct (body s) as [v s'|s']; [done|]. by apply Hh.
Qed.

Lemma preserves_try_finally {A} (body : JS A) (fin : JS unit) :
  preserves body → preserves fin → preserves (try_finally body fin).
Proof.
  intros Hb Hf s Hs. specialize (Hb s Hs). unfold try_finally.
  destruct (body s) as [v s'|s']; cbn [state_of] in Hb.
  - specialize (Hf s' Hb). by destruct (fin s').
  - by apply Hf.
Qed.

Ltac as_preserves :=
  match goal with
  | |- ∀ s, timers_ok s → timers_ok (state_of (?m s)) => change (preserves m)
  end.

Ltac preserves_step :=
  lazymatch goal with
  | |- preserves (bind _ _) => apply preserves_bind; [|intros ?]
  | |- preserves (ret _) => apply preserves_ret
  | |- preserves throw => apply preserves_throw
  | |- preserves (deref _) => apply preserves_deref
  | |- preserves (detach _) => apply preserves_detach
  | |- preserves (try_catch _ _) => apply preserves_try_catch
  | |- preserves (try_finally _ _) => apply preserves_try_finally
  | |- preserves (modify _) => apply preserves_setter; reflexivity
  end.

Lemma preserves_showNotification message type :
  preserves (modify (showNotification message type)).
Proof. apply preserves_modify. intros s. apply showNotification_ok. Qed.

Lemma preserves_setTimeout cb ms : preserves (modify (setTimeout cb ms)).
Proof. apply preserves_modify. intros s. apply setTimeout_ok. Qed.

Lemma preserves_updateObjectsTable l : preserves (modify (updateObjectsTable l)).
Proof.
  apply preserves_modify. intros s. rewrite updateObjectsTable_closed.
  apply upd_document_ok.
Qed.

Lemma preserves_changePeriod p : preserves (changePeriod p).
Proof. intros s. apply changePeriod_ok. Qed.

Lemma preserves_updateData now stats objs : preserves (updateData now stats objs).
Proof. intros s. apply updateData_ok. Qed.

Lemma preserves_healthCheck reply : preserves (healthCheck reply).
Proof.
  intros s.
  destruct (healthCheck_returns s reply) as (b & s' & -> & _ & Ht & Hn & Hu).
  apply timers_ok_ext. unfold timer_state. cbn [state_of]. congruence.
Qed.

Lemma preserves_resetCount confirmed reply :
  preserves (resetCount confirmed reply).
Proof.
  intros s Hs. unfold resetCount.
  generalize (innerHTML (reset_btn (document s))). intros originalText.
  destruct confirmed; cbn [negb]; [|done]. revert s Hs.
  as_preserves.
  repeat preserves_step;
    try apply preserves_showNotification; try apply preserves_setTimeout.
  - by destruct reply; repeat preserves_step.
  - destruct (success _); repeat preserves_step;
      try apply preserves_showNotification;
      try apply preserves_updateObjectsTable.
Qed.

Lemma preserves_refreshData now stats objs :
  preserves (refreshData now stats objs).
Proof.
  intros s Hs. unfold refreshData.
  generalize (innerHTML (refresh_btn (document s))). intros originalText.
  revert s Hs. as_preserves.
  repeat preserves_step; try apply preserves_showNotification.
  apply preserves_updateData.
Qed.

Lemma preserves_handleGesture : preserves handleGesture.
Proof.
  intros s Hs. unfold handleGesture.
  repeat case_decide; try done; by apply changePeriod_ok.
Qed.

Lemma preserves_touchend x : preserves (touchend x).
Proof. unfold touchend. repeat preserves_step. apply preserves_handleGesture. Qed.

Lemma preserves_keydown ctrl key net : preserves (keydown ctrl key net).
Proof.
  unfold keydown. destruct ctrl; [|apply preserves_ret].
  repeat case_decide; repeat preserves_step;
    try apply preserves_changePeriod.
  apply preserves_refreshData.
Qed.

Lemma preserves_clear_updateInterval : preserves clear_updateInterval.
Proof. intros s. apply clear_updateInterval_ok. Qed.

Lemma preserves_startAutoReconnect : preserves startAutoReconnect.
Proof.
  intros s Hs. rewrite startAutoReconnect_closed. by apply restarted_ok.
Qed.

Lemma preserves_poll net : preserves (poll net).
Proof. apply preserves_detach, preserves_updateData. Qed.

Lemma preserves_visibilitychange hidden net :
  preserves (visibilitychange hidden net).
Proof.
  destruct hidden; cbn [visibilitychange].
  - apply preserves_clear_updateInterval.
  - preserves_step; [apply preserves_startAutoReconnect|apply preserves_poll].
Qed.

Lemma preserves_run_callback cb net : preserves (run_callback cb net).
Proof.
  destruct cb; cbn [run_callback].
  - apply preserves_poll.
  - apply preserves_detach, preserves_healthCheck.
  - preserves_step.
  - intros s Hs. case_decide; [|done]. unfold modify. cbn [state_of].
    by apply setTimeout_ok, upd_document_ok.
  - apply preserves_showNotification.
Qed.

Lemma preserves_fire h net : preserves (fire h net).
Proof.
  intros s Hs. unfold fire. destruct (timers s !! h) as [t|]; [|done].
  apply preserves_run_callback.
  destruct (repeating t); [done|]. by apply clearInterval_ok.
Qed.

Lemma preserves_setInterval_health :
  preserves (setInterval CbHealthCheck 15000).
Proof. intros s Hs. unfold setInterval. cbn [state_of]. by apply new_timer_ok. Qed.

Lemma preserves_initialize net : preserves (initialize net).
Proof.
  unfold initialize. repeat preserves_step.
  - apply preserves_changePeriod.
  - apply preserves_poll.
  - apply preserves_startAutoReconnect.
  - apply preserves_setInterval_health.
  - apply preserves_setTimeout.
Qed.

Lemma initial_state_ok page : timers_ok (initial_state page).
Proof.
  split; cbn [initial_state timers updateInterval next_handle]; try done.
  intros h [x Hx]. by rewrite lookup_empty in Hx.
Qed.


Lemma apply_analytics_fetches statsData s0 :
  fetches (apply_analytics statsData s0) = fetches s0.
Proof.
  unfold apply_analytics. destruct (analytics statsData) as [a|]; [|done].
  by destruct (a !! currentPeriod s0).
Qed.

Lemma updateData_fetches now stats objs s :
  fetches (state_of (updateData now stats objs s))
  = (fetches s ++ poll_requests)%list.
Proof.
  unfold poll_requests.
  destruct stats as [|[] [sd|]], objs as [|[] [od|]];
    try (cbn; by rewrite <- app_assoc).
  destruct (objects od) as [l|] eqn:Hl.
  - rewrite (updateData_succeeded _ _ _ _ _ Hl). cbn [state_of].
    rewrite apply_analytics_fetches, updateObjectsTable_closed.
    unfold apply_status. destruct (is_running sd); cbn; by rewrite <- app_assoc.
  - unfold updateData. unfold_js. cbn [negb orb]. rewrite Hl.
    destruct (is_running sd); cbn; by rewrite <- app_assoc.
Qed.

Lemma health_timer_not_poll t :
  is_health_timer t = true → is_poll_timer t = false.
Proof. unfold is_health_timer, is_poll_timer. by destruct (callback t). Qed.

(** Page hidden: the poll timer is gone, nothing else is. *)
Lemma hidden_cancels_poll net s :
  timers_ok s →
  ∃ sh, visibilitychange true net s = Normal tt sh ∧
        timers_ok sh ∧
        (∀ h t, timers sh !! h = Some t → is_poll_timer t = false) ∧
        (∀ h t, timers s !! h = Some t → is_poll_timer t = false →
                timers sh !! h = Some t) ∧
        fetches sh = fetches s.
Proof.
  intros Hs. exists (state_of (clear_updateInterval s)).
  split; [|split; [|split; [|split]]].
  - cbn [visibilitychange]. unfold clear_updateInterval.
    by destruct (updateInterval s).
  - by apply clear_updateInterval_ok.
  - intros h t. by apply clear_updateInterval_no_poll.
  - intros h t. by apply clear_updateInterval_keeps.
  - unfold clear_updateInterval. by destruct (updateInterval s).
Qed.

(** Page visible: one poll timer, registered anew, and a poll at once. *)
Lemma visible_restarts_poll net s :
  timers_ok s →
  ∃ sv, visibilitychange false net s = Normal tt sv ∧
        timers_ok sv ∧
        updateInterval sv = Some (next_handle s) ∧
        timers sv !! next_handle s = Some poll_timer ∧
        (∀ h t, timers sv !! h = Some t → is_poll_timer t = true →
                h = next_handle s) ∧
        (∀ h t, timers s !! h = Some t → is_poll_timer t = false →
                timers sv !! h = Some t) ∧
        fetches sv = (fetches s ++ poll_requests)%list.
Proof.
  intros Hs.
  set (sv := state_of (updateData (now net) (stats_reply net)
                         (objects_reply net) (restarted s))).
  pose proof (updateData_timer_state (now net) (stats_reply net)
                (objects_reply net) (restarted s)) as Hb.
  fold sv in Hb.
  assert (Ht : timers sv = timers (restarted s))
    by exact (f_equal (λ b, b.1.1) Hb).
  assert (Hu : updateInterval sv = updateInterval (restarted s))
    by exact (f_equal snd Hb).
  clear Hb.
  pose proof (restarted_ok s Hs) as Hr.
  exists sv. split; [|split; [|split; [|split; [|split; [|split]]]]].
  - cbn [visibilitychange]. unfold bind.
    by rewrite startAutoReconnect_closed.
  - by apply updateData_ok.
  - by rewrite Hu.
  - rewrite Ht, restarted_timers. apply lookup_insert_eq.
  - intros h t Hl Hp. rewrite Ht in Hl.
    destruct Hr as [_ H2 _ _]. specialize (H2 _ _ Hl Hp).
    cbn [restarted updateInterval set_updateInterval] in H2. congruence.
  - intros h t Hl Hp. rewrite Ht, restarted_timers.
    destruct Hs as [H1 H2 H3 H4].
    rewrite lookup_insert_ne.
    + apply clear_updateInterval_keeps; [by split|done..].
    + intros <-. specialize (H1 _ (ex_intro _ t Hl)). lia.
  - unfold sv. rewrite updateData_fetches.
    unfold restarted, clear_updateInterval. by destruct (updateInterval s).
Qed.

(** A live health-check timer that comes due probes [/health]. *)
Lemma fire_health_timer h t net s :
  timers s !! h = Some t → is_health_timer t = true →
  fetches (state_of (fire h net s)) = (fetches s ++ ["GET /health"])%list.
Proof.
  intros Hl Ht. unfold fire. rewrite Hl.
  unfold is_health_timer in Ht. destruct (callback t); try done.
  rewrite Ht. cbn [run_callback detach state_of].
  by destruct (healthCheck_returns s (health_reply net))
    as (b & s' & -> & Hf & _).
Qed.

End Timers.

(** C4, as stated, fails: on the running dashboard with the page
    hidden, the health-check timer is still registered, and when it
    comes due a probe of [/health] is sent. *)
Lemma health_timer_survives_hiding :
  timers demo_hidden !! 3%positive
  = Some {| callback := CbHealthCheck; delay := 15000; repeating := true |} ∧
  fetches (state_of (fire 3 demo_net demo_hidden))
  = (fetches demo_hidden ++ ["GET /health"])%list.
Proof. by vm_compute. Qed.

(** * The theorems at work on the running dashboard *)

Lemma updateData_failure_keeps_rendered_witness :
  request_failed (@NetworkError StatsPayload)
  || request_failed (objects_ok [car 1 91]) = true ∧
  ∃ s', updateData "12:00:06" NetworkError (objects_ok [car 1 91])
          demo_started = Normal tt s' ∧
        isConnected s' = false ∧
        connection_status (document s') = "status-indicator" ∧
        rendered_data s' = rendered_data demo_started.
Proof.
  split; [reflexivity|].
  apply (updateData_failure_keeps_rendered "12:00:06" demo_started
           NetworkError (objects_ok [car 1 91])).
  reflexivity.
Defined.

Lemma changePeriod_valid_witness :
  has_control "week" (document demo_started) = true ∧
  ∃ s', changePeriod "week" demo_started = Normal tt s' ∧
        currentPeriod s' = "week" ∧
        sample_data !! "week" =
          Some {| labels := chart_labels (analyticsChart s');
                  data := dataset_data (analyticsChart s') |} ∧
        chart_labels (analyticsChart s') ≠ [] ∧
        dataset_data (analyticsChart s') ≠ [] ∧
        active_controls (document s') = 1.
Proof.
  split; [reflexivity|].
  apply (changePeriod_valid "week" demo_started).
  - right; left; reflexivity.
  - reflexivity.
Defined.

Lemma resetCount_backend_failure_witness :
  ∃ s', resetCount true reset_refused demo_started = Normal tt s' ∧
        last (notifications (document s')) =
          Some {| n_node := next_node (document demo_started);
                  n_className := "notification notification-error";
                  n_message := "❌ Failed to reset data";
                  n_animation := "" |} ∧
        rendered_data s' = rendered_data demo_started.
Proof.
  apply (resetCount_backend_failure true
           {| success := false; message := None |} demo_started).
  reflexivity.
Defined.

Lemma swipe_left_cycles_witness :
  currentPeriod demo_started = "day" ∧
  currentPeriod (swipe 300 100 demo_started) = "week" ∧
  currentPeriod (swipe 280 90 (swipe 300 100 demo_started)) = "month".
Proof.
  split; [reflexivity|].
  destruct (swipe_left_cycles demo_started 300 100 280 90)
    as (Hday & _ & _ & Htwice); [lia | lia |].
  split; [apply Hday | apply Htwice]; reflexivity.
Defined.

(** * Further properties of the script *)

Section PollOutcomes.
Variables (now : string) (s : State).

(** X1.  A poll whose two requests succeed with well-formed bodies ends
    normally with the page marked connected, the active-object count
    and the time of update written, and the running/stopped indicator
    showing what [is_running] says; the period and the console are
    untouched. *)
Theorem updateData_success_status statsData n l :
  ∃ s', updateData now (Response true (Some statsData))
          (Response true (Some {| active_objects := n; objects := Some l |})) s
        = Normal tt s' ∧
        isConnected s' = true ∧
        connection_status (document s') = "status-indicator connected" ∧
        active_objects_text (document s') = pretty n ∧
        last_update_text (document s') = now ∧
        status_text (document s')
        = (if is_running statsData then "Running" else "Stopped") ∧
        detection_status_class (document s')
        = (if is_running statsData then "stat-value status-running"
           else "stat-value status-stopped") ∧
        currentPeriod s' = currentPeriod s ∧
        console s' = console s.
Proof.
  rewrite (updateData_succeeded now s statsData
             {| active_objects := n; objects := Some l |} l eq_refl).
  eexists; split; [reflexivity|].
  pose proof (apply_analytics_beside statsData
     (updateObjectsTable l (apply_status now statsData
        {| active_objects := n; objects := Some l |} s))) as Hb.
  rewrite apply_analytics_console, apply_analytics_document.
  assert (Hp : ∀ s0, currentPeriod (apply_analytics statsData s0) = currentPeriod s0).
  { intros s0. exact (f_equal (λ b, b.1.2) (apply_analytics_beside statsData s0)). }
  rewrite Hp.
  assert (Hc : ∀ s0, isConnected (apply_analytics statsData s0) = isConnected s0).
  { intros s0. unfold apply_analytics. destruct (analytics statsData) as [a|]; [|done].
    by destruct (a !! currentPeriod s0). }
  rewrite Hc, updateObjectsTable_closed. unfold apply_status.
  by destruct (is_running statsData).
Qed.

(** X2.  On a successful poll the chart takes the labels and values the payload
    carries for the current period and is redrawn without animation;
    when the payload has no analytics, or none for the current period,
    the chart is left as it was. *)
Theorem updateData_success_chart statsData n l :
  ∃ s', updateData now (Response true (Some statsData))
          (Response true (Some {| active_objects := n; objects := Some l |})) s
        = Normal tt s' ∧
        match analytics statsData ≫= (λ a, a !! currentPeriod s) with
        | Some series =>
            chart_labels (analyticsChart s') = labels series ∧
            dataset_data (analyticsChart s') = data series ∧
            chart_updates (analyticsChart s')
            = (chart_updates (analyticsChart s) ++ [UpdateNone])%list
        | None => analyticsChart s' = analyticsChart s
        end.
Proof.
  rewrite (updateData_succeeded now s statsData
             {| active_objects := n; objects := Some l |} l eq_refl).
  eexists; split; [reflexivity|].
  unfold apply_analytics. rewrite updateObjectsTable_closed.
  set (s1 := upd_document _ _).
  assert (Hp : currentPeriod s1 = currentPeriod s).
  { subst s1. unfold apply_status. by destruct (is_running statsData). }
  assert (Hc : analyticsChart s1 = analyticsChart s).
  { subst s1. unfold apply_status. by destruct (is_running statsData). }
  rewrite Hp.
  destruct (analytics statsData) as [a|]; cbn [mbind option_bind]; [|done].
  destruct (a !! currentPeriod s); [|done].
  cbn [analyticsChart upd_chart chart_labels dataset_data chart_updates
       chart_update set_series]. by rewrite Hc.
Qed.
End PollOutcomes.

Section PollFailures.
Variables (now : string) (s : State).

(** X3.  When both requests succeed but the object payload has no [objects]
    array, the cycle ends marked disconnected with the table, the badge
    and the chart as they were, but the active-object count, the time
    of update and the running/stopped indicator have already been
    overwritten. *)
Theorem updateData_missing_objects statsData n :
  ∃ s', updateData now (Response true (Some statsData))
          (Response true (Some {| active_objects := n; objects := None |})) s
        = Normal tt s' ∧
        isConnected s' = false ∧
        connection_status (document s') = "status-indicator" ∧
        (objects_table_body (document s'), no_objects_display (document s'),
         object_count_badge (document s'), analyticsChart s')
        = (objects_table_body (document s), no_objects_display (document s),
           object_count_badge (document s), analyticsChart s) ∧
        active_objects_text (document s') = pretty n ∧
        last_update_text (document s') = now ∧
        status_text (document s')
        = (if is_running statsData then "Running" else "Stopped").
Proof.
  unfold updateData. unfold_js. cbn [negb orb objects].
  eexists; split; [reflexivity|]. by destruct (is_running statsData).
Qed.

(** X4.  When a request fails or a body does not parse, the cycle ends
    normally, marked disconnected, with the rendered data as it was and
    one error line on the console. *)
Theorem updateData_rejected_keeps_rendered stats objs :
  request_failed stats || request_failed objs
  || body_unparsable stats || body_unparsable objs = true →
  ∃ s', updateData now stats objs s = Normal tt s' ∧
        isConnected s' = false ∧
        connection_status (document s') = "status-indicator" ∧
        rendered_data s' = rendered_data s ∧
        console s' = (console s ++ ["Error updating data:"])%list.
Proof.
  intros H.
  destruct stats as [|[] [sd|]], objs as [|[] [od|]];
    try discriminate H; by eexists.
Qed.

End PollFailures.

Section ResetOutcomes.

Lemma showNotification_field {A} (f : Dom → A) message type s :
  (∀ d ns k, f (set_notifications ns (set_next_node k d)) = f d) →
  f (document (showNotification message type s)) = f (document s).
Proof. intros Hf. by rewrite showNotification_document, Hf. Qed.

Lemma resetCount_confirmed reply s :
  resetCount true reply s =
  Normal tt
    (setTimeout CbUpdateData 500
       (upd_document
          (upd_reset_btn (restore (innerHTML (reset_btn (document s)))))
          (reset_outcome reply
             (log_fetch "POST /reset-count"
                (upd_document (upd_reset_btn (loading "Resetting...")) s))))).
Proof.
  unfold resetCount, reset_outcome. unfold_js. cbn [negb].
  destruct reply as [|ok [result|]]; try reflexivity.
  by destruct (success result).
Qed.

Lemma reset_outcome_frame reply s :
  reset_btn (document (reset_outcome reply s)) = reset_btn (document s) ∧
  fetches (reset_outcome reply s) = fetches s.
Proof.
  assert (Hf : ∀ m t s0, fetches (showNotification m t s0) = fetches s0).
  { intros m t s0. exact (f_equal (λ g, g.1.2) (showNotification_globals m t s0)). }
  unfold reset_outcome. destruct reply as [|ok [result|]].
  - by rewrite (showNotification_field reset_btn), Hf.
  - destruct (success result).
    + rewrite updateObjectsTable_closed.
      cbn [document upd_document upd_chart table_of fetches reset_btn
           set_objects_table_body set_no_objects_display set_object_count_badge].
      by rewrite (showNotification_field reset_btn), Hf.
    + by rewrite (showNotification_field reset_btn), Hf.
  - by rewrite (showNotification_field reset_btn), Hf.
Qed.

Lemma restore_loading_button text b :
  disabled (restore (innerHTML b) (loading text b)) = false ∧
  innerHTML (restore (innerHTML b) (loading text b)) = innerHTML b ∧
  ("loading" ∉ btn_classList (restore (innerHTML b) (loading text b))) ∧
  (∀ c, c ≠ "loading" →
        (c ∈ btn_classList (restore (innerHTML b) (loading text b))
         ↔ c ∈ btn_classList b)).
Proof.
  unfold restore, loading, classList_remove, classList_add.
  cbn [disabled innerHTML btn_classList]. repeat split.
  - rewrite list_elem_of_filter. by intros [? _].
  - rewrite list_elem_of_filter. intros [_ Hc].
    case_decide; [done|]. apply elem_of_app in Hc as [?|Hc]; [done|].
    by apply list_elem_of_singleton in Hc.
  - intros Hc. rewrite list_elem_of_filter. split; [done|].
    case_decide; [done|]. apply elem_of_app. by left.
Qed.

(** X6.  A declined confirmation leaves the whole state as it was.  Once
    confirmed, whatever the reply, [resetCount] returns normally with
    its button enabled again, its label restored and the loading class
    gone, exactly one request sent, and a one-shot poll scheduled
    500ms later as the last timer registered. *)
Theorem resetCount_always_restores reply s :
  resetCount false reply s = Normal tt s ∧
  ∃ s', resetCount true reply s = Normal tt s' ∧
        disabled (reset_btn (document s')) = false ∧
        innerHTML (reset_btn (document s')) = innerHTML (reset_btn (document s)) ∧
        ("loading" ∉ btn_classList (reset_btn (document s'))) ∧
        fetches s' = (fetches s ++ ["POST /reset-count"])%list ∧
        (∃ h, timers s' !! h = Some refetch_timer ∧
              next_handle s' = Pos.succ h).
Proof.
  split; [reflexivity|].
  rewrite resetCount_confirmed. eexists; split; [reflexivity|].
  set (s1 := log_fetch _ _).
  destruct (reset_outcome_frame reply s1) as [Hb Hf].
  destruct (restore_loading_button "Resetting..." (reset_btn (document s)))
    as (Hd & Hi & Hl & _).
  cbn [setTimeout new_timer set_timers document upd_document upd_reset_btn
       set_reset_btn reset_btn fetches timers next_handle].
  rewrite Hb, Hf. subst s1.
  cbn [document upd_document upd_reset_btn set_reset_btn reset_btn log_fetch fetches].
  repeat split; try done.
  eexists; split; [apply lookup_insert_eq|done].
Qed.

(** X7.  When the body of the reply says [success], whatever the status of
    the response, the table is emptied (no rows, empty-state message,
    badge at zero), the chart takes the sample data of the current
    period, and the success toast is shown. *)
Theorem resetCount_success ok message s :
  ∃ s', resetCount true
          (Response ok (Some {| success := true; message := message |})) s
        = Normal tt s' ∧
        objects_table_body (document s') = [] ∧
        no_objects_display (document s') = "block" ∧
        object_count_badge (document s') = "0 objects" ∧
        chart_labels (analyticsChart s')
        = labels (generateSampleData (currentPeriod s)) ∧
        dataset_data (analyticsChart s')
        = data (generateSampleData (currentPeriod s)) ∧
        last (notifications (document s'))
        = Some {| n_node := next_node (document s);
                  n_className := "notification notification-success";
                  n_message := "🔄 All data reset successfully!";
                  n_animation := "" |}.
Proof.
  rewrite resetCount_confirmed. eexists; split; [reflexivity|].
  cbn [reset_outcome success]. rewrite updateObjectsTable_closed.
  set (s1 := log_fetch _ _).
  pose proof (showNotification_globals "🔄 All data reset successfully!"
                "success" s1) as Hg.
  pose proof (showNotification_last "🔄 All data reset successfully!"
                "success" s1) as Hl.
  set (s2 := showNotification _ _ s1) in *.
  assert (Hp : currentPeriod s2 = currentPeriod s)
    by exact (f_equal (λ g, g.1.1.1.1.1.2) Hg).
  cbv beta.
  cbn [setTimeout new_timer set_timers document upd_document upd_reset_btn
       set_reset_btn upd_chart analyticsChart chart_update set_series
       table_of set_objects_table_body set_no_objects_display
       set_object_count_badge objects_table_body no_objects_display
       object_count_badge chart_labels dataset_data notifications
       length fmap list_fmap].
  rewrite Hp, Hl. repeat split; try done.
Qed.

(** X8.  When the reset request rejects or its body does not parse, the
    failure toast is shown, the rendered data is as it was and the error
    is logged. *)
Theorem resetCount_request_failed reply s :
  no_result reply = true →
  ∃ s', resetCount true reply s = Normal tt s' ∧
        last (notifications (document s'))
        = Some {| n_node := next_node (document s);
                  n_className := "notification notification-error";
                  n_message := "❌ Failed to reset data";
                  n_animation := "" |} ∧
        rendered_data s' = rendered_data s ∧
        console s' = (console s ++ ["Error resetting data:"])%list.
Proof.
  intros H. rewrite resetCount_confirmed. eexists; split; [reflexivity|].
  assert (Ho : ∀ s0, reset_outcome reply s0
               = showNotification "❌ Failed to reset data" "error"
                   (log_console "Error resetting data:" s0)).
  { intros s0. by destruct reply as [|ok [result|]]. }
  rewrite Ho. set (s1 := log_console _ _).
  pose proof (showNotification_globals "❌ Failed to reset data" "error" s1) as Hg.
  pose proof (showNotification_last "❌ Failed to reset data" "error" s1) as Hl.
  pose proof (showNotification_rendered "❌ Failed to reset data" "error" s1) as Hr.
  set (s2 := showNotification _ _ s1) in *.
  assert (Hc : console s2 = console s1) by exact (f_equal snd Hg).
  split; [|split].
  - cbn [setTimeout new_timer set_timers document upd_document upd_reset_btn
         set_reset_btn notifications]. by rewrite Hl.
  - transitivity (rendered_data s2); [reflexivity|]. by rewrite Hr.
  - cbn [setTimeout new_timer set_timers upd_document console]. by rewrite Hc.
Qed.

End ResetOutcomes.

Section RefreshOutcomes.

Lemma updateData_refresh_btn_commute now stats objs f s :
  state_of (updateData now stats objs (upd_document (upd_refresh_btn f) s))
  = upd_document (upd_refresh_btn f) (state_of (updateData now stats objs s)).
Proof.
  destruct stats as [|[] [sd|]], objs as [|[] [od|]]; try reflexivity.
  destruct (objects od) as [l|] eqn:Hl.
  - rewrite !(updateData_succeeded _ _ _ _ _ Hl). cbn [state_of].
    rewrite !updateObjectsTable_closed. unfold apply_analytics.
    assert (Hp : ∀ s0, currentPeriod (upd_document (table_of l)
                                        (apply_status now sd od s0))
                       = currentPeriod s0).
    { intros s0. unfold apply_status. by destruct (is_running sd). }
    rewrite !Hp. cbn [currentPeriod upd_document].
    destruct (analytics sd) as [a|]; [destruct (a !! currentPeriod s)|];
      unfold apply_status; by destruct (is_running sd).
  - unfold updateData. unfold_js. cbn [negb orb]. rewrite Hl.
    by destruct (is_running sd).
Qed.

(** X9.  A manual refresh renders exactly what a plain poll renders and
    leaves the same connectivity mark, and its button ends enabled, with
    its label restored and without the loading class. *)
Theorem refreshData_is_poll_and_toast now stats objs s :
  ∃ s', refreshData now stats objs s = Normal tt s' ∧
        rendered_data s' = rendered_data (state_of (updateData now stats objs s)) ∧
        isConnected s' = isConnected (state_of (updateData now stats objs s)) ∧
        connection_status (document s')
        = connection_status (document (state_of (updateData now stats objs s))) ∧
        disabled (refresh_btn (document s')) = false ∧
        innerHTML (refresh_btn (document s'))
        = innerHTML (refresh_btn (document s)) ∧
        ("loading" ∉ btn_classList (refresh_btn (document s'))).
Proof.
  rewrite refreshData_closed. eexists; split; [reflexivity|].
  unfold refreshed_state. rewrite updateData_refresh_btn_commute.
  set (s1 := state_of (updateData now stats objs s)).
  assert (Hb : refresh_btn (document s1) = refresh_btn (document s))
    by exact (f_equal (λ b, b.1.1.1.1.2) (updateData_beside now s stats objs)).
  set (s2 := upd_document (upd_refresh_btn (loading "Refreshing...")) s1).
  pose proof (showNotification_globals "🔁 Data refreshed successfully!"
                "success" s2) as Hg.
  pose proof (showNotification_rendered "🔁 Data refreshed successfully!"
                "success" s2) as Hr.
  pose proof (showNotification_document "🔁 Data refreshed successfully!"
                "success" s2) as Hd.
  set (s3 := showNotification _ _ s2) in *.
  assert (Hc : isConnected s3 = isConnected s2)
    by exact (f_equal (λ g, g.1.1.1.1.1.1.2) Hg).
  destruct (restore_loading_button "Refreshing..." (refresh_btn (document s)))
    as (Hdis & Hin & Hld & _).
  split; [|split; [|split]].
  - transitivity (rendered_data s3); [reflexivity|]. by rewrite Hr.
  - cbn [isConnected upd_document]. by rewrite Hc.
  - cbn [document upd_document upd_refresh_btn set_refresh_btn connection_status].
    by rewrite Hd.
  - cbn [document upd_document upd_refresh_btn set_refresh_btn refresh_btn].
    rewrite Hd. subst s2.
    cbn [document upd_document upd_refresh_btn set_refresh_btn refresh_btn
         set_notifications set_next_node].
    by rewrite Hb.
Qed.

End RefreshOutcomes.

Section PeriodEdges.

(** X11.  For a period that is not a property every object inherits,
    [generateSampleData] answers the day series unless the period is
    week or month, and what it answers always has as many labels as
    values and is not empty. *)
Theorem generateSampleData_fallback p :
  p ∉ inherited_keys →
  (p ≠ "week" → p ≠ "month" → generateSampleData p = sample_day) ∧
  length (labels (generateSampleData p)) = length (data (generateSampleData p)) ∧
  labels (generateSampleData p) ≠ [].
Proof.
  intros _. unfold generateSampleData.
  destruct (sample_data !! p) as [d|] eqn:E; [|done].
  unfold sample_data in E.
  apply elem_of_list_to_map_2 in E.
  rewrite !elem_of_cons, elem_of_nil in E.
  destruct E as [[= -> ->]|[[= -> ->]|[[= -> ->]|[]]]]; done.
Qed.


(** X13.  For a period with a theme and a button, [changePeriod] gives the
    chart the colours of that theme, redraws it with animation and
    shows an info toast naming the period with a capital initial. *)
Theorem changePeriod_theme_and_toast p theme s :
  colorThemes !! p = Some theme →
  has_control p (document s) = true →
  ∃ s', changePeriod p s = Normal tt s' ∧
        dataset_backgroundColor (analyticsChart s') = background theme ∧
        dataset_borderColor (analyticsChart s') = border theme ∧
        chart_updates (analyticsChart s')
        = (chart_updates (analyticsChart s) ++ [UpdateActive])%list ∧
        last (notifications (document s'))
        = Some {| n_node := next_node (document s);
                  n_className := "notification notification-info";
                  n_message := "📊 Switched to " +:+ periodText p +:+ " view";
                  n_animation := "" |} ∧
        periodText "day" = "Day" ∧ periodText "week" = "Week" ∧
        periodText "month" = "Month".
Proof.
  intros Ht Hc. destruct (has_control_inv _ _ Hc) as (i & e & Hq & Hi & He).
  unfold changePeriod. unfold_js.
  cbn [document upd_document set_currentPeriod set_elements elements].
  rewrite querySelector_deactivate, Hq, Ht.
  eexists; split; [reflexivity|].
  match goal with
  | |- context [showNotification ?m ?t ?s0] =>
      pose proof (showNotification_globals m t s0) as Hg;
      pose proof (showNotification_last m t s0) as Hl;
      set (s' := showNotification m t s0) in *
  end.
  assert (Hchart : analyticsChart s' =
                   chart_update UpdateActive
                     (set_series (generateSampleData p)
                        (set_theme theme (analyticsChart s))))
    by exact (f_equal (λ g, g.1.1.2) Hg).
  rewrite Hchart, Hl. repeat split; done.
Qed.

Lemma swipe_right_prev s a b :
  (b - a > 100)%Z →
  currentPeriod (swipe a b s) =
  at_index periods
    (if decide (indexOf (currentPeriod s) periods = 0)%Z
     then (Z.of_nat (length periods) - 1)%Z
     else (indexOf (currentPeriod s) periods - 1)%Z).
Proof.
  intros Hd. unfold swipe, touchstart, touchend, handleGesture.
  unfold_js. cbn [touchStartX touchEndX set_touchStartX set_touchEndX
                  currentPeriod].
  rewrite decide_True by lia. rewrite decide_False by lia.
  apply changePeriod_currentPeriod.
Qed.

(** X14.  A swipe to the right past the threshold moves the period one step
    back along day, week, month; from any of the three, a right swipe
    undoes a left swipe and a left swipe undoes a right swipe. *)
Theorem swipe_right_cycles_back s a b a' b' :
  (b - a > 100)%Z → (a' - b' > 100)%Z →
  currentPeriod s = "day" ∨ currentPeriod s = "week"
  ∨ currentPeriod s = "month" →
  (currentPeriod s = "day" → currentPeriod (swipe a b s) = "month") ∧
  (currentPeriod s = "week" → currentPeriod (swipe a b s) = "day") ∧
  (currentPeriod s = "month" → currentPeriod (swipe a b s) = "week") ∧
  currentPeriod (swipe a' b' (swipe a b s)) = currentPeriod s ∧
  currentPeriod (swipe a b (swipe a' b' s)) = currentPeriod s.
Proof.
  intros Hr Hl Hp.
  pose proof (λ s0, swipe_left_next s0 a' b' Hl) as HL.
  pose proof (λ s0, swipe_right_prev s0 a b Hr) as HR.
  repeat (rewrite ?HL, ?HR).
  destruct Hp as [-> | [-> | ->]]; repeat split; done.
Qed.

Lemma swipe_within_threshold s a b :
  (Z.abs (a - b) <= 100)%Z →
  swipe a b s = set_touchEndX b (set_touchStartX a s).
Proof.
  intros Hd. unfold swipe, touchstart, touchend, handleGesture.
  unfold_js. cbn [touchStartX touchEndX set_touchStartX set_touchEndX].
  by rewrite decide_False by lia.
Qed.

Lemma indexOf_from_absent i x l : x ∉ l → indexOf_from i x l = (-1)%Z.
Proof.
  revert i. induction l as [|y l IH]; intros i Hx; [done|].
  apply not_elem_of_cons in Hx as [Hne Hx]. cbn [indexOf_from].
  rewrite decide_False by done. by apply IH.
Qed.

Lemma changePeriod_undefined_throws s :
  ∃ s', changePeriod "undefined" s = Throw s'.
Proof.
  unfold changePeriod. unfold_js.
  cbn [document upd_document set_currentPeriod set_elements elements].
  destruct (querySelector "undefined" _); by eexists.
Qed.

(** X15.  When [currentPeriod] is none of the three periods, a swipe to the
    left recovers to day, while a swipe to the right reads
    [periods[-2]], leaves [currentPeriod] undefined and throws. *)
Theorem swipe_from_unknown_period s a b :
  currentPeriod s ∉ periods → (Z.abs (a - b) > 100)%Z →
  ((a - b > 0)%Z → currentPeriod (swipe a b s) = "day") ∧
  ((a - b < 0)%Z →
   currentPeriod (swipe a b s) = "undefined" ∧
   ∃ s', touchend b (state_of (touchstart a s)) = Throw s').
Proof.
  intros Hp Hd.
  pose proof (indexOf_from_absent 0 _ _ Hp) as Hi. fold (indexOf (currentPeriod s) periods) in Hi.
  split; intros Hdir.
  - rewrite swipe_left_next by lia. by rewrite Hi.
  - split.
    + rewrite swipe_right_prev by lia. by rewrite Hi.
    + unfold touchstart, touchend, handleGesture. unfold_js.
      cbn [touchStartX touchEndX set_touchStartX set_touchEndX currentPeriod].
      rewrite decide_True by lia. rewrite decide_False by lia.
      rewrite Hi. apply changePeriod_undefined_throws.
Qed.

End PeriodEdges.

Section TableReplace.

(** X5.  Rendering a list replaces whatever was rendered before: the
    result does not depend on the earlier table, the rows are those of
    the list in order, and the empty-state message is shown exactly for
    the empty list. *)
Theorem updateObjectsTable_last_wins l l' s :
  updateObjectsTable l (updateObjectsTable l' s) = updateObjectsTable l s ∧
  objects_table_body (document (updateObjectsTable l s)) = row_of <$> l ∧
  (no_objects_display (document (updateObjectsTable l s)) = "block" ↔ l = []).
Proof.
  rewrite !updateObjectsTable_closed. repeat split.
  - cbn. intros H. destruct l; [done|]. by rewrite decide_False in H.
  - by intros ->.
Qed.

End TableReplace.

Section HealthOutcomes.

(** X10.  Every probe returns normally after one request to [/health] and
    never touches the rendered data.  It answers [true] and marks the
    page connected exactly for a body whose status is ["healthy"]; a
    rejected request or an unparsable body marks it disconnected; any
    other body leaves the mark as it was. *)
Theorem healthCheck_outcomes reply s :
  ∃ b s', healthCheck reply s = Normal b s' ∧
    fetches s' = (fetches s ++ ["GET /health"])%list ∧
    rendered_data s' = rendered_data s ∧
    match reply with
    | Response _ (Some data) =>
        if decide (health_status data = "healthy")
        then b = true ∧ isConnected s' = true ∧
             connection_status (document s') = "status-indicator connected"
        else b = false ∧ isConnected s' = isConnected s ∧
             connection_status (document s') = connection_status (document s)
    | _ => b = false ∧ isConnected s' = false ∧
           connection_status (document s') = "status-indicator"
    end.
Proof.
  destruct reply as [|ok [data|]].
  - rewrite healthCheck_network_error. by eexists _, _.
  - case_decide as E.
    + destruct data as [st]. cbn in E. subst st.
      rewrite healthCheck_healthy. by eexists _, _.
    + rewrite (healthCheck_unhealthy _ _ _ E). by eexists _, _.
  - rewrite healthCheck_bad_body. by eexists _, _.
Qed.

End HealthOutcomes.

Section Startup.


Lemma changePeriod_keeps_globals p s :
  (updateInterval (state_of (changePeriod p s)),
   isConnected (state_of (changePeriod p s)),
   fetches (state_of (changePeriod p s)),
   console (state_of (changePeriod p s)))
  = (updateInterval s, isConnected s, fetches s, console s).
Proof.
  unfold changePeriod. unfold_js.
  cbn [document upd_document set_currentPeriod set_elements elements].
  destruct (querySelector p _) as [i|]; [|done].
  destruct (colorThemes !! p) as [theme|]; [|done].
  match goal with
  | |- context [showNotification ?m ?t ?s0] =>
      exact (f_equal (λ g, (g.1.1.1.1.1.1.1, g.1.1.1.1.1.1.2, g.1.2, g.2))
               (showNotification_globals m t s0))
  end.
Qed.

Lemma changePeriod_returns p s :
  has_control p (document s) = true → is_Some (colorThemes !! p) →
  ∃ s', changePeriod p s = Normal tt s'.
Proof.
  intros Hc [theme Ht].
  destruct (has_control_inv _ _ Hc) as (i & e & Hq & _).
  unfold changePeriod. unfold_js.
  cbn [document upd_document set_currentPeriod set_elements elements].
  rewrite querySelector_deactivate, Hq, Ht. by eexists.
Qed.

(** X16.  On a page with a day button, [initialize] returns normally
    having polled once and registered, in this order, the repeating
    poll timer (3000ms, named by [updateInterval]), the repeating
    health-check timer (15000ms) and the one-shot welcome timer
    (500ms). *)
Theorem initialize_registers_timers net page :
  has_control "day" page = true →
  ∃ s' hp, initialize net (initial_state page) = Normal tt s' ∧
           updateInterval s' = Some hp ∧
           timers s' !! hp = Some poll_timer ∧
           timers s' !! Pos.succ hp = Some health_timer ∧
           timers s' !! Pos.succ (Pos.succ hp) = Some welcome_timer ∧
           next_handle s' = Pos.succ (Pos.succ (Pos.succ hp)) ∧
           fetches s' = poll_requests ∧
           currentPeriod s' = "day".
Proof.
  intros Hc.
  set (s0 := log_console "🚗 Modern Vehicle Detection Dashboard initialized"
               (initial_state page)).
  destruct (changePeriod_returns "day" s0 Hc) as [s1 Hs1]; [by eexists|].
  assert (Hp1 : currentPeriod s1 = "day").
  { pose proof (changePeriod_currentPeriod "day" s0) as E.
    by rewrite Hs1 in E. }
  assert (Hu1 : updateInterval s1 = None ∧ fetches s1 = []).
  { pose proof (changePeriod_keeps_globals "day" s0) as E.
    rewrite Hs1 in E. cbn [state_of] in E. by injection E as -> _ -> _. }
  destruct Hu1 as [Hu1 Hf1].
  set (s2 := state_of (updateData (now net) (stats_reply net)
                         (objects_reply net) s1)).
  pose proof (updateData_beside (now net) s1 (stats_reply net)
                (objects_reply net)) as Hb. fold s2 in Hb.
  assert (Hu2 : updateInterval s2 = None).
  { rewrite <- Hu1. exact (f_equal snd Hb). }
  assert (Hp2 : currentPeriod s2 = "day").
  { rewrite <- Hp1. exact (f_equal (λ b, b.1.2) Hb). }
  assert (Hf2 : fetches s2 = poll_requests).
  { unfold s2. by rewrite updateData_fetches, Hf1. }
  exists (setTimeout CbWelcome 500
            (new_timer health_timer (restarted s2))), (next_handle s2).
  split.
  - unfold initialize. cbv [bind modify]. fold s0. rewrite Hs1.
    unfold poll, detach. fold s2. rewrite startAutoReconnect_closed.
    reflexivity.
  - unfold restarted, clear_updateInterval. rewrite Hu2.
    cbn [state_of ret setTimeout new_timer set_timers set_updateInterval
         updateInterval timers next_handle fetches currentPeriod].
    repeat split; try done.
    + rewrite !lookup_insert_ne by lia. apply lookup_insert_eq.
    + rewrite lookup_insert_ne by lia. apply lookup_insert_eq.
    + apply lookup_insert_eq.
Qed.

End Startup.

Section ToastLife.

Lemma schedule_removals_timers (l : list Notification) (s : State) :
  (next_handle s ≤ next_handle
     (foldl (λ s n, setTimeout (CbRemove (n_node n)) 300 s) s l))%positive ∧
  (∀ h, (h < next_handle s)%positive →
        timers (foldl (λ s n, setTimeout (CbRemove (n_node n)) 300 s) s l) !! h
        = timers s !! h) ∧
  (∀ x, x ∈ l →
        ∃ h, (h < next_handle
                (foldl (λ s n, setTimeout (CbRemove (n_node n)) 300 s) s l))%positive ∧
             timers (foldl (λ s n, setTimeout (CbRemove (n_node n)) 300 s) s l) !! h
             = Some (removal_timer (n_node x))).
Proof.
  revert s. induction l as [|y l IH]; intros s.
  - cbn [foldl]. split; [lia|]. split; [done|].
    intros x Hx. by apply elem_of_nil in Hx.
  - cbn [foldl].
    destruct (IH (setTimeout (CbRemove (n_node y)) 300 s)) as (Hle & Hold & Hnew).
    cbn [setTimeout new_timer set_timers next_handle timers] in Hle, Hold.
    split; [lia|]. split.
    + intros h Hh. rewrite Hold by lia. by rewrite lookup_insert_ne by lia.
    + intros x Hx. apply elem_of_cons in Hx as [->|Hx]; [|by apply Hnew].
      exists (next_handle s). split; [lia|].
      rewrite Hold by lia. apply lookup_insert_eq.
Qed.

Lemma leave_leave n : leave (leave n) = leave n.
Proof. done. Qed.

Lemma filter_staying_leave (l : list Notification) :
  filter (λ x, is_staying x = true) (leave <$> l) = [].
Proof.
  induction l as [|x l IH]; [done|].
  cbn [fmap list_fmap]. rewrite filter_cons_False; [done|].
  unfold is_staying, leave. cbn [n_animation].
  rewrite bool_decide_eq_true. by intros H.
Qed.

Lemma showNotification_removal_timers message type s x :
  x ∈ notifications (document s) →
  ∃ h, timers (showNotification message type s) !! h
       = Some (removal_timer (n_node x)).
Proof.
  intros Hx. unfold showNotification.
  set (s1 := upd_document _ s).
  destruct (schedule_removals_timers (notifications (document s)) s1)
    as (_ & _ & Hnew).
  destruct (Hnew x Hx) as (h & Hh & Ht).
  set (s2 := foldl _ s1 _) in *.
  exists h. cbn [setTimeout new_timer set_timers timers upd_document next_handle].
  rewrite lookup_insert_ne; [done|].
  cbn [upd_document next_handle]. lia.
Qed.

Lemma showNotification_dismiss_timer message type s :
  ∃ h, timers (showNotification message type s) !! h
       = Some (dismiss_timer (next_node (document s))) ∧
       next_handle (showNotification message type s) = Pos.succ h.
Proof.
  unfold showNotification. eexists.
  cbn [setTimeout new_timer set_timers timers next_handle].
  split; [|reflexivity].
  rewrite lookup_insert_eq, schedule_removals_document. done.
Qed.

(** X18.  After [showNotification] the new toast is last and is the only one
    not animating out; every earlier toast has a removal timer of
    300ms, and the new one has its 5000ms dismissal timer, the last
    timer registered. *)
Theorem showNotification_replaces message type s :
  notifications (document (showNotification message type s))
  = ((leave <$> notifications (document s)) ++ [toast message type s])%list ∧
  filter (λ x, is_staying x = true)
    (notifications (document (showNotification message type s)))
  = [toast message type s] ∧
  (∀ x, x ∈ notifications (document s) →
        ∃ h, timers (showNotification message type s) !! h
             = Some (removal_timer (n_node x))) ∧
  (∃ h, timers (showNotification message type s) !! h
        = Some (dismiss_timer (next_node (document s))) ∧
        next_handle (showNotification message type s) = Pos.succ h).
Proof.
  split; [by rewrite showNotification_document|]. split; [|split].
  - rewrite showNotification_document. cbn [notifications set_notifications].
    rewrite filter_app, filter_staying_leave. done.
  - intros x. apply showNotification_removal_timers.
  - apply showNotification_dismiss_timer.
Qed.

Lemma leave_node_other n (l : list Notification) :
  Forall (λ x, n_node x ≠ n) l →
  ((λ x, if decide (n_node x = n) then leave x else x) <$> l) = l.
Proof.
  induction 1 as [|x l Hx _ IH]; [done|].
  cbn [fmap list_fmap]. rewrite decide_False by done. by f_equal.
Qed.

Lemma remove_node_other n (l : list Notification) :
  Forall (λ x, n_node x ≠ n) l → filter (λ x, n_node x ≠ n) l = l.
Proof.
  induction 1 as [|x l Hx _ IH]; [done|].
  rewrite filter_cons_True by done. by f_equal.
Qed.

Lemma toasts_fresh_others s :
  toasts_fresh s →
  Forall (λ x, n_node x ≠ next_node (document s))
    (leave <$> notifications (document s)).
Proof.
  intros [Hlt _]. apply Forall_fmap. eapply Forall_impl; [exact Hlt|].
  intros x Hx. unfold compose, leave. cbn [n_node]. cbn beta in Hx.
  lia.
Qed.

(** X19.  A toast runs its course: when its dismissal timer comes due it
    starts animating out and a removal timer is set, and when that one
    comes due the toast is gone and the earlier toasts remain; both
    timers are spent. *)
Theorem toast_dismissed_then_removed message type net s :
  toasts_fresh s →
  ∃ ha hr s2 s3,
    timers (showNotification message type s) !! ha
    = Some (dismiss_timer (next_node (document s))) ∧
    fire ha net (showNotification message type s) = Normal tt s2 ∧
    notifications (document s2)
    = ((leave <$> notifications (document s))
       ++ [leave (toast message type s)])%list ∧
    timers s2 !! ha = None ∧
    timers s2 !! hr = Some (removal_timer (next_node (document s))) ∧
    fire hr net s2 = Normal tt s3 ∧
    notifications (document s3) = leave <$> notifications (document s) ∧
    timers s3 !! hr = None.
Proof.
  intros Hfresh. pose proof (toasts_fresh_others s Hfresh) as Hothers.
  destruct (showNotification_dismiss_timer message type s)
    as (ha & Hha & Hnext).
  assert (Hn : notifications (document (showNotification message type s))
               = ((leave <$> notifications (document s))
                  ++ [toast message type s])%list)
    by (by rewrite showNotification_document).
  set (s1 := showNotification message type s) in *.
  set (node := next_node (document s)) in *.
  set (s2 := setTimeout (CbRemove node) 300
               (upd_document (leave_node node) (clearInterval ha s1))).
  assert (E2 : fire ha net s1 = Normal tt s2).
  { unfold fire. rewrite Hha. cbn [dismiss_timer repeating callback run_callback].
    rewrite decide_True; [done|].
    cbn [clearInterval set_timers document]. rewrite Hn, fmap_app.
    apply elem_of_app. right. cbn. by apply list_elem_of_singleton. }
  assert (N2 : notifications (document s2)
               = ((leave <$> notifications (document s))
                  ++ [leave (toast message type s)])%list).
  { unfold s2, leave_node.
    cbn [setTimeout new_timer set_timers document upd_document clearInterval
         notifications set_notifications].
    rewrite Hn, fmap_app, (leave_node_other node _ Hothers).
    cbn [fmap list_fmap toast n_node]. fold node. by rewrite decide_True. }
  assert (T2 : timers s2 = <[next_handle s1 := removal_timer node]>
                             (delete ha (timers s1))) by done.
  set (s3 := upd_document (remove_node node) (clearInterval (next_handle s1) s2)).
  exists ha, (next_handle s1), s2, s3.
  split; [done|]. split; [done|]. split; [done|].
  split; [rewrite T2, lookup_insert_ne by lia; apply lookup_delete_eq|].
  split; [rewrite T2; apply lookup_insert_eq|].
  split; [unfold fire; by rewrite T2, lookup_insert_eq|].
  split.
  - unfold s3, remove_node.
    cbn [document upd_document clearInterval set_timers notifications
         set_notifications].
    rewrite N2, filter_app, (remove_node_other node _ Hothers).
    rewrite filter_cons_False, filter_nil, app_nil_r; [done|].
    cbn [leave toast n_node]. by intros H.
  - unfold s3. cbn [timers upd_document clearInterval set_timers].
    apply lookup_delete_eq.
Qed.

Lemma toast_already_closed h n net s :
  timers s !! h = Some (dismiss_timer n) →
  n ∉ n_node <$> notifications (document s) →
  fire h net s = Normal tt (clearInterval h s).
Proof.
  intros Hh Hn. unfold fire. rewrite Hh.
  cbn [dismiss_timer repeating callback run_callback].
  by rewrite decide_False.
Qed.

End ToastLife.

Section Invariant.

Variable P : State → Prop.
Hypothesis P_frame : ∀ s s', core_view s' = core_view s → P s → P s'.
Hypothesis P_mark : ∀ b s, P s → P (updateConnectionStatus b s).
Hypothesis P_toast : ∀ m t s, P s → P (showNotification m t s).
Hypothesis P_timer : ∀ t s, is_poll_timer t = false → P s → P (new_timer t s).
Hypothesis P_restart : ∀ s, P s → P (restarted s).
Hypothesis P_clear_named :
  ∀ h s, updateInterval s = Some h → P s → P (clearInterval h s).
Hypothesis P_clear_spent :
  ∀ h t s, timers s !! h = Some t → repeating t = false → P s →
           P (clearInterval h s).
Hypothesis P_remove : ∀ n s, P s → P (upd_document (remove_node n) s).
Hypothesis P_leave : ∀ n s, P s → P (upd_document (leave_node n) s).

Lemma keeps_ret {A} (v : A) : keeps P (ret v).
Proof. by intros s Hs. Qed.

Lemma keeps_throw {A} : keeps P (@throw A).
Proof. by intros s Hs. Qed.

Lemma keeps_deref {A} (o : option A) : keeps P (deref o).
Proof. destruct o; [apply keeps_ret | apply keeps_throw]. Qed.

Lemma keeps_modify (f : State → State) :
  (∀ s, P s → P (f s)) → keeps P (modify f).
Proof. intros Hf s Hs. by apply Hf. Qed.

Lemma keeps_setter (f : State → State) :
  (∀ s, core_view (f s) = core_view s) → keeps P (modify f).
Proof. intros Hf. apply keeps_modify. intros s. by apply P_frame. Qed.

Lemma keeps_bind {A B} (m : JS A) (k : A → JS B) :
  keeps P m → (∀ v, keeps P (k v)) → keeps P (bind m k).
Proof.
  intros Hm Hk s Hs. specialize (Hm s Hs). unfold bind.
  destruct (m s) as [v s'|s']; [|done]. by apply Hk.
Qed.

Lemma keeps_detach {A} (m : JS A) : keeps P m → keeps P (detach m).
Proof. intros Hm s Hs. by apply Hm. Qed.

Lemma keeps_try_catch {A} (body handler : JS A) :
  keeps P body → keeps P handler → keeps P (try_catch body handler).
Proof.
  intros Hb Hh s Hs. specialize (Hb s Hs). unfold try_catch.
  destruct (body s) as [v s'|s']; [done|]. by apply Hh.
Qed.

Lemma keeps_try_finally {A} (body : JS A) (fin : JS unit) :
  keeps P body → keeps P fin → keeps P (try_finally body fin).
Proof.
  intros Hb Hf s Hs. specialize (Hb s Hs). unfold try_finally.
  destruct (body s) as [v s'|s']; cbn [state_of] in Hb.
  - specialize (Hf s' Hb). by destruct (fin s').
  - by apply Hf.
Qed.

Ltac as_keeps :=
  match goal with
  | |- ∀ s, P s → P (state_of (?m s)) => change (keeps P m)
  end.

Ltac keeps_step :=
  lazymatch goal with
  | |- keeps _ (bind _ _) => apply keeps_bind; [|intros ?]
  | |- keeps _ (ret _) => apply keeps_ret
  | |- keeps _ throw => apply keeps_throw
  | |- keeps _ (deref _) => apply keeps_deref
  | |- keeps _ (detach _) => apply keeps_detach
  | |- keeps _ (try_catch _ _) => apply keeps_try_catch
  | |- keeps _ (try_finally _ _) => apply keeps_try_finally
  | |- keeps _ (modify (updateConnectionStatus _)) =>
      apply keeps_modify; intros ?; apply P_mark
  | |- keeps _ (modify (showNotification _ _)) =>
      apply keeps_modify; intros ?; apply P_toast
  | |- keeps _ (modify (setTimeout _ _)) =>
      apply keeps_modify; intros ?; apply P_timer; reflexivity
  | |- keeps _ (modify (updateObjectsTable _)) =>
      apply keeps_modify; intros ?; rewrite updateObjectsTable_closed;
      apply P_frame; reflexivity
  | |- keeps _ (modify _) => apply keeps_setter; reflexivity
  end.

Lemma keeps_changePeriod p : keeps P (changePeriod p).
Proof.
  unfold changePeriod. repeat keeps_step.
  intros s Hs. by destruct (querySelector p _).
Qed.

Lemma keeps_updateData now stats objs : keeps P (updateData now stats objs).
Proof.
  unfold updateData. repeat keeps_step.
  destruct stats as [|? ?], objs as [|? ?]; repeat keeps_step.
  - by destruct (negb _ || negb _); keeps_step.
  - apply keeps_setter. intros s. by destruct (is_running _).
  - intros s Hs. destruct (analytics _) as [a|]; [|done].
    destruct (a !! currentPeriod s); [|done].
    by apply (P_frame s).
Qed.

Lemma keeps_healthCheck reply : keeps P (healthCheck reply).
Proof.
  unfold healthCheck. repeat keeps_step.
  - destruct reply; keeps_step.
  - case_decide; repeat keeps_step.
Qed.

Lemma keeps_resetCount confirmed reply : keeps P (resetCount confirmed reply).
Proof.
  intros s Hs. unfold resetCount.
  generalize (innerHTML (reset_btn (document s))). intros originalText.
  destruct confirmed; cbn [negb]; [|done]. revert s Hs. as_keeps.
  repeat keeps_step.
  - destruct reply; keeps_step.
  - destruct (success _); repeat keeps_step.
Qed.

Lemma keeps_refreshData now stats objs : keeps P (refreshData now stats objs).
Proof.
  intros s Hs. unfold refreshData.
  generalize (innerHTML (refresh_btn (document s))). intros originalText.
  revert s Hs. as_keeps. repeat keeps_step. apply keeps_updateData.
Qed.

Lemma keeps_handleGesture : keeps P handleGesture.
Proof.
  intros s Hs. unfold handleGesture.
  repeat case_decide; try done; by apply keeps_changePeriod.
Qed.

Lemma keeps_keydown ctrl key net : keeps P (keydown ctrl key net).
Proof.
  unfold keydown. destruct ctrl; [|apply keeps_ret].
  repeat case_decide; repeat keeps_step; try apply keeps_changePeriod.
  apply keeps_refreshData.
Qed.

Lemma keeps_clear_updateInterval : keeps P clear_updateInterval.
Proof.
  intros s Hs. unfold clear_updateInterval.
  destruct (updateInterval s) as [h|] eqn:E; [|done]. by apply P_clear_named.
Qed.

Lemma keeps_startAutoReconnect : keeps P startAutoReconnect.
Proof.
  intros s Hs. rewrite startAutoReconnect_closed. by apply P_restart.
Qed.

Lemma keeps_poll net : keeps P (poll net).
Proof. apply keeps_detach, keeps_updateData. Qed.

Lemma keeps_show net : keeps P (visibilitychange false net).
Proof.
  cbn [visibilitychange].
  keeps_step; [apply keeps_startAutoReconnect|apply keeps_poll].
Qed.

Lemma keeps_visibilitychange hidden net : keeps P (visibilitychange hidden net).
Proof.
  destruct hidden; [apply keeps_clear_updateInterval|apply keeps_show].
Qed.

Lemma keeps_run_callback cb net : keeps P (run_callback cb net).
Proof.
  destruct cb; cbn [run_callback].
  - apply keeps_poll.
  - apply keeps_detach, keeps_healthCheck.
  - apply keeps_modify. intros s. apply P_remove.
  - intros s Hs. case_decide; [|done]. unfold modify. cbn [state_of].
    by apply P_timer, P_leave.
  - keeps_step.
Qed.

Lemma keeps_fire h net : keeps P (fire h net).
Proof.
  intros s Hs. unfold fire. destruct (timers s !! h) as [t|] eqn:E; [|done].
  apply keeps_run_callback.
  destruct (repeating t) eqn:R; [done|]. by apply (P_clear_spent h t).
Qed.

Lemma keeps_initialize net : keeps P (initialize net).
Proof.
  unfold initialize. repeat keeps_step.
  - apply keeps_changePeriod.
  - apply keeps_poll.
  - apply keeps_startAutoReconnect.
  - intros s Hs. unfold setInterval. cbn [state_of]. by apply P_timer.
Qed.

Lemma keeps_startDetection reply button s :
  P s → P (state_of (startDetection reply button s).2).
Proof.
  unfold startDetection. cbv beta zeta iota delta [snd]. revert s. as_keeps.
  repeat keeps_step.
  - destruct reply; cbn [command_reply]; keeps_step.
  - destruct (success _); keeps_step.
Qed.

Lemma keeps_stopDetection reply button s :
  P s → P (state_of (stopDetection reply button s).2).
Proof.
  unfold stopDetection. cbv beta zeta iota delta [snd]. revert s. as_keeps.
  repeat keeps_step.
  - destruct reply; cbn [command_reply]; keeps_step.
  - destruct (success _); keeps_step.
Qed.

Lemma keeps_on_dashboard {A} (m : JS A) p :
  keeps P m → P (dashboard p) → P (dashboard (on_dashboard m p)).
Proof. intros Hm Hp. by apply Hm. Qed.

(** Every handler but the one of a page that becomes visible: none of
    them registers a poll timer, so [P_restart] is not called for. *)
Lemma keeps_dispatch_hidden e p :
  becomes_visible e = false → P (dashboard p) → P (dashboard (dispatch e p)).
Proof.
  intros He Hp.
  destruct e as [[] net|ctrl key net|h net|x|x| | |n|period|reply|reply
                |confirmed reply|net];
    cbn in He; try discriminate He; cbn [dispatch].
  - destruct (listening p); [|done].
    by apply keeps_on_dashboard; [apply keeps_clear_updateInterval|].
  - destruct (listening p); [|done].
    by apply keeps_on_dashboard; [apply keeps_keydown|].
  - by apply keeps_on_dashboard; [apply keeps_fire|].
  - apply keeps_on_dashboard; [|done]. unfold touchstart. keeps_step.
  - apply keeps_on_dashboard; [|done]. unfold touchend.
    repeat keeps_step. apply keeps_handleGesture.
  - done.
  - by apply keeps_on_dashboard; [apply keeps_clear_updateInterval|].
  - apply keeps_on_dashboard; [|done]. apply keeps_modify.
    intros s. apply P_remove.
  - by apply keeps_on_dashboard; [apply keeps_changePeriod|].
  - destruct (start_btn p) as [button|]; [|done].
    cbn [dashboard]. by apply keeps_startDetection.
  - destruct (stop_btn p) as [button|]; [|done].
    cbn [dashboard]. by apply keeps_stopDetection.
  - by apply keeps_on_dashboard; [apply keeps_detach, keeps_resetCount|].
  - by apply keeps_on_dashboard; [apply keeps_detach, keeps_refreshData|].
Qed.

Lemma keeps_dispatch e p : P (dashboard p) → P (dashboard (dispatch e p)).
Proof.
  intros Hp. destruct (becomes_visible e) eqn:He;
    [|by apply keeps_dispatch_hidden].
  destruct e as [[] net| | | | | | | | | | | |]; try discriminate He.
  cbn [dispatch]. destruct (listening p); [|done].
  by apply keeps_on_dashboard; [apply keeps_show|].
Qed.

Lemma keeps_run_hidden events p :
  Forall (λ e, becomes_visible e = false) events →
  P (dashboard p) → P (dashboard (run events p)).
Proof.
  intros He. revert p.
  induction He as [|e events He _ IH]; intros p Hp; [done|].
  cbn [run foldl]. apply IH. by apply keeps_dispatch_hidden.
Qed.

Lemma keeps_run events p : P (dashboard p) → P (dashboard (run events p)).
Proof.
  revert p. induction events as [|e events IH]; intros p Hp; [done|].
  cbn [run foldl]. apply IH. by apply keeps_dispatch.
Qed.

Lemma keeps_reachable page p :
  P (initial_state page) → reachable page p → P (dashboard p).
Proof.
  intros H0. induction 1 as [net start stop early|e p _ IH].
  - cbn [loaded dashboard]. apply keeps_initialize. by apply keeps_run.
  - by apply keeps_dispatch.
Qed.

End Invariant.

Section Instances.

Lemma showNotification_isConnected message type s :
  isConnected (showNotification message type s) = isConnected s.
Proof.
  exact (f_equal (λ g, g.1.1.1.1.1.1.2) (showNotification_globals message type s)).
Qed.

Lemma showNotification_connection_status message type s :
  connection_status (document (showNotification message type s))
  = connection_status (document s).
Proof. by rewrite showNotification_document. Qed.

Lemma mark_consistent_run events p :
  mark_consistent (dashboard p) → mark_consistent (dashboard (run events p)).
Proof.
  apply (keeps_run mark_consistent); unfold mark_consistent; clear.
  - intros s s' [= _ _ _ Hc Hm _ _]. by rewrite Hc, Hm.
  - by intros [] s _.
  - intros m t s.
    by rewrite showNotification_isConnected, showNotification_connection_status.
  - done.
  - intros s. unfold restarted, clear_updateInterval.
    by destruct (updateInterval s).
  - done.
  - done.
  - done.
  - done.
Qed.

(** A toast registers timers under new ids only. *)
Lemma showNotification_old_timers message type s h :
  (h < next_handle s)%positive →
  timers (showNotification message type s) !! h = timers s !! h ∧
  (h < next_handle (showNotification message type s))%positive.
Proof.
  intros Hh. unfold showNotification.
  set (s1 := upd_document _ s).
  destruct (schedule_removals_timers (notifications (document s)) s1)
    as (Hle & Hold & _).
  set (s2 := foldl _ s1 _) in *.
  cbn [setTimeout new_timer set_timers timers upd_document next_handle].
  cbn [upd_document next_handle] in Hle.
  assert (Hs1 : next_handle s1 = next_handle s) by done.
  split; [|lia].
  rewrite lookup_insert_ne by lia.
  rewrite Hold by lia. done.
Qed.

Lemma showNotification_keeps_timer message type s h t :
  (h < next_handle s)%positive → timers s !! h = Some t →
  timers (showNotification message type s) !! h = Some t.
Proof.
  intros Hh Ht.
  destruct (showNotification_old_timers message type s h Hh) as [E _].
  by rewrite E.
Qed.

Lemma timers_ok_frame s s' :
  core_view s' = core_view s → timers_ok s → timers_ok s'.
Proof.
  intros Hv. apply timers_ok_ext. unfold timer_state.
  by injection Hv as -> -> -> _ _ _ _.
Qed.

Lemma timers_ok_mark b s : timers_ok s → timers_ok (updateConnectionStatus b s).
Proof. apply timers_ok_ext. by destruct b. Qed.

Lemma timers_ok_run events p :
  timers_ok (dashboard p) → timers_ok (dashboard (run events p)).
Proof.
  apply (keeps_run timers_ok); clear.
  - apply timers_ok_frame.
  - apply timers_ok_mark.
  - apply showNotification_ok.
  - apply new_timer_ok.
  - apply restarted_ok.
  - intros h s _. apply clearInterval_ok.
  - intros h t s _ _. apply clearInterval_ok.
  - intros n s. apply upd_document_ok.
  - intros n s. apply upd_document_ok.
Qed.

(** The timer table is consistent on every page the script can reach. *)
Lemma reachable_timers_ok page p : reachable page p → timers_ok (dashboard p).
Proof.
  apply (keeps_reachable timers_ok).
  - apply timers_ok_frame.
  - apply timers_ok_mark.
  - apply showNotification_ok.
  - apply new_timer_ok.
  - apply restarted_ok.
  - intros h s _. apply clearInterval_ok.
  - intros h t s _ _. apply clearInterval_ok.
  - intros n s. apply upd_document_ok.
  - intros n s. apply upd_document_ok.
  - apply initial_state_ok.
Qed.

Lemma reachable_run page events p :
  reachable page p → reachable page (run events p).
Proof.
  revert p. induction events as [|e events IH]; intros p Hp; [done|].
  cbn [run foldl]. apply IH. by apply reach_dispatch.
Qed.

Lemma dispatch_listening e p : listening (dispatch e p) = listening p.
Proof.
  destruct e; cbn [dispatch]; try done; by repeat case_match.
Qed.

Lemma run_listening events p : listening (run events p) = listening p.
Proof.
  revert p. induction events as [|e events IH]; intros p; [done|].
  cbn [run foldl]. fold (run events (dispatch e p)).
  by rewrite IH, dispatch_listening.
Qed.

Section HealthTimer.

Variables (h0 : positive) (t0 : Timer).
Hypothesis t0_health : is_health_timer t0 = true.

Lemma health_live_run events p :
  health_live h0 t0 (dashboard p) → health_live h0 t0 (dashboard (run events p)).
Proof.
  pose proof (health_timer_not_poll t0 t0_health) as Hnp.
  assert (Hrep : repeating t0 = true).
  { unfold is_health_timer in t0_health. by destruct (callback t0). }
  apply (keeps_run (health_live h0 t0)); clear p events; unfold health_live.
  - intros s s' Hv [Hok Hl]. split.
    + by apply (timers_ok_frame s).
    + by injection Hv as -> _ _ _ _ _ _.
  - intros b s [Hok Hl]. split; [|by destruct b].
    by apply timers_ok_mark.
  - intros m t s [Hok Hl]. split; [by apply showNotification_ok|].
    apply showNotification_keeps_timer; [|done].
    apply (ok_fresh s Hok). by eexists.
  - intros t s Ht [Hok Hl]. split; [by apply new_timer_ok|].
    cbn [new_timer set_timers timers]. rewrite lookup_insert_ne; [done|].
    intros E. pose proof (ok_fresh s Hok h0 (ex_intro _ _ Hl)). lia.
  - intros s [Hok Hl]. split; [by apply restarted_ok|].
    rewrite restarted_timers, lookup_insert_ne.
    + by apply clear_updateInterval_keeps.
    + intros E. pose proof (ok_fresh s Hok h0 (ex_intro _ _ Hl)). lia.
  - intros h s Hu [Hok Hl]. split; [by apply clearInterval_ok|].
    cbn [clearInterval set_timers timers]. rewrite lookup_delete_ne; [done|].
    intros ->. pose proof (ok_named_poll s Hok _ _ Hu Hl). congruence.
  - intros h t s Ht Hr [Hok Hl]. split; [by apply clearInterval_ok|].
    cbn [clearInterval set_timers timers]. rewrite lookup_delete_ne; [done|].
    intros ->. congruence.
  - intros n s [Hok Hl]. split; [by apply upd_document_ok|done].
  - intros n s [Hok Hl]. split; [by apply upd_document_ok|done].
Qed.

End HealthTimer.

Lemma new_timer_no_poll t s :
  is_poll_timer t = false → no_poll_timer s → no_poll_timer (new_timer t s).
Proof.
  intros Ht Hs h x. cbn [new_timer set_timers timers].
  rewrite lookup_insert_Some. intros [[_ <-]|[_ Hl]]; [done|by eapply Hs].
Qed.

Lemma setTimeout_no_poll cb ms s :
  no_poll_timer s → no_poll_timer (setTimeout cb ms s).
Proof. apply new_timer_no_poll. unfold is_poll_timer. cbn. by destruct cb. Qed.

Lemma clearInterval_no_poll h s :
  no_poll_timer s → no_poll_timer (clearInterval h s).
Proof.
  intros Hs h' x. cbn [clearInterval set_timers timers].
  rewrite lookup_delete_Some. intros [_ Hl]. by eapply Hs.
Qed.

Lemma showNotification_no_poll message type s :
  no_poll_timer s → no_poll_timer (showNotification message type s).
Proof.
  intros Hs. unfold showNotification. apply setTimeout_no_poll.
  set (s1 := upd_document _ s).
  assert (H1 : no_poll_timer s1) by exact Hs.
  clearbody s1. revert s1 H1.
  induction (notifications (document s)) as [|n l IH]; intros s1 H1;
    cbn [foldl].
  - exact H1.
  - apply IH. by apply setTimeout_no_poll.
Qed.

(** While the page stays hidden, no handler registers a poll timer. *)
Lemma no_poll_run_hidden events p :
  stays_hidden events →
  no_poll_timer (dashboard p) → no_poll_timer (dashboard (run events p)).
Proof.
  apply (keeps_run_hidden no_poll_timer); clear.
  - intros s s' Hv Hs h t. injection Hv as -> _ _ _ _ _ _. apply Hs.
  - intros b s Hs. by destruct b.
  - apply showNotification_no_poll.
  - apply new_timer_no_poll.
  - intros h s _. apply clearInterval_no_poll.
  - intros h t s _ _. apply clearInterval_no_poll.
  - by intros n s Hs.
  - by intros n s Hs.
Qed.

(** A cancelled timer stays cancelled: ids are not handed out twice. *)
Lemma cancelled_run events p h :
  cancelled h (dashboard p) → cancelled h (dashboard (run events p)).
Proof.
  apply (keeps_run (cancelled h)); clear; unfold cancelled.
  - intros s s' Hv Hs. by injection Hv as -> -> _ _ _ _ _.
  - intros b s Hs. by destruct b.
  - intros m t s [Hl Hh].
    destruct (showNotification_old_timers m t s h Hh) as [E Hh'].
    by rewrite E.
  - intros t s _ [Hl Hh]. cbn [new_timer set_timers timers next_handle].
    split; [|lia]. rewrite lookup_insert_ne by lia. done.
  - intros s [Hl Hh]. rewrite restarted_timers.
    cbn [restarted set_updateInterval new_timer set_timers next_handle].
    rewrite clear_updateInterval_next. split; [|lia].
    rewrite lookup_insert_ne by lia.
    unfold clear_updateInterval. destruct (updateInterval s); [|done].
    cbn [state_of modify clearInterval set_timers timers].
    by apply lookup_delete_None; right.
  - intros h' s _ [Hl Hh]. cbn [clearInterval set_timers timers next_handle].
    split; [|done]. by apply lookup_delete_None; right.
  - intros h' t s _ _ [Hl Hh].
    cbn [clearInterval set_timers timers next_handle].
    split; [|done]. by apply lookup_delete_None; right.
  - by intros n s Hs.
  - by intros n s Hs.
Qed.

Lemma fire_cancelled h net s :
  cancelled h s → state_of (fire h net s) = s.
Proof. intros [Hl _]. unfold fire. by rewrite Hl. Qed.

End Instances.

(** X22.  Every poll leaves the class of the connectivity indicator in
    agreement with [isConnected], and no sequence of events breaks the
    agreement: listeners, timers, the close button of a toast and the
    five commands. *)
Theorem connection_mark_consistent :
  (∀ now stats objs s,
     mark_consistent (state_of (updateData now stats objs s))) ∧
  (∀ events p,
     mark_consistent (dashboard p) →
     mark_consistent (dashboard (run events p))).
Proof.
  split; [|intros events p; apply mark_consistent_run].
  intros now stats objs s. unfold mark_consistent.
  destruct stats as [|[] [sd|]], objs as [|[] [od|]]; try reflexivity.
  destruct (objects od) as [l|] eqn:Hl.
  - rewrite (updateData_succeeded _ _ _ _ _ Hl). cbn [state_of].
    rewrite apply_analytics_document, updateObjectsTable_closed.
    unfold apply_analytics.
    destruct (analytics sd) as [a|]; [match goal with |- context [a !! ?k] => destruct (a !! k) end|];
      unfold apply_status; by destruct (is_running sd).
  - unfold updateData. unfold_js. cbn [negb orb]. rewrite Hl.
    by destruct (is_running sd).
Qed.

(** X21.  No handler cancels a health-check timer: once live it stays
    live, unchanged, through every sequence of events, the [beforeunload]
    listener and the start and stop commands among them. *)
Theorem health_timer_never_cancelled h t events p :
  timers_ok (dashboard p) →
  timers (dashboard p) !! h = Some t → is_health_timer t = true →
  timers (dashboard (run events p)) !! h = Some t.
Proof.
  intros Hok Hl Ht.
  by destruct (health_live_run h t Ht events p (conj Hok Hl)).
Qed.

(** X20.  On every page the script can reach, whatever events came
    before and after [DOMContentLoaded], at most one poll timer is live,
    and it is the one [updateInterval] names. *)
Theorem at_most_one_poll_timer page p h h' t t' :
  reachable page p →
  timers (dashboard p) !! h = Some t → is_poll_timer t = true →
  timers (dashboard p) !! h' = Some t' → is_poll_timer t' = true →
  h = h' ∧ updateInterval (dashboard p) = Some h.
Proof.
  intros Hr Hl Hp Hl' Hp'.
  pose proof (reachable_timers_ok page p Hr) as Hok.
  pose proof (ok_tracked _ Hok _ _ Hl Hp) as E.
  pose proof (ok_tracked _ Hok _ _ Hl' Hp') as E'.
  split; [congruence|done].
Qed.

(** * The page in the background *)

(** C4, as the code has it.  A page the script can reach, its listeners
    registered, goes to the background, any events follow that do not
    bring it back, then it becomes visible again.  Hiding fetches
    nothing and cancels the poll timer; no poll timer is live at any moment of the stay, and the
    id that [updateInterval] held does nothing when it comes due, so no
    poll tick fires.  Each health-check timer stays live throughout and
    still probes [/health] when it comes due.  Becoming visible
    registers the one poll timer anew and polls at once; the
    health-check timers are as they were. *)
Theorem visibility_cancels_poll_only page net net' events p :
  reachable page p → listening p = true → stays_hidden events →
  fetches (dashboard (hidden_through net [] p)) = fetches (dashboard p) ∧
  no_poll_timer (dashboard (hidden_through net events p)) ∧
  (∀ hp net0,
     updateInterval (dashboard p) = Some hp →
     dashboard (dispatch (TimerDue hp net0) (hidden_through net events p))
     = dashboard (hidden_through net events p)) ∧
  (∀ h t, timers (dashboard p) !! h = Some t → is_health_timer t = true →
          timers (dashboard (hidden_through net events p)) !! h = Some t ∧
          (∀ net0,
             fetches (dashboard (dispatch (TimerDue h net0)
                                   (hidden_through net events p)))
             = (fetches (dashboard (hidden_through net events p))
                ++ ["GET /health"])%list) ∧
          timers (dashboard (shown_after net net' events p)) !! h = Some t) ∧
  (∃ h, updateInterval (dashboard (shown_after net net' events p)) = Some h ∧
        timers (dashboard (shown_after net net' events p)) !! h
        = Some poll_timer ∧
        ∀ h' t, timers (dashboard (shown_after net net' events p)) !! h' = Some t →
                is_poll_timer t = true → h' = h) ∧
  fetches (dashboard (shown_after net net' events p))
  = (fetches (dashboard (hidden_through net events p)) ++ poll_requests)%list.
Proof.
  intros Hr Hlis Hev.
  pose proof (reachable_timers_ok page p Hr) as Hok.
  destruct (hidden_cancels_poll net (dashboard p) Hok)
    as (sh & Eh & Hsh & Hno & Hkeep & Hf).
  set (ph := dispatch (VisibilityChange true net) p).
  assert (Eph : dashboard ph = sh).
  { unfold ph. cbn [dispatch]. rewrite Hlis. cbn [on_dashboard dashboard].
    by rewrite Eh. }
  set (pk := hidden_through net events p).
  assert (Epk : pk = run events ph) by done.
  assert (Hokk : timers_ok (dashboard pk)).
  { rewrite Epk. apply timers_ok_run. by rewrite Eph. }
  assert (Hlisk : listening pk = true).
  { rewrite Epk, run_listening. unfold ph. by rewrite dispatch_listening. }
  destruct (visible_restarts_poll net' (dashboard pk) Hokk)
    as (sv & Ev & _ & Hu & Hp & Hone & Hkeep' & Hf').
  assert (Epv : dashboard (shown_after net net' events p) = sv).
  { unfold shown_after. fold pk. cbn [dispatch]. rewrite Hlisk.
    cbn [on_dashboard dashboard]. by rewrite Ev. }
  assert (Hlive : ∀ h t, timers (dashboard p) !! h = Some t →
                         is_health_timer t = true →
                         timers (dashboard pk) !! h = Some t).
  { intros h t Hl Ht. rewrite Epk.
    apply (health_live_run h t Ht events ph). split; rewrite Eph; [done|].
    apply Hkeep; [done|]. by apply health_timer_not_poll. }
  rewrite Epv. split; [|split; [|split; [|split; [|split]]]].
  - change (hidden_through net [] p) with ph. by rewrite Eph.
  - rewrite Epk. apply no_poll_run_hidden; [done|]. by rewrite Eph.
  - intros hp net0 Hhp. cbn [dispatch on_dashboard dashboard].
    apply fire_cancelled. rewrite Epk. apply cancelled_run.
    rewrite Eph. cbn [visibilitychange] in Eh.
    unfold clear_updateInterval in Eh. rewrite Hhp in Eh.
    injection Eh as <-. split.
    + cbn [clearInterval set_timers timers]. apply lookup_delete_eq.
    + cbn [clearInterval set_timers next_handle].
      by apply (ok_named_old _ Hok).
  - intros h t Hl Ht. pose proof (Hlive h t Hl Ht) as Hk.
    split; [done|]. split.
    + intros net0. cbn [dispatch on_dashboard dashboard].
      by apply (fire_health_timer h t).
    + apply Hkeep'; [done|]. by apply health_timer_not_poll.
  - exists (next_handle (dashboard pk)). eauto.
  - done.
Qed.

Section ToastIdentity.

Lemma fmap_node_leave (l : list Notification) :
  n_node <$> (leave <$> l) = n_node <$> l.
Proof. rewrite <- list_fmap_compose. by apply list_fmap_ext. Qed.

Lemma toasts_fresh_run events p :
  toasts_fresh (dashboard p) → toasts_fresh (dashboard (run events p)).
Proof.
  apply (keeps_run toasts_fresh); clear p events; unfold toasts_fresh.
  - intros s s' [= _ _ _ _ _ Hn Hk]. by rewrite Hn, Hk.
  - by intros [] s.
  - intros m t s [Hlt Hnd]. rewrite showNotification_document.
    cbn [notifications next_node set_notifications set_next_node]. split.
    + apply Forall_app. split.
      * apply Forall_fmap. eapply Forall_impl; [exact Hlt|].
        intros x Hx. unfold compose, leave. cbn [n_node]. cbn beta in Hx. lia.
      * apply Forall_singleton. cbn [toast n_node]. lia.
    + rewrite fmap_app, fmap_node_leave. apply NoDup_app. split; [done|].
      split; [|apply NoDup_singleton].
      intros n Hn Hn'. cbn in Hn'. apply list_elem_of_singleton in Hn'. subst n.
      apply list_elem_of_fmap in Hn as (x & Hx & Hin).
      rewrite Forall_forall in Hlt. specialize (Hlt x Hin). cbn beta in Hlt. lia.
  - done.
  - intros s. unfold restarted, clear_updateInterval.
    by destruct (updateInterval s).
  - done.
  - done.
  - intros n s [Hlt Hnd].
    cbn [document upd_document remove_node notifications next_node
         set_notifications]. split.
    + rewrite Forall_forall in Hlt |- *. intros x Hx.
      apply list_elem_of_filter in Hx as [_ Hx]. by apply Hlt.
    + eapply sublist_NoDup; [exact Hnd|].
      apply fmap_sublist, sublist_filter.
  - intros n s [Hlt Hnd].
    cbn [document upd_document leave_node notifications next_node
         set_notifications]. split.
    + apply Forall_fmap. eapply Forall_impl; [exact Hlt|].
      intros x Hx. unfold compose. cbn beta in Hx.
      case_decide; unfold leave; cbn [n_node]; lia.
    + replace (n_node <$> _) with (n_node <$> notifications (document s)); [done|].
      rewrite <- list_fmap_compose. apply list_fmap_ext.
      intros i x _. unfold compose. by case_decide.
Qed.

End ToastIdentity.

Section StartStop.

Lemma toast_after_log_console message type line s :
  toast message type (log_console line s) = toast message type s.
Proof. done. Qed.





End StartStop.

Section Typing.

Local Open Scope nat_scope.

Variables titleText subtitleText : list ascii.

Lemma take_charAt (text : list ascii) (i : nat) :
  i < length text → (take i text ++ charAt text i)%list = take (S i) text.
Proof.
  intros Hi. unfold charAt.
  destruct (lookup_lt_is_Some_2 text i Hi) as [c Hc]. rewrite Hc.
  by rewrite (take_S_r _ _ _ Hc).
Qed.

Lemma tick_title (i : nat) :
  i < length titleText →
  typing_tick titleText subtitleText (typing_title titleText i) = typing_title titleText (S i).
Proof.
  intros Hi. unfold typing_tick, typing_title, typeTitle.
  cbn [typing_pending titleIndex heroTitle heroSubtitle subtitleIndex
       typing_elapsed].
  rewrite decide_True by done. rewrite take_charAt by done.
  f_equal; repeat case_decide; try done; lia.
Qed.

Lemma tick_title_end :
  typing_tick titleText subtitleText (typing_title titleText (length titleText))
  = typing_subtitle titleText subtitleText 0.
Proof.
  unfold typing_tick, typing_title, typing_subtitle, typeTitle.
  cbn [typing_pending titleIndex heroTitle heroSubtitle subtitleIndex
       typing_elapsed].
  rewrite decide_False by lia. rewrite firstn_all.
  f_equal. repeat case_decide; lia.
Qed.

Lemma tick_subtitle (j : nat) :
  j < length subtitleText →
  typing_tick titleText subtitleText (typing_subtitle titleText subtitleText j)
  = typing_subtitle titleText subtitleText (S j).
Proof.
  intros Hj. unfold typing_tick, typing_subtitle, typeSubtitle.
  cbn [typing_pending titleIndex heroTitle heroSubtitle subtitleIndex
       typing_elapsed].
  rewrite decide_True by done. rewrite take_charAt by done.
  f_equal. repeat case_decide; lia.
Qed.

Lemma tick_subtitle_end :
  typing_tick titleText subtitleText (typing_subtitle titleText subtitleText (length subtitleText))
  = typing_finished titleText subtitleText.
Proof.
  unfold typing_tick, typing_subtitle, typing_finished, typeSubtitle.
  cbn [typing_pending titleIndex heroTitle heroSubtitle subtitleIndex
       typing_elapsed].
  rewrite decide_False by lia. rewrite firstn_all.
  f_equal. repeat case_decide; lia.
Qed.

Lemma tick_finished :
  typing_tick titleText subtitleText (typing_finished titleText subtitleText)
  = typing_finished titleText subtitleText.
Proof. done. Qed.

Lemma typing_phase (k : nat) :
  (k ≤ length titleText ∧
   typing_run titleText subtitleText k = typing_title titleText k)
  ∨ (∃ j, j ≤ length subtitleText ∧ k = length titleText + 1 + j ∧
          typing_run titleText subtitleText k
          = typing_subtitle titleText subtitleText j)
  ∨ (length titleText + length subtitleText + 2 ≤ k ∧
     typing_run titleText subtitleText k = typing_finished titleText subtitleText).
Proof.
  induction k as [|k IH].
  - left. split; [lia|]. done.
  - replace (typing_run titleText subtitleText (S k))
      with (typing_tick titleText subtitleText
              (typing_run titleText subtitleText k)) by done.
    destruct IH as [[Hk ->]|[(j & Hj & -> & ->)|[Hk ->]]].
    + destruct (decide (k = length titleText)) as [->|Hne].
      * right; left. exists 0. split; [lia|]. split; [lia|].
        apply tick_title_end.
      * left. split; [lia|]. apply tick_title. lia.
    + destruct (decide (j = length subtitleText)) as [->|Hne].
      * right; right. split; [lia|]. apply tick_subtitle_end.
      * right; left. exists (S j). split; [lia|]. split; [lia|].
        apply tick_subtitle. lia.
    + right; right. split; [lia|]. apply tick_finished.
Qed.

(** X30.  The typing animation ends: once as many timers have come due as
    both texts have units, plus two, the title and the subtitle read
    the original texts, no timer is pending and 1000 + 100 per title
    unit + 500 + 50 per subtitle unit milliseconds of delays have
    passed; until then a timer is always pending, and at every moment
    what is shown is a prefix of the original texts. *)
Theorem typing_animation_completes :
  (∀ k, length titleText + length subtitleText + 2 ≤ k →
        typing_run titleText subtitleText k = typing_finished titleText subtitleText) ∧
  (∀ k, heroTitle (typing_run titleText subtitleText k) `prefix_of` titleText ∧
        heroSubtitle (typing_run titleText subtitleText k) `prefix_of` subtitleText ∧
        (k < length titleText + length subtitleText + 2 →
         is_Some (typing_pending (typing_run titleText subtitleText k)))).
Proof.
  split.
  - intros k Hk.
    destruct (typing_phase k) as [[Hk' _]|[(j & Hj & -> & _)|[_ ->]]];
      [lia|lia|done].
  - intros k.
    destruct (typing_phase k) as [[Hk' ->]|[(j & Hj & -> & ->)|[Hk' ->]]].
    + cbn. split; [apply prefix_take|]. split; [apply prefix_nil|]. by eexists.
    + cbn. split; [done|]. split; [apply prefix_take|]. by eexists.
    + cbn. split; [done|]. split; [done|]. lia.
Qed.

End Typing.

Section ModalProps.

Variable markup : ModalMarkup.

Lemma projectData_keys id project :
  projectData !! id = Some project →
  (id = "lokatani" ∧ project = project_lokatani)
  ∨ (id = "smart-door" ∧ project = project_smart_door)
  ∨ (id = "network-simulation" ∧ project = project_network_simulation)
  ∨ (id = "iot-hardware" ∧ project = project_iot_hardware).
Proof.
  intros E. unfold projectData in E. apply elem_of_list_to_map_2 in E.
  rewrite !elem_of_cons, elem_of_nil in E.
  destruct E as [[= -> ->]|[[= -> ->]|[[= -> ->]|[[= -> ->]|[]]]]]; auto.
Qed.

(** X24.  On a page with all modal elements, a click on the card of a
    project of [projectData] shows the modal, locks the page scroll and
    fills in that project's title, role and content, with one tag per
    technology; the picture is included for the project [lokatani]
    only. *)
Theorem card_click_opens_modal id project m :
  markup_complete markup = true →
  projectData !! id = Some project →
  modal_display (modal_step markup (CardClick id) m) = "block" ∧
  body_overflow (modal_step markup (CardClick id) m) = "hidden" ∧
  modalTitle (modal_step markup (CardClick id) m) = title project ∧
  modalRole (modal_step markup (CardClick id) m) = role project ∧
  modalContent (modal_step markup (CardClick id) m)
  = Some (content_of project) ∧
  length (content_tags (content_of project)) = length (technologies project) ∧
  (is_Some (content_image (content_of project)) ↔ id = "lokatani").
Proof.
  unfold markup_complete. intros Hm Hp.
  repeat (apply andb_true_iff in Hm as [Hm ?]).
  unfold modal_step, showProjectModal. rewrite Hp.
  repeat match goal with H : _ = true |- _ => rewrite H; clear H end.
  cbn [negb orb]. repeat split; try done.
  - intros [x Hx].
    destruct (projectData_keys _ _ Hp) as [[-> ->]|[[-> ->]|[[-> ->]|[-> ->]]]];
      done.
  - intros ->. vm_compute in Hp. injection Hp as <-. by eexists.
Qed.

(** X25.  A click on a card whose project id is not in [projectData], or on
    a page that lacks one of the modal elements, changes nothing. *)
Theorem card_click_ignored id m :
  id ∉ inherited_keys →
  projectData !! id = None ∨ markup_complete markup = false →
  modal_step markup (CardClick id) m = m.
Proof.
  intros _ [Hp|Hm]; unfold modal_step, showProjectModal.
  - rewrite Hp. by destruct (_ || _).
  - unfold markup_complete in Hm.
    destruct (has_projectModal markup), (has_close markup),
      (has_modalTitle markup), (has_modalRole markup),
      (has_modalContent markup); try discriminate Hm; cbn [negb orb andb];
      try done; by destruct (projectData !! id).
Qed.

Lemma modal_step_lock e m :
  scroll_lock_matches m → scroll_lock_matches (modal_step markup e m).
Proof.
  intros Hm. unfold modal_step.
  assert (Hclose : scroll_lock_matches (closeModal m)) by (by right).
  assert (Hshow : ∀ p, scroll_lock_matches (showProjectModal markup p m)).
  { intros p. unfold showProjectModal. destruct (_ || _); [done|]. by left. }
  destruct e; try (destruct (_ || _); [done|]); try done.
  - by destruct (projectData !! projectId).
  - by destruct on_modal.
  - repeat case_decide; done.
  - case_decide; [done|]. exact Hm.
Qed.

(** X26.  Through every sequence of modal events the page scroll is locked
    exactly while the modal is shown. *)
Theorem scroll_locked_while_modal_open events m :
  scroll_lock_matches m →
  scroll_lock_matches (foldl (λ m e, modal_step markup e m) m events).
Proof.
  revert m. induction events as [|e events IH]; intros m Hm; [done|].
  cbn [foldl]. by apply IH, modal_step_lock.
Qed.

(** X27.  The close button, a click on the backdrop and the Escape key each
    close an open modal, unlock the page scroll and keep what the modal
    holds; Escape on a modal that is not shown, and a click elsewhere,
    change nothing. *)
Theorem modal_closes e m :
  has_projectModal markup && has_close markup = true →
  (closes e = true → modal_display m = "block" →
   modal_display (modal_step markup e m) = "none" ∧
   body_overflow (modal_step markup e m) = "auto" ∧
   modalTitle (modal_step markup e m) = modalTitle m ∧
   modalContent (modal_step markup e m) = modalContent m) ∧
  (∀ key, modal_display m ≠ "block" →
          modal_step markup (ModalKey key) m = m) ∧
  modal_step markup (WindowClick false) m = m.
Proof.
  intros Hm. apply andb_true_iff in Hm as [H1 H2].
  unfold modal_step. rewrite H1, H2. cbn [negb orb]. split; [|split].
  - intros Hc Hd. destruct e; cbn [closes] in Hc; try discriminate Hc.
    + done.
    + by rewrite Hc.
    + apply bool_decide_eq_true in Hc. subst key.
      by rewrite !decide_True by done.
  - intros key Hd. case_decide; [|done]. by rewrite decide_False.
  - done.
Qed.

End ModalProps.

Section MenuHeader.

Lemma classList_remove_spec c c' l :
  c' ∈ classList_remove c l ↔ c' ∈ l ∧ c' ≠ c.
Proof. unfold classList_remove. rewrite list_elem_of_filter. tauto. Qed.

Lemma classList_add_spec c c' l :
  c' ∈ classList_add c l ↔ c' ∈ l ∨ c' = c.
Proof.
  unfold classList_add. case_decide as Hc.
  - split; [auto|]. intros [?| ->]; done.
  - rewrite elem_of_app, list_elem_of_singleton. tauto.
Qed.

Lemma classList_toggle_spec c c' l :
  c' ∈ classList_toggle c l ↔ (c' ≠ c ∧ c' ∈ l) ∨ (c' = c ∧ c ∉ l).
Proof.
  unfold classList_toggle. case_decide as Hc.
  - rewrite classList_remove_spec. split; [tauto|]. intros [[??]|[_ ?]]; tauto.
  - rewrite classList_add_spec. split.
    + intros [H| ->]; [|tauto]. left. split; [|done]. by intros ->.
    + intros [[_ ?]|[-> _]]; tauto.
Qed.

(** X28.  A click on the mobile menu flips the class [show] of the
    navigation links and no other class; two clicks restore the
    classes; without one of the two elements nothing happens. *)
Theorem menu_click_toggles (l : list string) :
  ("show" ∈ menu_click true true l ↔ "show" ∉ l) ∧
  (∀ c, c ≠ "show" → (c ∈ menu_click true true l ↔ c ∈ l)) ∧
  (∀ c, c ∈ menu_click true true (menu_click true true l) ↔ c ∈ l) ∧
  (∀ a b, a && b = false → menu_click a b l = l).
Proof.
  unfold menu_click. cbn [andb]. split; [|split; [|split]].
  - rewrite classList_toggle_spec. tauto.
  - intros c Hc. rewrite classList_toggle_spec. tauto.
  - intros c. rewrite !classList_toggle_spec.
    destruct (decide (c = "show")) as [->|Hne]; [|tauto].
    destruct (decide ("show" ∈ l)); tauto.
  - intros a b ->. done.
Qed.

Lemma Qgt_bool_iff a b : Qgt_bool a b = true ↔ (b < a)%Q.
Proof.
  unfold Qgt_bool. rewrite negb_true_iff. split.
  - intros H. apply Qnot_le_lt. intros Hle.
    apply Qle_bool_iff in Hle. congruence.
  - intros H. destruct (Qle_bool a b) eqn:E; [|done].
    apply Qle_bool_iff in E. by apply Qle_not_lt in E.
Qed.

Lemma Qgt_bool_false_iff a b : Qgt_bool a b = false ↔ (a <= b)%Q.
Proof.
  unfold Qgt_bool. rewrite negb_false_iff. apply Qle_bool_iff.
Qed.

(** X29.  The scroll position is [pageYOffset], or the document's
    [scrollTop] when that is zero.  The header is hidden exactly when
    the position has grown and is beyond 100, has no shadow exactly up
    to 50, and the scroll-to-top button is visible exactly beyond 300;
    all three bounds are strict. *)
Theorem scroll_thresholds (pageYOffset docScrollTop : Q) (h : Header)
    (b : ScrollTopBtn) :
  (¬ (pageYOffset == 0)%Q →
   lastScrollTop (header_scroll pageYOffset docScrollTop h) = pageYOffset) ∧
  ((pageYOffset == 0)%Q →
   lastScrollTop (header_scroll pageYOffset docScrollTop h) = docScrollTop) ∧
  (header_transform (header_scroll pageYOffset docScrollTop h)
   = "translateY(-100%)"
   ↔ (lastScrollTop h < or_number pageYOffset docScrollTop)%Q
     ∧ (100 < or_number pageYOffset docScrollTop)%Q) ∧
  (header_transform (header_scroll pageYOffset docScrollTop h)
   = "translateY(0)"
   ↔ (or_number pageYOffset docScrollTop <= lastScrollTop h)%Q
     ∨ (or_number pageYOffset docScrollTop <= 100)%Q) ∧
  (header_boxShadow (header_scroll pageYOffset docScrollTop h) = "none"
   ↔ (or_number pageYOffset docScrollTop <= 50)%Q) ∧
  (btn_visibility (scrollTopBtn_scroll pageYOffset b) = "visible"
   ↔ (300 < pageYOffset)%Q).
Proof.
  unfold header_scroll, scrollTopBtn_scroll.
  cbn [lastScrollTop header_transform header_boxShadow].
  set (st := or_number pageYOffset docScrollTop).
  rewrite <- !Qgt_bool_iff, <- !Qgt_bool_false_iff.
  rewrite <- andb_true_iff, <- andb_false_iff.
  split; [|split; [|split; [|split; [|split]]]].
  - intros Hne. subst st. unfold or_number.
    destruct (Qeq_bool pageYOffset 0) eqn:E; [|done].
    by apply Qeq_bool_iff in E.
  - intros He. subst st. unfold or_number.
    by rewrite (proj2 (Qeq_bool_iff _ _) He).
  - by destruct (_ && _).
  - by destruct (_ && _).
  - by destruct (Qgt_bool st 50).
  - by destruct (Qgt_bool pageYOffset 300).
Qed.

End MenuHeader.

(** * The further properties at work *)

Lemma demo_started_timers_ok : timers_ok demo_started.
Proof. exact (preserves_initialize demo_net _ (initial_state_ok demo_page)). Qed.

Lemma demo_started_toasts_fresh : toasts_fresh demo_started.
Proof.
  unfold toasts_fresh.
  replace (notifications (document demo_started))
    with [toast "📊 Switched to Day view" "info" (initial_state demo_page)]
    by reflexivity.
  replace (next_node (document demo_started)) with 1 by reflexivity.
  split; [apply Forall_singleton; cbn; lia | apply NoDup_singleton].
Qed.

Lemma updateData_rejected_keeps_rendered_witness :
  ∃ s', updateData "12:00:06" (Response true None) (objects_ok []) demo_started
        = Normal tt s' ∧
        isConnected s' = false ∧
        rendered_data s' = rendered_data demo_started.
Proof.
  destruct (updateData_rejected_keeps_rendered "12:00:06" demo_started
              (Response true None) (objects_ok []) eq_refl)
    as (s' & Hs' & Hc & _ & Hr & _).
  by exists s'.
Defined.

Lemma resetCount_request_failed_witness :
  ∃ s', resetCount true NetworkError demo_started = Normal tt s' ∧
        rendered_data s' = rendered_data demo_started.
Proof.
  destruct (resetCount_request_failed NetworkError demo_started eq_refl)
    as (s' & Hs' & _ & Hr & _).
  by exists s'.
Defined.

Lemma generateSampleData_fallback_witness :
  generateSampleData "year" = sample_day.
Proof.
  assert (Hk : "year" ∉ inherited_keys)
    by (apply (bool_decide_unpack _); exact I).
  destruct (generateSampleData_fallback "year" Hk) as (Hd & _).
  by apply Hd.
Defined.


Lemma changePeriod_theme_and_toast_witness :
  ∃ s', changePeriod "month" demo_started = Normal tt s' ∧
        dataset_borderColor (analyticsChart s') = "#4facfe" ∧
        n_message <$> last (notifications (document s'))
        = Some "📊 Switched to Month view".
Proof.
  destruct (changePeriod_theme_and_toast "month"
              {| gradient := ("#4facfe", "#00f2fe");
                 background := "rgba(79, 172, 254, 0.1)";
                 border := "#4facfe" |}
              demo_started eq_refl eq_refl)
    as (s' & Hs' & _ & Hb & _ & Hl & _).
  exists s'. split; [done|]. split; [done|]. by rewrite Hl.
Defined.

Lemma swipe_right_cycles_back_witness :
  currentPeriod (swipe 100 300 demo_started) = "month" ∧
  currentPeriod (swipe 300 100 (swipe 100 300 demo_started)) = "day".
Proof.
  destruct (swipe_right_cycles_back demo_started 100 300 300 100)
    as (Hday & _ & _ & Hback & _); [lia | lia | by left |].
  split; [by apply Hday | exact Hback].
Defined.

Lemma swipe_from_unknown_period_witness :
  currentPeriod (swipe 300 100 (set_currentPeriod "year" demo_started)) = "day" ∧
  currentPeriod (swipe 100 300 (set_currentPeriod "year" demo_started))
  = "undefined".
Proof.
  assert (Hp : currentPeriod (set_currentPeriod "year" demo_started) ∉ periods)
    by (apply (bool_decide_unpack _); exact I).
  split.
  - destruct (swipe_from_unknown_period
                (set_currentPeriod "year" demo_started) 300 100 Hp)
      as [Hleft _]; [lia|]. apply Hleft. lia.
  - destruct (swipe_from_unknown_period
                (set_currentPeriod "year" demo_started) 100 300 Hp)
      as [_ Hright]; [lia|]. by destruct Hright as [Hu _]; [lia|].
Defined.

Lemma initialize_registers_timers_witness :
  has_control "day" demo_page = true ∧
  ∃ hp, updateInterval demo_started = Some hp ∧
        timers demo_started !! hp = Some poll_timer ∧
        timers demo_started !! Pos.succ hp = Some health_timer.
Proof.
  split; [reflexivity|].
  destruct (initialize_registers_timers demo_net demo_page eq_refl)
    as (s' & hp & Hs' & Hu & Hp & Hh & _).
  assert (E : s' = demo_started).
  { unfold demo_started. by rewrite Hs'. }
  subst s'. by exists hp.
Defined.


Lemma toast_dismissed_then_removed_witness :
  ∃ ha hr s2 s3,
    fire ha demo_net (showNotification "hello" "info" demo_started)
    = Normal tt s2 ∧
    fire hr demo_net s2 = Normal tt s3 ∧
    notifications (document s3)
    = leave <$> notifications (document demo_started).
Proof.
  destruct (toast_dismissed_then_removed "hello" "info" demo_net demo_started
              demo_started_toasts_fresh)
    as (ha & hr & s2 & s3 & _ & H2 & _ & _ & _ & H3 & Hn & _).
  by exists ha, hr, s2, s3.
Defined.

Lemma at_most_one_poll_timer_witness :
  reachable demo_page
    (run (demo_background ++ [VisibilityChange false demo_net]) demo_loaded) ∧
  updateInterval
    (dashboard (run (demo_background ++ [VisibilityChange false demo_net])
                  demo_loaded))
  = Some 11%positive.
Proof.
  assert (Hr : reachable demo_page
                 (run (demo_background ++ [VisibilityChange false demo_net])
                    demo_loaded))
    by apply reachable_run, (reach_loaded demo_page demo_net _ _ []).
  split; [exact Hr|].
  by destruct (at_most_one_poll_timer demo_page _ 11 11
                 poll_timer poll_timer Hr eq_refl eq_refl eq_refl eq_refl).
Defined.

Lemma health_timer_never_cancelled_witness :
  timers (dashboard
            (run (demo_background ++
                  [VisibilityChange false demo_net; CallStopDetection command_ok;
                   BeforeUnload])
               demo_loaded)) !! 3%positive
  = Some health_timer.
Proof.
  apply (health_timer_never_cancelled 3 health_timer _ demo_loaded
           demo_started_timers_ok); reflexivity.
Defined.

Lemma visibility_cancels_poll_only_witness :
  reachable demo_page demo_loaded ∧
  listening demo_loaded = true ∧
  stays_hidden demo_background ∧
  no_poll_timer (dashboard (hidden_through demo_net demo_background demo_loaded)) ∧
  timers (dashboard (hidden_through demo_net demo_background demo_loaded))
    !! 3%positive = Some health_timer ∧
  fetches (dashboard (shown_after demo_net demo_net demo_background demo_loaded))
  = (fetches (dashboard (hidden_through demo_net demo_background demo_loaded))
     ++ poll_requests)%list.
Proof.
  assert (Hev : stays_hidden demo_background) by (repeat constructor).
  destruct (visibility_cancels_poll_only demo_page demo_net demo_net
              demo_background demo_loaded
              (reach_loaded demo_page demo_net _ _ []) eq_refl Hev)
    as (_ & Hno & _ & Hh & _ & Hf).
  split; [apply (reach_loaded demo_page demo_net _ _ [])|].
  split; [reflexivity|]. split; [exact Hev|]. split; [exact Hno|].
  split; [|exact Hf].
  by destruct (Hh 3%positive health_timer eq_refl eq_refl) as [Hk _].
Defined.

(** A re-fetch that a command scheduled with [setTimeout] is no poll
    timer: on the demo page it comes due in the background and fetches
    the two endpoints once. *)
Lemma refetch_runs_in_background :
  timers (dashboard
            (run [TimerDue 3 demo_net; CallStartDetection command_ok]
               (dispatch (VisibilityChange true demo_net) demo_loaded)))
    !! 7%positive
  = Some refetch_timer ∧
  fetches (dashboard
             (run [TimerDue 3 demo_net; CallStartDetection command_ok;
                   TimerDue 7 demo_net]
                (dispatch (VisibilityChange true demo_net) demo_loaded)))
  = (fetches (dashboard
                (run [TimerDue 3 demo_net; CallStartDetection command_ok]
                   (dispatch (VisibilityChange true demo_net) demo_loaded)))
     ++ poll_requests)%list.
Proof. by vm_compute. Qed.

Lemma card_click_opens_modal_witness :
  modal_display (modal_step demo_markup (CardClick "lokatani") demo_modal)
  = "block" ∧
  modalTitle (modal_step demo_markup (CardClick "lokatani") demo_modal)
  = "STARFINDO Road Damage Detection".
Proof.
  destruct (card_click_opens_modal demo_markup "lokatani" project_lokatani
              demo_modal eq_refl eq_refl) as (Hd & _ & Ht & _).
  by split.
Defined.

Lemma card_click_ignored_witness :
  modal_step demo_markup (CardClick "unknown") demo_modal = demo_modal.
Proof.
  apply card_click_ignored.
  - apply (bool_decide_unpack _). exact I.
  - left. reflexivity.
Defined.

Lemma scroll_locked_while_modal_open_witness :
  scroll_lock_matches demo_modal ∧
  scroll_lock_matches
    (foldl (λ m e, modal_step demo_markup e m) demo_modal
       [CardClick "lokatani"; EntranceDue; ModalKey "Escape";
        CardClick "iot-hardware"]).
Proof.
  assert (H0 : scroll_lock_matches demo_modal) by (by right).
  split; [exact H0|].
  by apply scroll_locked_while_modal_open.
Defined.

Lemma modal_closes_witness :
  body_overflow
    (modal_step demo_markup CloseClick
       (modal_step demo_markup (CardClick "lokatani") demo_modal)) = "auto".
Proof.
  destruct (modal_closes demo_markup CloseClick
              (modal_step demo_markup (CardClick "lokatani") demo_modal)
              eq_refl) as [Hclose _].
  by destruct (Hclose eq_refl eq_refl) as (_ & Ho & _).
Defined.

